(** * easypulse: the synchronous bridge, the volume/mute controller and the
      default-device switcher, embedded from the C sources.

    Sources embedded here:
    - [v-0.14/easypulse_core.c]  ([iterate], [manager_set_master_volume],
      [manager_toggle_output_mute], [manager_switch_default_output],
      [manager_set_output_mute_state], [manager_move_output_playback] and
      their callbacks);
    - [v-0.12/system_query.c]    ([iterate], [get_output_device_by_index],
      [get_output_device_index_by_code], [get_output_device_count],
      [get_input_device_count], [get_available_input_devices],
      [get_available_output_devices], [get_channel_volume],
      [get_muted_output_status], [get_output_channel_mute_state],
      [get_output_name_by_code], [get_output_device_by_name] and their
      callbacks);
    - [v-0.03/easypulse_core.c]  ([iterate], [set_volume], [load_devices],
      [initialize], [switch_device] and their callbacks).

    The PulseAudio client library and the audio server are the environment:
    module [Pulse] fixes the constants of [pulse/volume.h], the shape of the
    callbacks, and a deterministic mock server. *)

From Stdlib Require Import ZArith String Bool Lia Floats.
From stdpp Require Import base list.
Open Scope string_scope.
Open Scope list_scope.
Open Scope Z_scope.

(** ** The environment: PulseAudio types, constants and a mock server *)
Module Pulse.

(** [pulse/volume.h]: [pa_volume_t] is [uint32_t]. *)
Abbreviation pa_volume_t := Z (only parsing).
Definition PA_VOLUME_NORM : pa_volume_t := 65536.        (* 0x10000U *)
Definition PA_VOLUME_MUTED : pa_volume_t := 0.
Definition PA_VOLUME_MAX : pa_volume_t := 2147483647.    (* UINT32_MAX/2 *)
Definition UINT32_MAX : Z := 4294967295.
Definition wrap32 (z : Z) : Z := z mod 4294967296.     (* uint32_t arithmetic *)

Definition PA_CLAMP_VOLUME (v : pa_volume_t) : pa_volume_t :=
  if v <? PA_VOLUME_MUTED then PA_VOLUME_MUTED
  else if PA_VOLUME_MAX <? v then PA_VOLUME_MAX else v.

(** [pa_cvolume]: the [channels] meaningful entries of [values]; the unused
    tail of the 32-slot C array is not part of the value. *)
Abbreviation pa_cvolume := (list Z) (only parsing).

(** [pa_cvolume_set(a, channels, v)]: every channel gets the clamped [v]. *)
Definition pa_cvolume_set (channels : nat) (v : pa_volume_t) : pa_cvolume :=
  replicate channels (PA_CLAMP_VOLUME v).

(** [pa_cvolume_max]: starts from [PA_VOLUME_MUTED] and keeps the largest. *)
Definition pa_cvolume_max (a : pa_cvolume) : pa_volume_t :=
  fold_left (fun m v => if m <? v then v else m) a PA_VOLUME_MUTED.

(** [a->values[c] = v].  A slot at or past [channels] is padding of the C
    array, and the meaningful entries stay as they are; from slot 32 on the
    store is outside the array and undefined in C, and the model leaves the
    vector as it is there.  The theorems below keep the channel among the
    entries of the vector. *)
Definition cvolume_store (a : pa_cvolume) (c : Z) (v : pa_volume_t) : pa_cvolume :=
  if c <? 0 then a else <[Z.to_nat c := v]> a.

Record pa_sink_info := {
  sink_index : Z;
  sink_name : string;
  sink_description : string;
  sink_channels : nat;             (* channel_map.channels *)
  sink_volume : pa_cvolume;
  sink_mute : bool
}.

Record pa_source_info := {
  source_index : Z;
  source_name : string;
  source_description : string
}.

Record pa_card_info := { card_index : Z }.

Record pa_sink_input_info := {
  input_index : Z;                 (* id of the stream *)
  input_sink : Z                   (* index of the sink it plays on *)
}.

(** The operations the program submits. *)
Inductive request :=
| GetSinkInfoByIndex (idx : Z)
| GetSinkInfoByName (name : string)
| GetSinkInfoList
| GetSinkInputInfoList
| GetSourceInfoList
| GetCardInfoList
| SetSinkVolumeByIndex (idx : Z) (v : pa_cvolume)
| SetSinkVolumeByName (name : string) (v : pa_cvolume)
| SetSinkMuteByIndex (idx : Z) (mute : Z)
| SetDefaultSink (name : string)
| MoveSinkInputByIndex (stream : Z) (sink : Z).

Record server := {
  srv_sinks : list pa_sink_info;
  srv_sources : list pa_source_info;
  srv_cards : list pa_card_info;
  srv_default_sink : string;
  srv_sink_inputs : list pa_sink_input_info
}.

Definition find_sink_by_index (idx : Z) (s : server) : option pa_sink_info :=
  find (fun k => sink_index k =? idx) (srv_sinks s).

Definition find_sink_by_name (n : string) (s : server) : option pa_sink_info :=
  find (fun k => String.eqb (sink_name k) n) (srv_sinks s).

Definition cvolume_valid (v : pa_cvolume) : bool :=
  negb (Nat.eqb (length v) 0) && (length v <=? 32)%nat
  && forallb (fun x => (0 <=? x) && (x <=? PA_VOLUME_MAX)) v.

(** A volume write is accepted when the vector is valid and has the sink's
    channel count. *)
Definition volume_accepted (k : pa_sink_info) (v : pa_cvolume) : bool :=
  cvolume_valid v && Nat.eqb (length v) (sink_channels k).

Definition update_sinks (f : pa_sink_info -> pa_sink_info) (p : pa_sink_info -> bool)
    (s : server) : server :=
  {| srv_sinks := map (fun k => if p k then f k else k) (srv_sinks s);
     srv_sources := srv_sources s;
     srv_cards := srv_cards s; srv_default_sink := srv_default_sink s;
     srv_sink_inputs := srv_sink_inputs s |}.

Definition with_volume (v : pa_cvolume) (k : pa_sink_info) : pa_sink_info :=
  {| sink_index := sink_index k; sink_name := sink_name k;
     sink_description := sink_description k; sink_channels := sink_channels k;
     sink_volume := v; sink_mute := sink_mute k |}.

Definition with_mute (b : bool) (k : pa_sink_info) : pa_sink_info :=
  {| sink_index := sink_index k; sink_name := sink_name k;
     sink_description := sink_description k; sink_channels := sink_channels k;
     sink_volume := sink_volume k; sink_mute := b |}.

(** The mock server.  An introspection request is answered by the items
    of a list followed by the terminal [eol] (1 at the end of the list, -1
    on error); a mutating request by a success flag. *)
Definition sink_info_reply (o : option pa_sink_info) : list pa_sink_info * Z :=
  match o with
  | Some k => ([k], 1)
  | None => ([], -1)
  end.

Definition set_sink_volume (o : option pa_sink_info) (v : pa_cvolume) (s : server)
    : Z * server :=
  match o with
  | Some k =>
      if volume_accepted k v
      then (1, update_sinks (with_volume v) (fun k' => sink_index k' =? sink_index k) s)
      else (0, s)
  | None => (0, s)
  end.

Definition set_sink_mute (idx : Z) (mute : Z) (s : server) : Z * server :=
  match find_sink_by_index idx s with
  | Some _ =>
      (1, update_sinks (with_mute (negb (mute =? 0))) (fun k => sink_index k =? idx) s)
  | None => (0, s)
  end.

Definition set_default_sink (n : string) (s : server) : Z * server :=
  match find_sink_by_name n s with
  | Some _ =>
      (1, {| srv_sinks := srv_sinks s; srv_sources := srv_sources s;
             srv_cards := srv_cards s;
             srv_default_sink := n; srv_sink_inputs := srv_sink_inputs s |})
  | None => (0, s)
  end.

Definition move_sink_input (stream sink : Z) (s : server) : Z * server :=
  match find_sink_by_index sink s with
  | Some _ =>
      if existsb (fun i => input_index i =? stream) (srv_sink_inputs s)
      then (1, {| srv_sinks := srv_sinks s; srv_sources := srv_sources s;
                  srv_cards := srv_cards s;
                  srv_default_sink := srv_default_sink s;
                  srv_sink_inputs :=
                    map (fun i => if input_index i =? stream
                                  then {| input_index := stream; input_sink := sink |}
                                  else i) (srv_sink_inputs s) |})
      else (0, s)
  | None => (0, s)
  end.

(** What a run leaves behind, in program order. *)
Inductive event :=
| EvSubmit (r : request)           (* an operation handed to the server *)
| EvLock | EvUnlock                (* pa_threaded_mainloop_lock / _unlock *)
| EvWait                           (* pa_threaded_mainloop_wait entered *)
| EvSignal                         (* pa_threaded_mainloop_signal *)
| EvRealloc (slots : Z)            (* realloc of an array to [slots] entries *)
| EvReadOutputs (i : Z)            (* a read of self->outputs[i] *)
| EvStdout (msg : string)
| EvStderr (msg : string).

(** The world a call runs in: the server, the trace so far, whether the
    query layer's own connection is (or can be brought) up, the answers
    the allocator will give to the coming requests ([true]: memory granted;
    once the list is used up every request is granted), and what lies in the
    process's memory past the end of the catalog's array of outputs: at the
    [i]-th record's place either a stray word ([Some]) or no mapped memory
    ([None]: a read there is a fault).  C leaves a read outside the array
    undefined; these are the two courses it takes on the usual platforms. *)
Record world := {
  w_server : server;
  w_trace : list event;
  w_query_up : bool;
  w_heap : list bool;
  w_stray : Z -> option Z
}.

Definition log (e : event) (w : world) : world :=
  {| w_server := w_server w; w_trace := w_trace w ++ [e];
     w_query_up := w_query_up w; w_heap := w_heap w; w_stray := w_stray w |}.

(** Messages are logged without their trailing newline and without the
    values of their format arguments. *)
Definition fprintf_stderr (msg : string) : world -> world := log (EvStderr msg).
Definition printf (msg : string) : world -> world := log (EvStdout msg).

(** [malloc] and [realloc] ask the allocator ([strdup] is taken to succeed). *)
Definition alloc (w : world) : bool * world :=
  match w_heap w with
  | [] => (true, w)
  | b :: rest =>
      (b, {| w_server := w_server w; w_trace := w_trace w;
             w_query_up := w_query_up w; w_heap := rest; w_stray := w_stray w |})
  end.

Definition requests_of (t : list event) : list request :=
  omap (fun e => match e with EvSubmit r => Some r | _ => None end) t.

(** Handing a request to the server: it is logged, and the server moves
    to the state [s] (the caller cannot look at the server before the end of
    its wait, so the moment of the move within that span does not show). *)
Definition submit (r : request) (s : server) (w : world) : world :=
  {| w_server := s; w_trace := w_trace w ++ [EvSubmit r];
     w_query_up := w_query_up w; w_heap := w_heap w; w_stray := w_stray w |}.

Inductive pa_operation_state :=
| PA_OPERATION_RUNNING | PA_OPERATION_DONE | PA_OPERATION_CANCELLED.

Inductive pa_context_state_t :=
| PA_CONTEXT_UNCONNECTED | PA_CONTEXT_CONNECTING | PA_CONTEXT_AUTHORIZING
| PA_CONTEXT_SETTING_NAME | PA_CONTEXT_READY | PA_CONTEXT_FAILED
| PA_CONTEXT_TERMINATED.

Record pa_context := { ctx_state : pa_context_state_t }.

Definition context_ready (c : pa_context) : bool :=
  match ctx_state c with PA_CONTEXT_READY => true | _ => false end.

(** A callback run returns the user data, the world, and whether it called
    [pa_threaded_mainloop_signal]. *)
Definition ran (U : Type) : Type := U * world * bool.

(** One turn of the event-loop thread while the caller is inside
    [pa_threaded_mainloop_wait]: the callbacks it runs (under the loop's
    lock, so the waiter resumes only after all of them) and the state of the
    operation afterwards. *)
Record dispatch (U : Type) := {
  d_run : U -> world -> ran U;
  d_state : pa_operation_state
}.
Arguments d_run {U} _ _ _.
Arguments d_state {U} _.

(** An operation handle: its current state and the turns still to come. *)
Record pa_operation (U : Type) := {
  op_state : pa_operation_state;
  op_pending : list (dispatch U)
}.
Arguments op_state {U} _.
Arguments op_pending {U} _.

Definition pa_operation_get_state {U} (op : pa_operation U) := op_state op.

(** How a call ends: it returns, it sleeps forever inside a wait, or the
    process dies (a null pointer handed to the library, a read of memory that
    is not mapped). *)
Inductive outcome (A : Type) :=
| Returned (a : A) (w : world)
| Blocked (w : world)
| Crashed (w : world).
Arguments Returned {A} _ _.
Arguments Blocked {A} _.
Arguments Crashed {A} _.

Definition outcome_world {A} (o : outcome A) : world :=
  match o with Returned _ w => w | Blocked w => w | Crashed w => w end.

(** Sequencing: what follows a call runs only if the call returns. *)
Definition and_then {A B} (o : outcome A) (k : A -> world -> outcome B) : outcome B :=
  match o with
  | Returned a w1 => k a w1
  | Blocked w1 => Blocked w1
  | Crashed w1 => Crashed w1
  end.

(** [pa_threaded_mainloop_wait]: the caller sleeps until a turn of the
    event loop signals; turns that do not signal pass while it sleeps.
    When no turn is left the caller sleeps forever. *)
Fixpoint wait_turns {U} (ds : list (dispatch U)) (u : U) (w : world)
    : outcome (U * pa_operation U) :=
  match ds with
  | [] => Blocked w
  | d :: rest =>
      let '(u1, w1, signalled) := d_run d u w in
      if (signalled : bool)
      then Returned (u1, {| op_state := d_state d; op_pending := rest |}) w1
      else wait_turns rest u1 w1
  end.

Definition pa_threaded_mainloop_wait {U} (op : pa_operation U) (u : U) (w : world)
    : outcome (U * pa_operation U) :=
  wait_turns (op_pending op) u (log EvWait w).

Definition pa_threaded_mainloop_lock : world -> world := log EvLock.
Definition pa_threaded_mainloop_unlock : world -> world := log EvUnlock.
Definition pa_threaded_mainloop_signal : world -> world := log EvSignal.

(** A responsive server answers in one turn that runs [deliver]; the answer
    comes in after the caller has begun to wait. *)
Definition answered {U} (deliver : U -> world -> ran U) : pa_operation U :=
  {| op_state := PA_OPERATION_RUNNING;
     op_pending := [ {| d_run := deliver; d_state := PA_OPERATION_DONE |} ] |}.

(** *** The asynchronous calls of [pulse/introspect.h] and [pulse/context.h]

    Each call returns a null handle, and sends nothing, unless the context
    is READY.  A non-null handle stands for a request the server answers in
    one turn of the event loop. *)
Definition pa_context_success_cb_t (U : Type) : Type :=
  pa_context -> Z -> U -> world -> ran U.
Definition pa_info_cb_t (I U : Type) : Type :=
  pa_context -> option I -> Z -> U -> world -> ran U.

(** An info callback is called once per item with [eol = 0], then once with
    no item and the terminal [eol]. *)
Fixpoint deliver_items {I U} (cb : option I -> Z -> U -> world -> ran U)
    (items : list I) (eol : Z) (signalled : bool) (u : U) (w : world) : ran U :=
  match items with
  | [] => let '(u1, w1, s1) := cb None eol u w in (u1, w1, signalled || s1)
  | i :: rest =>
      let '(u1, w1, s1) := cb (Some i) 0 u w in
      deliver_items cb rest eol (signalled || s1) u1 w1
  end.

(** A success callback is called once; a null callback is not called. *)
Definition deliver_success {U} (cb : option (Z -> U -> world -> ran U)) (success : Z)
    (u : U) (w : world) : ran U :=
  match cb with
  | Some f => f success u w
  | None => (u, w, false)
  end.

Definition pa_context_get_sink_info_by_index {U} (c : pa_context) (idx : Z)
    (cb : pa_info_cb_t pa_sink_info U) (w : world) : option (pa_operation U) * world :=
  if context_ready c then
    let '(items, eol) := sink_info_reply (find_sink_by_index idx (w_server w)) in
    (Some (answered (deliver_items (cb c) items eol false)),
     submit (GetSinkInfoByIndex idx) (w_server w) w)
  else (None, w).

Definition pa_context_get_sink_info_by_name {U} (c : pa_context) (name : string)
    (cb : pa_info_cb_t pa_sink_info U) (w : world) : option (pa_operation U) * world :=
  if context_ready c then
    let '(items, eol) := sink_info_reply (find_sink_by_name name (w_server w)) in
    (Some (answered (deliver_items (cb c) items eol false)),
     submit (GetSinkInfoByName name) (w_server w) w)
  else (None, w).

Definition pa_context_get_sink_info_list {U} (c : pa_context)
    (cb : pa_info_cb_t pa_sink_info U) (w : world) : option (pa_operation U) * world :=
  if context_ready c then
    (Some (answered (deliver_items (cb c) (srv_sinks (w_server w)) 1 false)),
     submit GetSinkInfoList (w_server w) w)
  else (None, w).

Definition pa_context_get_sink_input_info_list {U} (c : pa_context)
    (cb : pa_info_cb_t pa_sink_input_info U) (w : world) : option (pa_operation U) * world :=
  if context_ready c then
    (Some (answered (deliver_items (cb c) (srv_sink_inputs (w_server w)) 1 false)),
     submit GetSinkInputInfoList (w_server w) w)
  else (None, w).

Definition pa_context_get_card_info_list {U} (c : pa_context)
    (cb : pa_info_cb_t pa_card_info U) (w : world) : option (pa_operation U) * world :=
  if context_ready c then
    (Some (answered (deliver_items (cb c) (srv_cards (w_server w)) 1 false)),
     submit GetCardInfoList (w_server w) w)
  else (None, w).

Definition pa_context_get_source_info_list {U} (c : pa_context)
    (cb : pa_info_cb_t pa_source_info U) (w : world) : option (pa_operation U) * world :=
  if context_ready c then
    (Some (answered (deliver_items (cb c) (srv_sources (w_server w)) 1 false)),
     submit GetSourceInfoList (w_server w) w)
  else (None, w).

(** The volume writes also refuse, on the client side, a vector that is not
    valid. *)
Definition pa_context_set_sink_volume_by_index {U} (c : pa_context) (idx : Z)
    (volume : pa_cvolume) (cb : option (pa_context_success_cb_t U)) (w : world)
    : option (pa_operation U) * world :=
  if context_ready c && cvolume_valid volume then
    let '(success, s) :=
      set_sink_volume (find_sink_by_index idx (w_server w)) volume (w_server w) in
    (Some (answered (deliver_success (option_map (fun f => f c) cb) success)),
     submit (SetSinkVolumeByIndex idx volume) s w)
  else (None, w).

Definition pa_context_set_sink_volume_by_name {U} (c : pa_context) (name : string)
    (volume : pa_cvolume) (cb : option (pa_context_success_cb_t U)) (w : world)
    : option (pa_operation U) * world :=
  if context_ready c && cvolume_valid volume then
    let '(success, s) :=
      set_sink_volume (find_sink_by_name name (w_server w)) volume (w_server w) in
    (Some (answered (deliver_success (option_map (fun f => f c) cb) success)),
     submit (SetSinkVolumeByName name volume) s w)
  else (None, w).

Definition pa_context_set_sink_mute_by_index {U} (c : pa_context) (idx : Z) (mute : Z)
    (cb : option (pa_context_success_cb_t U)) (w : world)
    : option (pa_operation U) * world :=
  if context_ready c then
    let '(success, s) := set_sink_mute idx mute (w_server w) in
    (Some (answered (deliver_success (option_map (fun f => f c) cb) success)),
     submit (SetSinkMuteByIndex idx mute) s w)
  else (None, w).

Definition pa_context_set_default_sink {U} (c : pa_context) (name : string)
    (cb : option (pa_context_success_cb_t U)) (w : world)
    : option (pa_operation U) * world :=
  if context_ready c then
    let '(success, s) := set_default_sink name (w_server w) in
    (Some (answered (deliver_success (option_map (fun f => f c) cb) success)),
     submit (SetDefaultSink name) s w)
  else (None, w).

(** The move also refuses PA_INVALID_INDEX ([UINT32_MAX]) for either index.
    The mock server is shown applying a move as the request is submitted; the
    callers pass a null callback and wait for no move, so when a move takes
    effect is not theirs to see, and no theorem below speaks of the streams
    after a move. *)
Definition pa_context_move_sink_input_by_index {U} (c : pa_context) (idx sink_idx : Z)
    (cb : option (pa_context_success_cb_t U)) (w : world)
    : option (pa_operation U) * world :=
  if context_ready c && negb (idx =? UINT32_MAX) && negb (sink_idx =? UINT32_MAX) then
    let '(success, s) := move_sink_input idx sink_idx (w_server w) in
    (Some (answered (deliver_success (option_map (fun f => f c) cb) success)),
     submit (MoveSinkInputByIndex idx sink_idx) s w)
  else (None, w).

End Pulse.
Import Pulse.

Declare Scope run_scope.
Delimit Scope run_scope with run.
Notation "'call' ( x , w ) <- o ; k" := (and_then o (fun x w => k))
  (at level 10, x name, w name, o at level 100, k at level 200) : run_scope.
Open Scope run_scope.

(** ** C conversions between [int], [double] and [uint32_t] *)
Module Conv.

(** [(double) v] for an [int] [v]: exact. *)
Definition double_of_int (v : Z) : float :=
  if v <? 0 then PrimFloat.opp (PrimFloat.of_uint63 (Uint63.of_Z (- v)))
  else PrimFloat.of_uint63 (Uint63.of_Z v).

(** The integer part of a finite double, toward zero. *)
Definition truncate (d : float) : option Z :=
  match Prim2SF d with
  | S754_zero _ => Some 0
  | S754_finite sign m e =>
      let magnitude :=
        match e with
        | Z0 => Zpos m
        | Zpos p => Z.shiftl (Zpos m) (Zpos p)
        | Zneg p => Z.shiftr (Zpos m) (Zpos p)
        end in
      Some (if sign then - magnitude else magnitude)
  | _ => None
  end.

(** [(uint32_t) d]: the truncated value when it fits; C leaves the other
    cases undefined, and 0 stands for them here. *)
Definition uint32_of_double (d : float) : Z :=
  match truncate d with
  | Some z => if (0 <=? z) && (z <=? UINT32_MAX) then z else 0
  | None => 0
  end.

End Conv.

(** ** The query layer, [v-0.12/system_query.c] *)
Module SystemQuery.

(** [iterate(op)]: waits for as long as the operation is RUNNING, with no
    bound on the number of waits.  Every wait uses up at least one turn of
    the event loop, so [length (op_pending op)] rounds suffice to unfold
    the loop: when [rounds] is used up no turn is left, and the next wait
    is one that never ends. *)
Fixpoint wait_while_running {U} (rounds : nat) (op : pa_operation U) (u : U) (w : world)
    : outcome U :=
  match pa_operation_get_state op with
  | PA_OPERATION_RUNNING =>
      match rounds with
      | O => Blocked (log EvWait w)
      | S n =>
          match pa_threaded_mainloop_wait op u w with
          | Returned (u1, op1) w1 => wait_while_running n op1 u1 w1
          | Blocked w1 => Blocked w1
          | Crashed w1 => Crashed w1
          end
      end
  | _ => Returned u w
  end.

Definition iterate {U} (op : option (pa_operation U)) (u : U) (w : world) : outcome U :=
  match op with
  | None => Returned u (fprintf_stderr "[DEBUG] Operation is NULL" w)
  | Some o =>
      (* the caller is the application thread, not the event-loop thread *)
      let w1 := pa_threaded_mainloop_lock w in
      call (u2, w2) <- wait_while_running (length (op_pending o)) o u w1;
      Returned u2 (pa_threaded_mainloop_unlock w2)
  end.

(** [shared_data_1.context]: the query layer's own connection, READY once
    [is_pulse_initialized() || initialize_pulse()] holds. *)
Definition shared_context : pa_context := {| ctx_state := PA_CONTEXT_READY |}.

(** *** [get_output_device_by_index]

    The user data is the [malloc]ed [pa_sink_info]: [None] until the
    callback copies an item into it. *)
Definition get_output_device_by_index_cb : pa_info_cb_t pa_sink_info (option pa_sink_info) :=
  fun _ i eol sink_info w =>
    match (eol <? 0) || (0 <? eol), i with
    | false, Some info =>
        (* shallow copy, then strdup of name and description *)
        (Some info, pa_threaded_mainloop_signal w, true)
    | _, _ =>
        if 0 <? eol then (sink_info, pa_threaded_mainloop_signal w, true)
        else (sink_info, w, false)
    end.

Definition get_output_device_by_index (index : Z) (w : world)
    : outcome (option pa_sink_info) :=
  if negb (w_query_up w) then
    Returned None
      (fprintf_stderr "[get_output_device_by_index] Failed to initialize pulseaudio." w)
  else
    let '(ok, w1) := alloc w in
    if negb ok then
      Returned None (fprintf_stderr "Memory allocation for sink_info failed." w1)
    else
      let '(op, w2) :=
        pa_context_get_sink_info_by_index shared_context index
          get_output_device_by_index_cb w1 in
      (* sink_info->name == NULL: nothing was copied, the result is NULL *)
      iterate op None w2.

(** *** [get_output_device_index_by_code] *)
Definition get_output_device_index_by_code_cb : pa_info_cb_t pa_sink_info Z :=
  fun _ info eol index w =>
    if eol <? 0 then (index, fprintf_stderr "Error occurred in sink_info_cb." w, false)
    else
      let index1 := match info with
                    | Some i => if eol =? 0 then sink_index i else index
                    | None => index
                    end in
      (index1, pa_threaded_mainloop_signal w, true).

Definition get_output_device_index_by_code (context : option pa_context)
    (device_code : option string) (w : world) : outcome Z :=
  if negb (w_query_up w) then
    Returned UINT32_MAX
      (fprintf_stderr "get_output_device_index_by_code()] Failed to initialize pulseaudio." w)
  else
    match context, device_code with
    | Some c, Some code =>
        let '(op, w1) :=
          pa_context_get_sink_info_by_name c code get_output_device_index_by_code_cb w in
        iterate op 0 w1
    | _, _ => Returned UINT32_MAX (fprintf_stderr "Invalid arguments." w)
    end.

(** *** [get_output_device_count] *)
Definition get_output_device_count_cb : pa_info_cb_t pa_card_info Z :=
  fun _ _ eol device_count w =>
    if eol <? 0 then (device_count, pa_threaded_mainloop_signal w, true)
    else if 0 <? eol then (device_count, pa_threaded_mainloop_signal w, true)
    else (wrap32 (device_count + 1), w, false).

Definition get_output_device_count (w : world) : outcome Z :=
  if negb (w_query_up w) then
    Returned UINT32_MAX (fprintf_stderr "get_device_count(): failed to initialize pulseaudio." w)
  else
    let '(count_op, w1) :=
      pa_context_get_card_info_list shared_context get_output_device_count_cb w in
    iterate count_op 0 w1.

(** *** [get_available_input_devices]: the array that grows

    [shared_data_sources]: the slots of the array ([None]: a slot holding
    no record), the number of records, the number of slots. *)
Record _shared_data_sources := {
  sources : list (option pa_source_info);
  count : Z;
  allocated : Z
}.

(** [realloc] of the array to [n] slots: the first slots are
    kept, new slots hold no record. *)
Definition resize (n : Z) (a : list (option pa_source_info)) : list (option pa_source_info) :=
  take (Z.to_nat n) a ++ replicate (Z.to_nat n - length a) None.

(** [sources[i] = v].  A store past the last slot, or through the null
    pointer the array is before its first [realloc], is undefined in C: the
    model leaves the slots as they are there.  The terminal call of the
    callback makes such a store when the number of listed sources is a
    multiple of 8 (the array is then full, or null for an empty list); the
    theorems on the whole build leave that case out. *)
Definition store (i : Z) (v : option pa_source_info) (a : list (option pa_source_info)) :=
  <[Z.to_nat i := v]> a.

Definition get_available_input_devices_cb : pa_info_cb_t pa_source_info _shared_data_sources :=
  fun _ i eol sd w =>
    if eol <? 0 then
      (sd, pa_threaded_mainloop_signal
             (fprintf_stderr "Error occurred while getting source info." w), true)
    else if 0 <? eol then
      ({| sources := store (count sd) None (sources sd);
          count := count sd; allocated := allocated sd |},
       pa_threaded_mainloop_signal w, true)
    else
      let grown :=
        if allocated sd <=? count sd then
          let new_alloc := wrap32 (allocated sd + 8) in
          let '(ok, w1) := alloc w in
          if ok then
            (Some {| sources := resize new_alloc (sources sd);
                     count := count sd; allocated := new_alloc |},
             log (EvRealloc new_alloc) w1)
          else (None, w1)
        else (Some sd, w) in
      match grown with
      | (None, w1) =>
          (sd, pa_threaded_mainloop_signal
                 (fprintf_stderr "Out of memory when reallocating sources array." w1), true)
      | (Some sd1, w1) =>
          let '(ok, w2) := alloc w1 in
          if ok then
            (* the record is copied and its strings duplicated *)
            ({| sources := store (count sd1) i (sources sd1);
                count := wrap32 (count sd1 + 1); allocated := allocated sd1 |}, w2, false)
          else
            (sd1, pa_threaded_mainloop_signal
                    (fprintf_stderr "Out of memory when allocating source info." w2), true)
      end.

Definition get_available_input_devices (w : world)
    : outcome (option (list (option pa_source_info))) :=
  if negb (w_query_up w) then
    Returned None
      (fprintf_stderr "[get_available_input_devices()] Failed to initialize PulseAudio." w)
  else
    let sd0 := {| sources := []; count := 0; allocated := 0 |} in
    let '(op, w1) :=
      pa_context_get_source_info_list shared_context get_available_input_devices_cb w in
    match op with
    | None =>
        Returned None (fprintf_stderr "Failed to create the operation to get source info." w1)
    | Some _ =>
        call (sd, w2) <- iterate op sd0 w1;
        (* one more realloc, to count + 1 slots, for the NULL sentinel *)
        let '(ok, w3) := alloc w2 in
        if ok then
          let n := wrap32 (count sd + 1) in
          Returned (Some (store (count sd) None (resize n (sources sd))))
                   (log (EvRealloc n) w3)
        else
          Returned None
            (fprintf_stderr "Out of memory while allocating sources array." w3)
    end.

(** *** [get_available_output_devices]: the array that does not grow

    [shared_data_3]: [max_sinks + 1] slots allocated once, before the list
    is requested; the callback stores at [count] and never reallocates.
    [max_sinks] is a number of cards, so a server with more sinks than cards
    makes the callback store past the block: that is undefined in C, the model
    drops such a store, and the theorems on the contents of the array are
    about servers with no more sinks than cards. *)
Record _shared_data_3 := {
  sinks : list (option pa_sink_info);
  sinks_count : Z
}.

Definition get_available_output_devices_cb : pa_info_cb_t pa_sink_info _shared_data_3 :=
  fun _ i eol sd w =>
    if eol <? 0 then
      (sd, pa_threaded_mainloop_signal (fprintf_stderr "Failed to get sink info." w), true)
    else if 0 <? eol then
      ({| sinks := <[Z.to_nat (sinks_count sd) := None]> (sinks sd);
          sinks_count := sinks_count sd |}, pa_threaded_mainloop_signal w, true)
    else
      let '(ok, w1) := alloc w in
      if ok then
        ({| sinks := <[Z.to_nat (sinks_count sd) := i]> (sinks sd);
            sinks_count := wrap32 (sinks_count sd + 1) |}, w1, false)
      else
        (sd, pa_threaded_mainloop_signal
               (fprintf_stderr "Failed to allocate memory for sink info." w1), true).

Definition get_available_output_devices (w : world)
    : outcome (option (list (option pa_sink_info))) :=
  call (max_sinks, w1) <- get_output_device_count w;
  let '(ok, w2) := alloc w1 in
  if negb (w_query_up w2) then
    Returned None
      (fprintf_stderr "get_available_output_devices(): failed to initialize pulseaudio." w2)
  else if negb ok then
    Returned None (fprintf_stderr "Failed to allocate memory for sinks." w2)
  else
    let sd0 := {| sinks := replicate (Z.to_nat (wrap32 (max_sinks + 1))) None;
                  sinks_count := 0 |} in
    let '(op, w3) :=
      pa_context_get_sink_info_list shared_context get_available_output_devices_cb w2 in
    call (sd, w4) <- iterate op sd0 w3;
    Returned (Some (sinks sd)) w4.

(** *** [get_input_device_count] *)
Definition get_input_device_count_cb : pa_info_cb_t pa_source_info Z :=
  fun _ _ eol device_count w =>
    if eol <? 0 then (device_count, pa_threaded_mainloop_signal w, true)
    else if 0 <? eol then (device_count, pa_threaded_mainloop_signal w, true)
    else (wrap32 (device_count + 1), w, false).

Definition get_input_device_count (w : world) : outcome Z :=
  if negb (w_query_up w) then
    Returned UINT32_MAX
      (fprintf_stderr "[get_input_device_count()] Failed to initialize pulseaudio." w)
  else
    let '(count_op, w1) :=
      pa_context_get_source_info_list shared_context get_input_device_count_cb w in
    iterate count_op 0 w1.

(** *** [get_channel_volume]

    [PA_VOLUME_INVALID] is [UINT32_MAX].  The bound of the test is
    [channel_map.channels]; the read is [volume.values[channel_index]], and a
    slot past the vector's own channels is padding of the 32-slot array, for
    which [PA_VOLUME_MUTED] stands. *)
Definition PA_VOLUME_INVALID : pa_volume_t := UINT32_MAX.

Definition values_at (a : pa_cvolume) (c : Z) : pa_volume_t :=
  default PA_VOLUME_MUTED (a !! Z.to_nat c).

Definition get_channel_volume (sink_info : option pa_sink_info) (channel_index : Z)
    (w : world) : pa_volume_t * world :=
  if negb (w_query_up w) then
    (UINT32_MAX, fprintf_stderr "get_channel_volume(): failed to initialize pulseaudio." w)
  else
    match sink_info with
    | None => (PA_VOLUME_INVALID, w)
    | Some k =>
        if Z.of_nat (sink_channels k) <=? channel_index then (PA_VOLUME_INVALID, w)
        else (values_at (sink_volume k) channel_index, w)
    end.

(** *** [get_muted_output_status]

    The user data is the [int is_muted]; the server's flag is 0 or 1. *)
Definition get_muted_output_status_cb : pa_info_cb_t pa_sink_info Z :=
  fun _ i eol is_muted w =>
    if 0 <? eol then (is_muted, pa_threaded_mainloop_signal w, true)
    else if eol <? 0 then
      (is_muted,
       pa_threaded_mainloop_signal
         (fprintf_stderr
            "[ERROR, get_muted_output_status_cb]: Error occurred during iteration" w),
       true)
    else
      match i with
      | Some info => (if sink_mute info then 1 else 0, w, false)
      | None => (is_muted, w, false)
      end.

(** The failure to initialise returns [UINT32_MAX] through an [int]: -1. *)
Definition get_muted_output_status (sink_name : option string) (w : world) : outcome Z :=
  if negb (w_query_up w) then
    Returned (-1)
      (fprintf_stderr "[get_muted_output_status()] Failed to initialize pulseaudio." w)
  else
    match sink_name with
    | None => Returned (-1) (fprintf_stderr "Invalid arguments provided." w)
    | Some n =>
        let '(op, w1) :=
          pa_context_get_sink_info_by_name shared_context n get_muted_output_status_cb w in
        iterate op (-1) w1
    end.

(** *** [get_output_channel_mute_state] *)
Record _shared_data_5 := {
  sd5_channel_index : Z;
  sd5_mute_state : bool
}.

Definition get_output_channel_mute_state_cb : pa_info_cb_t pa_sink_info _shared_data_5 :=
  fun _ info eol data w =>
    if 0 <? eol then (data, pa_threaded_mainloop_signal w, true)
    else
      match info with
      | Some i =>
          if sd5_channel_index data <? Z.of_nat (length (sink_volume i)) then
            ({| sd5_channel_index := sd5_channel_index data;
                sd5_mute_state :=
                  values_at (sink_volume i) (sd5_channel_index data) =? PA_VOLUME_MUTED |},
             w, false)
          else (data, w, false)
      | None => (data, w, false)
      end.

(** The context is the caller's; [mainloop] says whether the caller's loop
    pointer is non-null.  The wait itself is [iterate]'s, on the query
    layer's loop: the function does not bring the layer up, and with the
    layer down a non-null operation reaches the library with a null loop. *)
Definition get_output_channel_mute_state (context : option pa_context) (mainloop : bool)
    (sink_index channel_index : Z) (w : world) : outcome bool :=
  match context, mainloop with
  | Some c, true =>
      let data := {| sd5_channel_index := channel_index; sd5_mute_state := false |} in
      let '(op, w1) :=
        pa_context_get_sink_info_by_index c sink_index get_output_channel_mute_state_cb w in
      match op with
      | Some _ =>
          if negb (w_query_up w1) then Crashed w1
          else call (data1, w2) <- iterate op data w1; Returned (sd5_mute_state data1) w2
      | None => call (data1, w2) <- iterate op data w1; Returned (sd5_mute_state data1) w2
      end
  | _, _ => Returned false (fprintf_stderr "Invalid PulseAudio context or mainloop." w)
  end.

(** *** [get_output_name_by_code]

    The user data is the [char *result]: it starts as a copy of the code, and
    the callback compares every sink's name with its current content. *)
Definition get_output_name_by_code_cb : pa_info_cb_t pa_sink_info string :=
  fun _ i eol result w =>
    if 0 <? eol then (result, pa_threaded_mainloop_signal w, true)
    else
      match i with
      | Some info =>
          (if String.eqb (sink_name info) result then sink_description info else result,
           w, false)
      | None => (result, w, false)
      end.

Definition get_output_name_by_code (pa_ctx : option pa_context) (code : option string)
    (w : world) : outcome (option string) :=
  match pa_ctx, code with
  | Some c, Some cd =>
      if negb (w_query_up w) then
        Returned None
          (fprintf_stderr "[get_output_name_by_code()] Failed to initialize pulseaudio." w)
      else
        let '(op, w1) := pa_context_get_sink_info_list c get_output_name_by_code_cb w in
        call (result, w2) <-
          match op with
          | Some _ => iterate op cd w1
          | None => Returned cd w1
          end;
        if negb (String.eqb result cd) then Returned (Some result) w2
        else Returned None w2
  | _, _ => Returned None w
  end.

(** *** [get_output_device_by_name]

    The loop over the array of [get_available_output_devices] runs until it
    meets the NULL sentinel or the name.  What it returns is a [memcpy] of
    the array's record with a duplicate of the description; the name pointer
    of the copy is the array record's own, freed by [delete_output_devices]
    before the function returns, so the copy carries no name. *)
Record sink_copy := {
  copy_index : Z;
  copy_description : string;
  copy_channels : nat;
  copy_volume : pa_cvolume;
  copy_mute : bool
}.

Definition copy_of (k : pa_sink_info) : sink_copy :=
  {| copy_index := sink_index k; copy_description := sink_description k;
     copy_channels := sink_channels k; copy_volume := sink_volume k;
     copy_mute := sink_mute k |}.

Fixpoint scan_by_name (name : string) (available_sinks : list (option pa_sink_info))
    (w : world) : outcome (option sink_copy) :=
  match available_sinks with
  | [] => Crashed w                  (* a read past the last slot *)
  | None :: _ => Returned None w
  | Some k :: rest =>
      if String.eqb (sink_name k) name then
        let '(ok, w1) := alloc w in
        Returned (if ok then Some (copy_of k) else None) w1
      else scan_by_name name rest w
  end.

Definition get_output_device_by_name (name : option string) (w : world)
    : outcome (option sink_copy) :=
  if negb (w_query_up w) then
    Returned None
      (fprintf_stderr "[get_output_device_by_name()] Failed to initialize pulseaudio." w)
  else
    match name with
    | None => Returned None w
    | Some n =>
        call (available_sinks, w1) <- get_available_output_devices w;
        match available_sinks with
        | None => Returned None w1
        | Some arr => scan_by_name n arr w1
        end
    end.

End SystemQuery.

(** ** The first bridge, [v-0.03/easypulse_core.c] *)
Module V003.

Definition MAX_WAIT_CYCLES : nat := 100.

(** The loop of [iterate].  [left] is [MAX_WAIT_CYCLES - wait_cycles]: the
    test [wait_cycles >= MAX_WAIT_CYCLES] is [left = 0].  The result carries
    the final [wait_cycles] and whether the loop ended by the cut-off.  The
    format string of the time-out message ends in an escaped backslash and an
    [n], not in a newline: the two characters are part of what is printed. *)
Fixpoint wait_loop {U} (left wait_cycles : nat) (op : pa_operation U) (u : U) (w : world)
    : outcome (U * nat * bool) :=
  match pa_operation_get_state op with
  | PA_OPERATION_RUNNING =>
      match left with
      | O => Returned (u, wait_cycles, true)
               (fprintf_stderr "Error: Operation timeout. Exiting loop.\n" w)
      | S n =>
          match pa_threaded_mainloop_wait op u w with
          | Returned (u1, op1) w1 => wait_loop n (S wait_cycles) op1 u1 w1
          | Blocked w1 => Blocked w1
          | Crashed w1 => Crashed w1
          end
      end
  | _ => Returned (u, wait_cycles, false) w
  end.

(** [void iterate(manager, op)]: nothing but the user data the callbacks
    worked on comes back to the caller. *)
Definition iterate {U} (op : option (pa_operation U)) (u : U) (w : world) : outcome U :=
  let w1 := pa_threaded_mainloop_lock w in
  match op with
  | None => Returned u (pa_threaded_mainloop_unlock (pa_threaded_mainloop_signal w1))
  | Some o =>
      call (r, w2) <- wait_loop MAX_WAIT_CYCLES 0 o u w1;
      Returned (fst (fst r)) (pa_threaded_mainloop_unlock (pa_threaded_mainloop_signal w2))
  end.

Record pulseaudio_device := {
  index : Z;
  name : string;
  description : string;
  volume : pa_cvolume;
  channel_map : nat;                 (* channel_map.channels *)
  mute : Z
}.

Record pulseaudio_manager := {
  context : pa_context;
  devices : list pulseaudio_device;
  device_count : Z;
  pa_ready : Z;
  devices_loaded : Z;
  operations_pending : Z;
  active_device_index : Z;
  active_device_name : option string;
  current_device_index : Z
}.

Definition with_operations_pending (n : Z) (m : pulseaudio_manager) : pulseaudio_manager :=
  {| context := context m; devices := devices m; device_count := device_count m;
     pa_ready := pa_ready m; devices_loaded := devices_loaded m;
     operations_pending := n; active_device_index := active_device_index m;
     active_device_name := active_device_name m;
     current_device_index := current_device_index m |}.

Definition with_devices (ds : list pulseaudio_device) (m : pulseaudio_manager)
    : pulseaudio_manager :=
  {| context := context m; devices := ds; device_count := device_count m;
     pa_ready := pa_ready m; devices_loaded := devices_loaded m;
     operations_pending := operations_pending m;
     active_device_index := active_device_index m;
     active_device_name := active_device_name m;
     current_device_index := current_device_index m |}.

Definition with_device_volume (v : pa_cvolume) (d : pulseaudio_device) : pulseaudio_device :=
  {| index := index d; name := name d; description := description d; volume := v;
     channel_map := channel_map d; mute := mute d |}.

(** [devices[i].volume = v].  Outside the array the store is undefined in C:
    the model leaves the array as it is there, and every theorem about
    [set_volume] below keeps [active_device_index] inside the array. *)
Definition store_volume (i : Z) (v : pa_cvolume) (ds : list pulseaudio_device)
    : list pulseaudio_device :=
  if i <? 0 then ds
  else match ds !! Z.to_nat i with
       | Some d => <[Z.to_nat i := with_device_volume v d]> ds
       | None => ds
       end.

Definition set_volume_cb1 : pa_context_success_cb_t pulseaudio_manager :=
  fun _ success manager w =>
    let w1 := if success =? 0 then fprintf_stderr "[ERROR]: Failed to set volume." w else w in
    (with_operations_pending (operations_pending manager - 1) manager,
     pa_threaded_mainloop_signal w1, true).

(** A server item always has a name, so the test [!i->name] is not taken. *)
Definition set_volume_cb2 : pa_info_cb_t pa_sink_info pulseaudio_manager :=
  fun _ i eol self w =>
    if 0 <? eol then
      (with_operations_pending (operations_pending self - 1) self, w, false)
    else
      match i with
      | None =>
          (with_operations_pending (operations_pending self - 1) self,
           fprintf_stderr "[ERROR, volume_check_cb()]: Null pointer for pa_sink_info." w,
           false)
      | Some info =>
          let w1 := printf "[DEBUG, volume_check_cb()]: Processing device info" w in
          (with_devices
             (store_volume (active_device_index self) (sink_volume info) (devices self))
             self,
           pa_threaded_mainloop_signal w1, true)
      end.

(** [(percentage / 100.0) * PA_VOLUME_NORM], converted to [pa_volume_t], then
    the clamp below full scale.  [percentage] is the C [float] promoted to
    [double]. *)
Definition percent_to_volume (percentage : float) : pa_volume_t :=
  let volume :=
    Conv.uint32_of_double
      (PrimFloat.mul (PrimFloat.div percentage 100%float)
                     (Conv.double_of_int PA_VOLUME_NORM)) in
  if PA_VOLUME_NORM <=? volume then PA_VOLUME_NORM - 1 else volume.

(** [set_volume]: the manager is changed in place by the callbacks, so the
    result carries it next to the returned [bool]. *)
Definition set_volume (self : option pulseaudio_manager) (device_index : Z)
    (percentage : float) (w : world) : outcome (bool * option pulseaudio_manager) :=
  match self with
  | None => Returned (false, None) w
  | Some m =>
      if PrimFloat.ltb percentage 0%float || PrimFloat.ltb 100%float percentage
         || (device_count m <=? device_index)
      then Returned (false, self) w
      else
        let volume := percent_to_volume percentage in
        if negb (pa_ready m =? 1) || negb (devices_loaded m =? 1)
        then Returned (false, self) w
        else
          match devices m !! Z.to_nat device_index with
          | None => Crashed w          (* a read outside the array *)
          | Some d =>
              let cvolume := pa_cvolume_set (channel_map d) volume in
              let w1 := printf "[DEBUG, set_volume()] channels" w in
              let device_name_to_change := name d in
              let m1 := with_operations_pending (operations_pending m + 1) m in
              let '(op, w2) :=
                pa_context_set_sink_volume_by_name (context m1) device_name_to_change
                  cvolume (Some set_volume_cb1) w1 in
              call (m2, w3) <- iterate op m1 w2;
              let '(op2, w4) :=
                pa_context_get_sink_info_by_name (context m2) device_name_to_change
                  set_volume_cb2 w3 in
              call (m3, w5) <- iterate op2 m2 w4;
              Returned (true, Some m3) w5
          end
  end.

Definition with_device_count (n : Z) (m : pulseaudio_manager) : pulseaudio_manager :=
  {| context := context m; devices := devices m; device_count := n;
     pa_ready := pa_ready m; devices_loaded := devices_loaded m;
     operations_pending := operations_pending m;
     active_device_index := active_device_index m;
     active_device_name := active_device_name m;
     current_device_index := current_device_index m |}.

Definition with_devices_loaded (n : Z) (m : pulseaudio_manager) : pulseaudio_manager :=
  {| context := context m; devices := devices m; device_count := device_count m;
     pa_ready := pa_ready m; devices_loaded := n;
     operations_pending := operations_pending m;
     active_device_index := active_device_index m;
     active_device_name := active_device_name m;
     current_device_index := current_device_index m |}.

Definition with_pa_ready (n : Z) (m : pulseaudio_manager) : pulseaudio_manager :=
  {| context := context m; devices := devices m; device_count := device_count m;
     pa_ready := n; devices_loaded := devices_loaded m;
     operations_pending := operations_pending m;
     active_device_index := active_device_index m;
     active_device_name := active_device_name m;
     current_device_index := current_device_index m |}.

Definition with_context (c : pa_context) (m : pulseaudio_manager) : pulseaudio_manager :=
  {| context := c; devices := devices m; device_count := device_count m;
     pa_ready := pa_ready m; devices_loaded := devices_loaded m;
     operations_pending := operations_pending m;
     active_device_index := active_device_index m;
     active_device_name := active_device_name m;
     current_device_index := current_device_index m |}.

Definition with_current_device_index (i : Z) (m : pulseaudio_manager) : pulseaudio_manager :=
  {| context := context m; devices := devices m; device_count := device_count m;
     pa_ready := pa_ready m; devices_loaded := devices_loaded m;
     operations_pending := operations_pending m;
     active_device_index := active_device_index m;
     active_device_name := active_device_name m;
     current_device_index := i |}.

(** *** [load_devices] and [device_cb]

    [devices] holds the records stored so far; the number of slots behind
    them is what the last [realloc] gave.  [realloc] to [n] slots keeps the
    first [n] records. *)
Definition INITIAL_ALLOCATION_SIZE : Z := 5.

Definition device_of_sink (i : pa_sink_info) : pulseaudio_device :=
  {| index := sink_index i; name := sink_name i; description := sink_description i;
     volume := sink_volume i; channel_map := sink_channels i;
     mute := if sink_mute i then 1 else 0 |}.

(** [devices[i] = d]: a slot already holding a record is overwritten, the
    first free slot is filled. *)
Definition store_device (i : Z) (d : pulseaudio_device) (ds : list pulseaudio_device)
    : list pulseaudio_device :=
  if (Z.to_nat i <? length ds)%nat then <[Z.to_nat i := d]> ds else ds ++ [d].

(** The resize comes first, also on the terminal call.  The message of the
    [eol < 0] branch depends on [pa_context_errno] and is left out; an item
    call always carries an item. *)
Definition device_cb : pa_info_cb_t pa_sink_info pulseaudio_manager :=
  fun _ i eol manager w =>
    let resized :=
      if device_count manager mod INITIAL_ALLOCATION_SIZE =? 0 then
        let slots := wrap32 (device_count manager + INITIAL_ALLOCATION_SIZE) in
        let '(ok, w1) := alloc w in
        if ok then
          (Some (with_devices (take (Z.to_nat slots) (devices manager)) manager),
           log (EvRealloc slots) w1)
        else (None, w1)
      else (Some manager, w) in
    match resized with
    | (None, w1) =>
        (with_device_count 0 (with_devices [] manager),
         pa_threaded_mainloop_signal
           (fprintf_stderr "[ERROR]: Failed to resize the devices array." w1), true)
    | (Some m1, w1) =>
        if eol <? 0 then (m1, pa_threaded_mainloop_signal w1, true)
        else if 0 <? eol then
          (with_devices_loaded 1 m1, pa_threaded_mainloop_signal w1, true)
        else
          match i with
          | Some info =>
              (with_device_count (wrap32 (device_count m1 + 1))
                 (with_devices
                    (store_device (device_count m1) (device_of_sink info) (devices m1)) m1),
               w1, false)
          | None => (m1, w1, false)
          end
    end.

Definition load_devices (self : pulseaudio_manager) (w : world)
    : outcome (bool * pulseaudio_manager) :=
  let '(op, w1) := pa_context_get_sink_info_list (context self) device_cb w in
  match op with
  | None => Returned (false, self) w1
  | Some _ =>
      call (m, w2) <- iterate op self w1;
      Returned (true, m) w2
  end.

(** *** [initialize] and [context_state_cb]

    What the library does on the way to a connection: whether
    [pa_threaded_mainloop_new] and [pa_context_new] give an object, whether
    [pa_context_connect] accepts, and the states the context then goes
    through, one per turn of the event loop. *)
Record connection := {
  conn_mainloop : bool;
  conn_context : bool;
  conn_connect : bool;
  conn_states : list pa_context_state_t
}.

Definition context_state_cb (c : pa_context) (manager : pulseaudio_manager) (w : world)
    : ran pulseaudio_manager :=
  match ctx_state c with
  | PA_CONTEXT_READY => (with_pa_ready 1 manager, pa_threaded_mainloop_signal w, true)
  | PA_CONTEXT_FAILED | PA_CONTEXT_TERMINATED =>
      (with_pa_ready 2 manager, pa_threaded_mainloop_signal w, true)
  | _ => (manager, w, false)
  end.

(** A turn of the event loop in which the context moves to [st]: the state
    callback runs on the context in its new state. *)
Definition state_change (st : pa_context_state_t) : dispatch pulseaudio_manager :=
  {| d_run := fun m w =>
       let c := {| ctx_state := st |} in context_state_cb c (with_context c m) w;
     d_state := PA_OPERATION_RUNNING |}.

(** [while (self->pa_ready == 0) pa_threaded_mainloop_wait(...)]: every wait
    uses up at least one turn, so [length turns] rounds unfold the loop. *)
Fixpoint wait_until_ready (rounds : nat) (turns : list (dispatch pulseaudio_manager))
    (self : pulseaudio_manager) (w : world) : outcome pulseaudio_manager :=
  if pa_ready self =? 0 then
    match rounds with
    | O => Blocked (log EvWait w)
    | S n =>
        match wait_turns turns self (log EvWait w) with
        | Returned (m1, rest) w1 => wait_until_ready n (op_pending rest) m1 w1
        | Blocked w1 => Blocked w1
        | Crashed w1 => Crashed w1
        end
    end
  else Returned self w.

(** [pa_ready] is read as the caller left it: the function does not set it
    before its loop.  [pa_context_connect] puts the context in CONNECTING (the
    state callback runs for it and does nothing).  On the three failure paths
    the caller frees the manager; it is returned as it came in. *)
Definition initialize (env : connection) (self : pulseaudio_manager) (w : world)
    : outcome (bool * pulseaudio_manager) :=
  if negb (conn_mainloop env) then Returned (false, self) w
  else if negb (conn_context env) then Returned (false, self) w
  else
    let w1 := pa_threaded_mainloop_lock w in
    if negb (conn_connect env) then
      Returned (false, self) (pa_threaded_mainloop_unlock w1)
    else
      let self1 := with_context {| ctx_state := PA_CONTEXT_CONNECTING |} self in
      let turns := map state_change (conn_states env) in
      call (m, w2) <- wait_until_ready (length turns) turns self1 w1;
      let w3 := pa_threaded_mainloop_unlock w2 in
      if pa_ready m =? 2 then Returned (false, m) w3 else Returned (true, m) w3.

(** *** [switch_device] and [switch_device_cb]

    The callback hands each stream to the sink id cached in
    [devices[current_device_index]] and unrefs the handle it gets; it signals
    on the terminal call only.  Its moves are not waited for.  Two cases end
    the process in C and cannot be told by a callback of the model, which
    goes on without a move: a [current_device_index] outside the array, and a
    null handle from the library (given for PA_INVALID_INDEX only). *)
Definition switch_device_cb : pa_info_cb_t pa_sink_input_info pulseaudio_manager :=
  fun c i eol manager w =>
    let w1 :=
      match i with
      | Some info =>
          if eol =? 0 then
            match devices manager !! Z.to_nat (current_device_index manager) with
            | Some d =>
                snd (pa_context_move_sink_input_by_index (U := unit) c (input_index info)
                       (index d) None w)
            | None => w
            end
          else w
      | None => w
      end in
    if eol =? 0 then (manager, w1, false)
    else (manager, pa_threaded_mainloop_signal w1, true).

(** The handle as the loop of [iterate] leaves it. *)
Fixpoint wait_loop_handle {U} (left : nat) (op : pa_operation U) (u : U) (w : world)
    : pa_operation U :=
  match pa_operation_get_state op with
  | PA_OPERATION_RUNNING =>
      match left with
      | O => op
      | S n =>
          match pa_threaded_mainloop_wait op u w with
          | Returned (u1, op1) w1 => wait_loop_handle n op1 u1 w1
          | _ => op
          end
      end
  | _ => op
  end.

(** [while (pa_operation_get_state(op) == PA_OPERATION_RUNNING)
    self->iterate(self, op);]: a call of [iterate] on a running operation
    uses up at least one turn or never returns, so [length (op_pending op)]
    rounds unfold the loop. *)
Fixpoint iterate_while_running {U} (rounds : nat) (op : pa_operation U) (u : U) (w : world)
    : outcome U :=
  match pa_operation_get_state op with
  | PA_OPERATION_RUNNING =>
      match rounds with
      | O => Blocked (log EvWait (pa_threaded_mainloop_lock w))
      | S n =>
          match iterate (Some op) u w with
          | Returned u1 w1 =>
              iterate_while_running n
                (wait_loop_handle MAX_WAIT_CYCLES op u (pa_threaded_mainloop_lock w)) u1 w1
          | Blocked w1 => Blocked w1
          | Crashed w1 => Crashed w1
          end
      end
  | _ => Returned u w
  end.

(** The bounds test comes before any use of the index.  The handle of the
    default-sink request is unref'd at once, with no test and no wait: a null
    handle ends the process there.  A record of the catalog always has a
    name. *)
Definition switch_device (self : option pulseaudio_manager) (device_index : Z) (w : world)
    : outcome (bool * option pulseaudio_manager) :=
  match self with
  | None => Returned (false, None) w
  | Some m =>
      if device_count m <=? device_index then
        Returned (false, self) (fprintf_stderr "[ERROR]: device_index out of bounds." w)
      else
        let m1 := with_current_device_index device_index m in
        match devices m1 !! Z.to_nat device_index with
        | None => Crashed w          (* a read outside the array *)
        | Some d =>
            let '(set_default_op, w1) :=
              pa_context_set_default_sink (U := unit) (context m1) (name d) None w in
            match set_default_op with
            | None => Crashed w1
            | Some _ =>
                let '(op, w2) :=
                  pa_context_get_sink_input_info_list (context m1) switch_device_cb w1 in
                match op with
                | None => Returned (false, Some m1) w2
                | Some o =>
                    call (m2, w3) <- iterate_while_running (length (op_pending o)) o m1 w2;
                    Returned (true, Some m2) w3
                end
            end
        end
  end.

End V003.

(** ** The manager, [v-0.14/easypulse_core.c] *)
Module V014.

(** [iterate(manager, op)]: a null operation returns at once; otherwise one
    wait, whatever the state of the operation, and no count. *)
Definition iterate {U} (op : option (pa_operation U)) (u : U) (w : world) : outcome U :=
  match op with
  | None => Returned u w
  | Some o =>
      (* the caller is the application thread, not the event-loop thread *)
      let w1 := pa_threaded_mainloop_lock w in
      call (r, w2) <- pa_threaded_mainloop_wait o u w1;
      (* pa_operation_unref(op) *)
      Returned (fst r) (pa_threaded_mainloop_unlock w2)
  end.

(** A device record of the catalog; [code] and [name] are C strings that may
    be NULL. *)
Record pulseaudio_device := {
  index : Z;
  code : option string;
  name : option string
}.

Record pulseaudio_manager := {
  context : option pa_context;
  outputs : list pulseaudio_device;
  inputs : list pulseaudio_device;
  output_count : Z;
  input_count : Z;
  active_output_device : option string;
  active_input_device : option string
}.

(** After [manager_create] the arrays have as many records as the counts say. *)
Definition manager_wf (m : pulseaudio_manager) : Prop :=
  output_count m = Z.of_nat (length (outputs m)) /\
  input_count m = Z.of_nat (length (inputs m)).

Record _shared_data_1 := {
  sd1_manager : pulseaudio_manager;
  new_index : Z
}.

Record _shared_data_2 := {
  sd2_manager : pulseaudio_manager;
  channel_index : Z;
  mute_state : bool;
  new_volume : pa_cvolume
}.

(** *** [manager_set_master_volume] *)

(** [(pa_volume_t) ((double) volume / 100.0 * PA_VOLUME_NORM)] *)
Definition percent_to_volume (volume : Z) : pa_volume_t :=
  Conv.uint32_of_double
    (PrimFloat.mul (PrimFloat.div (Conv.double_of_int volume) 100%float)
                   (Conv.double_of_int PA_VOLUME_NORM)).

Definition manager_set_master_volume_cb : pa_context_success_cb_t pulseaudio_manager :=
  fun _ success manager w =>
    let w1 := if success =? 0 then printf "Failed to set volume." w
              else printf "Volume set successfully." w in
    (manager, pa_threaded_mainloop_signal w1, true).

Definition manager_set_master_volume (manager : option pulseaudio_manager)
    (device_id : Z) (volume : Z) (w : world) : outcome Z :=
  match manager with
  | None => Returned (-1) (fprintf_stderr "Manager is NULL" w)
  | Some m =>
      if (volume <? 0) || (100 <? volume) then
        Returned (-1)
          (fprintf_stderr
             "[manager_set_master_volume] The volume specified is out of range (0-100)." w)
      else
        call (found, w1) <- SystemQuery.get_output_device_by_index device_id w;
        match found with
        | None =>
            Returned (-1) (fprintf_stderr "Could not retrieve sink info for device ID" w1)
        | Some sink_info =>
            let pa_volume := percent_to_volume volume in
            let cvolume := pa_cvolume_set (sink_channels sink_info) pa_volume in
            match context m with
            | None => Crashed w1
            | Some c =>
                let '(op, w2) :=
                  pa_context_set_sink_volume_by_index c device_id cvolume
                    (Some manager_set_master_volume_cb) w1 in
                match op with
                | None =>
                    Returned (-1) (fprintf_stderr "Failed to start volume set operation" w2)
                | Some _ =>
                    call (_, w3) <- iterate op m w2;
                    Returned 0 w3
                end
            end
        end
  end.

(** *** [manager_toggle_output_mute] *)
Definition manager_toggle_output_mute_cb : pa_context_success_cb_t pulseaudio_manager :=
  fun _ success manager w =>
    let w1 := if success =? 0 then fprintf_stderr "Failed to toggle mute state." w else w in
    (manager, pa_threaded_mainloop_signal w1, true).

Definition manager_toggle_output_mute (manager : option pulseaudio_manager)
    (index : Z) (state : Z) (w : world) : outcome Z :=
  match manager ≫= (fun m => option_map (pair m) (context m)) with
  | None => Returned (-1) (fprintf_stderr "Invalid PulseAudio manager or context." w)
  | Some (m, c) =>
      if output_count m <=? index then
        Returned (-1) (fprintf_stderr "Output device index out of range." w)
      else
        let '(op, w1) :=
          pa_context_set_sink_mute_by_index c index state
            (Some manager_toggle_output_mute_cb) w in
        call (_, w2) <- iterate op m w1;
        Returned 0 w2
  end.

(** *** [manager_switch_default_output] *)
Definition manager_switch_default_output_cb : pa_context_success_cb_t pulseaudio_manager :=
  fun _ success manager w =>
    let w1 := if success =? 0 then fprintf_stderr "Failed to set default sink." w else w in
    (manager, pa_threaded_mainloop_signal w1, true).

Definition manager_switch_default_output_cb_2
    : pa_info_cb_t pa_sink_input_info _shared_data_1 :=
  fun c i eol shared_data w =>
    if eol <? 0 then (shared_data, pa_threaded_mainloop_signal w, true)
    else
      let '(w1, s1) :=
        match i with
        | Some info =>
            if eol =? 0 then
              let '(op_move, w') :=
                pa_context_move_sink_input_by_index (U := unit) c (input_index info)
                  (new_index shared_data) None w in
              match op_move with
              | Some _ => (pa_threaded_mainloop_signal w', true)
              | None => (w', false)
              end
            else (w, false)
        | None => (w, false)
        end in
      if 0 <? eol then (shared_data, pa_threaded_mainloop_signal w1, true)
      else (shared_data, w1, s1).

(** [self->outputs[i].index], read by the first statement, before any test of
    [i]: the read is logged.  Past the end of the array it is a read outside
    the array, which finds what the world has there: a stray word, or memory
    that is not mapped, and then the process dies. *)
Definition read_outputs_index (self : pulseaudio_manager) (i : Z) (w : world)
    : outcome Z :=
  let w1 := log (EvReadOutputs i) w in
  match outputs self !! Z.to_nat i with
  | Some d => Returned (index d) w1
  | None =>
      match w_stray w i with
      | Some stray => Returned stray w1
      | None => Crashed w1
      end
  end.

(** [self->outputs[i].code], read after the test of [i]: for a manager
    whose array has [output_count] records the read is inside the array; a
    stray pointer from outside it would go to the library as a string, and the
    run ends there. *)
Definition read_outputs (self : pulseaudio_manager) (i : Z) (w : world)
    : outcome (option string) :=
  let w1 := log (EvReadOutputs i) w in
  match outputs self !! Z.to_nat i with
  | Some d => Returned (code d) w1
  | None => Crashed w1
  end.

(** [self] is dereferenced in the first statement, so it is not null here:
    the test [!self] that follows in the source cannot be true. *)
Definition manager_switch_default_output (self : pulseaudio_manager)
    (device_index : Z) (w : world) : outcome bool :=
  (* _shared_data_1 shared_data = {self, self->outputs[device_index].index}; *)
  call (cached_index, w0) <- read_outputs_index self device_index w;
  let shared_data := {| sd1_manager := self; new_index := cached_index |} in
  match context self with
  | None => Returned false (fprintf_stderr "Invalid arguments provided." w0)
  | Some c =>
      if output_count self <=? device_index then
        Returned false (fprintf_stderr "Invalid arguments provided." w0)
      else
        call (new_sink_name, w1) <- read_outputs self device_index w0;
        match new_sink_name with
        | None => Returned false (fprintf_stderr "Output device code is NULL." w1)
        | Some new_sink_name =>
            let '(op, w2) :=
              pa_context_set_default_sink c new_sink_name
                (Some manager_switch_default_output_cb) w1 in
            call (_, w3) <- iterate op self w2;
            call (code2, w4) <- read_outputs self device_index w3;
            call (idx, w5) <-
              SystemQuery.get_output_device_index_by_code (Some c) code2 w4;
            let shared_data1 :=
              {| sd1_manager := sd1_manager shared_data; new_index := idx |} in
            let '(op2, w6) :=
              pa_context_get_sink_input_info_list c manager_switch_default_output_cb_2 w5 in
            call (_, w7) <- iterate op2 shared_data1 w6;
            Returned true w7
        end
  end.

(** *** [manager_set_output_mute_state] *)
Definition manager_set_output_channel_mute_state_cb
    : pa_info_cb_t pa_sink_info _shared_data_2 :=
  fun _ info eol volume_data w =>
    if 0 <? eol then (volume_data, pa_threaded_mainloop_signal w, true)
    else
      match info with
      | Some i =>
          ({| sd2_manager := sd2_manager volume_data;
              channel_index := channel_index volume_data;
              mute_state := mute_state volume_data;
              new_volume :=
                cvolume_store (sink_volume i) (channel_index volume_data)
                  (if mute_state volume_data then PA_VOLUME_MUTED
                   else pa_cvolume_max (sink_volume i)) |}, w, false)
      | None => (volume_data, w, false)
      end.

Definition manager_set_output_channel_mute_state_cb2
    : pa_context_success_cb_t _shared_data_2 :=
  fun _ success volume_data w =>
    let w1 := if success =? 0 then fprintf_stderr "Failed to set output device volume." w
              else w in
    (volume_data, pa_threaded_mainloop_signal w1, true).

(** [volume_data.new_volume] is not initialised in the source; the empty
    vector stands for the indeterminate value (it is overwritten by the
    callback before any use on every path that gets past the first wait). *)
Definition manager_set_output_mute_state (self : pulseaudio_manager)
    (sink_index channel_index : Z) (mute_state : bool) (w : world) : outcome Z :=
  match context self with
  | None => Returned (-1) (fprintf_stderr "Failed to get PulseAudio context." w)
  | Some c =>
      let volume_data :=
        {| sd2_manager := self; channel_index := channel_index;
           mute_state := mute_state; new_volume := [] |} in
      let '(op, w1) :=
        pa_context_get_sink_info_by_index c sink_index
          manager_set_output_channel_mute_state_cb w in
      match op with
      | None =>
          Returned (-1)
            (fprintf_stderr "Failed to start output device information operation." w1)
      | Some _ =>
          call (volume_data1, w2) <- iterate op volume_data w1;
          let '(op2, w3) :=
            pa_context_set_sink_volume_by_index c sink_index (new_volume volume_data1)
              (Some manager_set_output_channel_mute_state_cb2) w2 in
          call (_, w4) <- iterate op2 volume_data1 w3;
          Returned 0 w4
      end
  end.

(** *** [manager_move_output_playback]

    [sink2_index] goes into the shared data as it is, and the stream callback
    of [manager_switch_default_output] uses it as the server's sink id.  The
    context is not tested: a null one reaches the library. *)
Definition manager_move_output_playback (self : option pulseaudio_manager)
    (sink1_index sink2_index : Z) (w : world) : outcome Z :=
  match self with
  | None => Returned (-1) (fprintf_stderr "Invalid arguments provided." w)
  | Some m =>
      if (output_count m <=? sink1_index) || (output_count m <=? sink2_index) then
        Returned (-1) (fprintf_stderr "Invalid arguments provided." w)
      else
        let shared_data := {| sd1_manager := m; new_index := sink2_index |} in
        match context m with
        | None => Crashed w
        | Some c =>
            let '(op, w1) :=
              pa_context_get_sink_input_info_list c manager_switch_default_output_cb_2 w in
            match op with
            | None =>
                Returned (-1)
                  (fprintf_stderr "Failed to start sink input info list operation." w1)
            | Some _ =>
                call (_, w2) <- iterate op shared_data w1;
                Returned 0 w2
            end
        end
  end.

End V014.

(** ** Vocabulary of the statements *)

(** The move requests that send every stream of [items] to sink [idx]. *)
Definition moves_to (idx : Z) (items : list pa_sink_input_info) : list request :=
  map (fun s => MoveSinkInputByIndex (input_index s) idx) items.

(** The sizes the array was reallocated to, in order. *)
Definition reallocs_of (t : list event) : list Z :=
  omap (fun e => match e with EvRealloc n => Some n | _ => None end) t.

(** The sizes [8; 16; ...; 8 * n]. *)
Definition steps_of_eight (n : nat) : list Z :=
  map (fun i => 8 * Z.of_nat (S i)) (seq 0 n).

(** What holds between two items of a build of the input-device array that
    started with [base] as the record of earlier reallocations and [reqs] as
    the requests sent: [seen] are the items stored so far. *)
Definition building (base : list Z) (reqs : list request) (seen : list pa_source_info)
    (sd : SystemQuery._shared_data_sources) (w : world) : Prop :=
  w_heap w = [] /\
  SystemQuery.count sd = Z.of_nat (length seen) /\
  SystemQuery.allocated sd = 8 * ((SystemQuery.count sd + 7) / 8) /\
  length (SystemQuery.sources sd) = Z.to_nat (SystemQuery.allocated sd) /\
  take (length seen) (SystemQuery.sources sd) = map Some seen /\
  reallocs_of (w_trace w)
  = base ++ steps_of_eight (Z.to_nat (SystemQuery.allocated sd / 8)) /\
  requests_of (w_trace w) = reqs.

(** The sizes [5; 10; ...; 5 * n]. *)
Definition steps_of_five (n : nat) : list Z :=
  map (fun i => 5 * Z.of_nat (S i)) (seq 0 n).

(** The number of times a run entered [pa_threaded_mainloop_wait]. *)
Definition waits_of (t : list event) : nat :=
  length (List.filter (fun e => match e with EvWait => true | _ => false end) t).

(** A turn of the event loop that wakes the waiter and leaves the operation
    running; a turn whose callbacks enter no wait of their own. *)
Definition wakes_only {U} (d : dispatch U) : Prop :=
  d_state d = PA_OPERATION_RUNNING /\ forall u w, snd (d_run d u w) = true.

Definition quiet {U} (d : dispatch U) : Prop :=
  forall u w, waits_of (w_trace (snd (fst (d_run d u w)))) = waits_of (w_trace w).

(** What the turns [ds] leave behind when each of them is met by a wait of
    its own. *)
Fixpoint woken {U} (ds : list (dispatch U)) (u : U) (w : world) : U * world :=
  match ds with
  | [] => (u, w)
  | d :: rest =>
      let '(u1, w1, _) := d_run d u (log EvWait w) in
      woken rest u1 w1
  end.

(** The first state of a list that ends the wait for a connection: [Some
    true] for READY, [Some false] for FAILED or TERMINATED. *)
Fixpoint first_settled (states : list pa_context_state_t) : option bool :=
  match states with
  | [] => None
  | PA_CONTEXT_READY :: _ => Some true
  | PA_CONTEXT_FAILED :: _ | PA_CONTEXT_TERMINATED :: _ => Some false
  | _ :: rest => first_settled rest
  end.

(** What holds between two calls of [device_cb] while [load_devices] runs on
    the manager [m0] in the world [w0], with [base] as the record of earlier
    reallocations: [seen] are the sinks stored so far. *)
Definition loading (base : list Z) (m0 : V003.pulseaudio_manager)
    (seen : list pa_sink_info) (m : V003.pulseaudio_manager) (w w0 : world) : Prop :=
  w_heap w = [] /\
  V003.device_count m = Z.of_nat (length seen) /\
  V003.devices m = map V003.device_of_sink seen /\
  V003.context m = V003.context m0 /\
  V003.pa_ready m = V003.pa_ready m0 /\
  V003.active_device_index m = V003.active_device_index m0 /\
  reallocs_of (w_trace w)
  = base ++ steps_of_five (Z.to_nat ((V003.device_count m + 4) / 5)) /\
  requests_of (w_trace w) = requests_of (w_trace w0) /\
  w_server w = w_server w0.

(** ** A mock set-up: two outputs, three active streams *)
Module Mock.

Definition mk_sink (i : Z) (n d : string) (v : pa_cvolume) : pa_sink_info :=
  {| sink_index := i; sink_name := n; sink_description := d;
     sink_channels := length v; sink_volume := v; sink_mute := false |}.

(** The server numbers its sinks 0 and 5: the catalog position of the second
    output (1) is not its server index. *)
Definition srv0 : server :=
  {| srv_sinks := [ mk_sink 0 "out.0" "Speakers" [30000; 50000];
                    mk_sink 5 "out.1" "Headphones" [65536; 65536] ];
     srv_sources := [];
     srv_cards := [ {| card_index := 0 |} ];
     srv_default_sink := "out.0";
     srv_sink_inputs := [ {| input_index := 11; input_sink := 0 |};
                          {| input_index := 12; input_sink := 0 |};
                          {| input_index := 13; input_sink := 5 |} ] |}.

(** Past the array of outputs the first 4096 places are mapped and hold
    zeroes; nothing is mapped further away. *)
Definition stray0 (i : Z) : option Z := if i <? 4096 then Some 0 else None.

Definition w0 : world :=
  {| w_server := srv0; w_trace := []; w_query_up := true; w_heap := [];
     w_stray := stray0 |}.

Definition ready : pa_context := {| ctx_state := PA_CONTEXT_READY |}.

Definition m0 : V014.pulseaudio_manager :=
  {| V014.context := Some ready;
     V014.outputs := [ {| V014.index := 0; V014.code := Some "out.0";
                          V014.name := Some "Speakers" |};
                       {| V014.index := 5; V014.code := Some "out.1";
                          V014.name := Some "Headphones" |} ];
     V014.inputs := [];
     V014.output_count := 2;
     V014.input_count := 0;
     V014.active_output_device := Some "out.0";
     V014.active_input_device := None |}.

Definition old_m0 : V003.pulseaudio_manager :=
  {| V003.context := ready;
     V003.devices := [ {| V003.index := 0; V003.name := "out.0";
                          V003.description := "Speakers";
                          V003.volume := [30000; 50000]; V003.channel_map := 2%nat;
                          V003.mute := 0 |};
                       {| V003.index := 5; V003.name := "out.1";
                          V003.description := "Headphones";
                          V003.volume := [65536; 65536]; V003.channel_map := 2%nat;
                          V003.mute := 0 |} ];
     V003.device_count := 2;
     V003.pa_ready := 1;
     V003.devices_loaded := 1;
     V003.operations_pending := 0;
     V003.active_device_index := 0;
     V003.active_device_name := Some "out.0";
     V003.current_device_index := 0 |}.

(** A capture device, a server with [n] of them, and an array of 16 slots
    that holds 16 records. *)
Definition mic (i : nat) : pa_source_info :=
  {| source_index := Z.of_nat i; source_name := "in"; source_description := "Microphone" |}.

Definition with_sources (n : nat) : world :=
  {| w_server := {| srv_sinks := srv_sinks srv0; srv_sources := map mic (seq 0 n);
                    srv_cards := srv_cards srv0; srv_default_sink := srv_default_sink srv0;
                    srv_sink_inputs := srv_sink_inputs srv0 |};
     w_trace := []; w_query_up := true; w_heap := []; w_stray := stray0 |}.

Definition full16 : SystemQuery._shared_data_sources :=
  {| SystemQuery.sources := map (fun i => Some (mic i)) (seq 0 16);
     SystemQuery.count := 16; SystemQuery.allocated := 16 |}.

(** A catalog made before a device was unplugged: the server no longer has
    a sink for its second record. *)
Definition stale_m0 : V014.pulseaudio_manager :=
  {| V014.context := Some ready;
     V014.outputs := [ {| V014.index := 0; V014.code := Some "out.0";
                          V014.name := Some "Speakers" |};
                       {| V014.index := 7; V014.code := Some "usb.2";
                          V014.name := Some "Headset" |} ];
     V014.inputs := [];
     V014.output_count := 2;
     V014.input_count := 0;
     V014.active_output_device := Some "out.0";
     V014.active_input_device := None |}.

(** A server whose only sink is described by its own name. *)
Definition w_plain : world :=
  {| w_server := {| srv_sinks := [ mk_sink 0 "null" "null" [65536] ];
                    srv_sources := []; srv_cards := [ {| card_index := 0 |} ];
                    srv_default_sink := "null"; srv_sink_inputs := [] |};
     w_trace := []; w_query_up := true; w_heap := []; w_stray := stray0 |}.

(** The same server with [n] sound cards. *)
Definition with_cards (n : nat) : world :=
  {| w_server := {| srv_sinks := srv_sinks srv0; srv_sources := srv_sources srv0;
                    srv_cards := map (fun i => {| card_index := Z.of_nat i |}) (seq 0 n);
                    srv_default_sink := srv_default_sink srv0;
                    srv_sink_inputs := srv_sink_inputs srv0 |};
     w_trace := []; w_query_up := true; w_heap := []; w_stray := stray0 |}.

(** A manager of v-0.03 whose catalog is not loaded yet, and one whose
    connection never came up. *)
Definition fresh_m0 : V003.pulseaudio_manager :=
  V003.with_device_count 0 (V003.with_devices [] (V003.with_devices_loaded 0 old_m0)).

Definition offline_m0 : V003.pulseaudio_manager :=
  V003.with_context {| ctx_state := PA_CONTEXT_FAILED |} old_m0.

(** A connection that comes up after the usual handshake. *)
Definition handshake : V003.connection :=
  {| V003.conn_mainloop := true; V003.conn_context := true; V003.conn_connect := true;
     V003.conn_states := [ PA_CONTEXT_CONNECTING; PA_CONTEXT_AUTHORIZING;
                           PA_CONTEXT_SETTING_NAME; PA_CONTEXT_READY ] |}.

(** An operation the server never answers. *)
Definition hung : pa_operation unit :=
  {| op_state := PA_OPERATION_RUNNING; op_pending := [] |}.

(** A wake-up that leaves the operation running (the signal of some other
    callback), and an operation that gets [n] of them and no answer. *)
Definition wakeup : dispatch unit :=
  {| d_run := fun u w => (u, pa_threaded_mainloop_signal w, true);
     d_state := PA_OPERATION_RUNNING |}.

Definition spinning (n : nat) : pa_operation unit :=
  {| op_state := PA_OPERATION_RUNNING; op_pending := replicate n wakeup |}.

(** An operation answered at once by a callback that signals. *)
Definition completing : pa_operation unit :=
  answered (fun u w => (u, pa_threaded_mainloop_signal w, true)).

End Mock.

(** * Properties *)

(** ** The bridge: how long [iterate] waits *)

Lemma waits_of_app (a b : list event) : waits_of (a ++ b) = (waits_of a + waits_of b)%nat.
Proof. unfold waits_of. now rewrite List.filter_app, length_app. Qed.

(** A wait over quiet turns adds nothing to the count of waits but itself. *)
Lemma wait_turns_quiet {U} (ds : list (dispatch U)) :
  Forall quiet ds ->
  forall (u u1 : U) (w w1 : world) (op1 : pa_operation U),
    wait_turns ds u w = Returned (u1, op1) w1 ->
    waits_of (w_trace w1) = waits_of (w_trace w) /\ Forall quiet (op_pending op1).
Proof.
  induction 1 as [|d ds Hd Hds IH]; intros u u1 w w1 op1 H; cbn in H; [discriminate|].
  specialize (Hd u w). destruct (d_run d u w) as [[u2 w2] [|]]; cbn in Hd.
  - inversion H; subst. split; [exact Hd|exact Hds].
  - apply IH in H as [Hw Hq]. split; [now rewrite Hw|exact Hq].
Qed.

(** The loop of the v-0.03 [iterate] enters at most [left] waits. *)
Lemma wait_loop_waits {U} (left : nat) :
  forall (wait_cycles : nat) (op : pa_operation U) (u : U) (w : world)
         (r : U * nat * bool) (w' : world),
    Forall quiet (op_pending op) ->
    V003.wait_loop left wait_cycles op u w = Returned r w' ->
    (waits_of (w_trace w') <= waits_of (w_trace w) + left)%nat.
Proof.
  induction left as [|left IH]; intros wc op u w r w' Hq H; cbn in H.
  - destruct (pa_operation_get_state op); inversion H; subst;
      unfold fprintf_stderr, log; cbn [w_trace]; rewrite ?waits_of_app;
      try change (waits_of [EvStderr "Error: Operation timeout. Exiting loop.\n"]) with 0%nat;
      lia.
  - destruct (pa_operation_get_state op); [|inversion H; subst; lia..].
    unfold pa_threaded_mainloop_wait in H.
    destruct (wait_turns (op_pending op) u (log EvWait w)) as [[u1 op1] w1|w1|w1] eqn:E;
      try discriminate.
    destruct (wait_turns_quiet _ Hq _ _ _ _ _ E) as [Hw Hq1].
    apply IH in H; [|exact Hq1]. rewrite Hw in H. unfold log in H. cbn [w_trace] in H.
    rewrite waits_of_app in H. change (waits_of [EvWait]) with 1%nat in H. lia.
Qed.

(** On an operation that every turn leaves running while waking the waiter,
    the loop waits [left] times, one turn per wait, and stops by the cut-off
    with its message. *)
Lemma wait_loop_cut_off {U} (left : nat) :
  forall (wait_cycles : nat) (op : pa_operation U) (u : U) (w : world),
    op_state op = PA_OPERATION_RUNNING ->
    (left <= length (op_pending op))%nat ->
    Forall wakes_only (take left (op_pending op)) ->
    V003.wait_loop left wait_cycles op u w
    = Returned (fst (woken (take left (op_pending op)) u w),
                (wait_cycles + left)%nat, true)
        (fprintf_stderr "Error: Operation timeout. Exiting loop.\n"
           (snd (woken (take left (op_pending op)) u w))).
Proof.
  induction left as [|left IH]; intros wc op u w Hs Hl Hall;
    cbn [V003.wait_loop]; unfold pa_operation_get_state; rewrite Hs.
  - cbn. now rewrite Nat.add_0_r.
  - destruct op as [st [|d rest]]; cbn in Hl, Hs |- *; [lia|].
    cbn [take] in Hall. apply Forall_cons in Hall as [[Hd Hsig] Hall].
    unfold pa_threaded_mainloop_wait. cbn [op_pending wait_turns].
    specialize (Hsig u (log EvWait w)).
    destruct (d_run d u (log EvWait w)) as [[u1 w1] sig]. cbn in Hsig. subst sig.
    rewrite IH; [|exact Hd|cbn; lia|exact Hall]. cbn [op_pending].
    now rewrite Nat.add_succ_r.
Qed.

(** A wait that returns has used up at least one turn of the event loop. *)
Lemma wait_turns_consumes {U} (ds : list (dispatch U)) :
  forall (u u1 : U) (w w1 : world) (op1 : pa_operation U),
    wait_turns ds u w = Returned (u1, op1) w1 ->
    (length (op_pending op1) < length ds)%nat.
Proof.
  induction ds as [|d ds IH]; intros u u1 w w1 op1 H; cbn in H; [discriminate|].
  destruct (d_run d u w) as [[u2 w2] [|]].
  - inversion H; subst. cbn. lia.
  - apply IH in H. cbn. lia.
Qed.

(** The rounds given to the loop of the v-0.12 [iterate] are enough: more
    rounds change nothing. *)
Lemma wait_while_running_rounds {U} (n : nat) :
  forall (m : nat) (op : pa_operation U) (u : U) (w : world),
    (length (op_pending op) <= n)%nat -> (length (op_pending op) <= m)%nat ->
    SystemQuery.wait_while_running n op u w = SystemQuery.wait_while_running m op u w.
Proof.
  induction n as [|n IH]; intros m op u w Hn Hm.
  - destruct m as [|m]; [reflexivity|]. cbn.
    destruct (pa_operation_get_state op); try reflexivity.
    unfold pa_threaded_mainloop_wait.
    destruct (op_pending op); [reflexivity|cbn in Hn; lia].
  - destruct m as [|m]; cbn; destruct (pa_operation_get_state op); try reflexivity.
    + unfold pa_threaded_mainloop_wait.
      destruct (op_pending op); [reflexivity|cbn in Hm; lia].
    + unfold pa_threaded_mainloop_wait.
      destruct (wait_turns (op_pending op) u (log EvWait w)) as [[u1 op1] w1|w1|w1] eqn:E;
        try reflexivity.
      apply wait_turns_consumes in E. apply IH; lia.
Qed.


(** C1 (as the code has it).  Only the v-0.03 [iterate] counts its waits.
    It enters at most [MAX_WAIT_CYCLES] = 100 waits.  On an operation that is
    still running after each of its first 100 wake-ups it waits exactly 100
    times, one wake-up per wait, then writes the time-out message to stderr
    and returns to its caller as after any other wait (the function is
    [void]: nothing but the user data comes back).  The v-0.14 [iterate] waits
    once, with no count: with no answer from the server the wait never ends,
    and after the first signal it returns whatever state the operation is
    in. *)
Theorem iterate_wait_policy {U} (op : pa_operation U) (u : U) (w : world) :
  (Forall quiet (op_pending op) ->
   forall (u' : U) (w' : world),
     V003.iterate (Some op) u w = Returned u' w' ->
     (waits_of (w_trace w') <= waits_of (w_trace w) + V003.MAX_WAIT_CYCLES)%nat) /\
  (op_state op = PA_OPERATION_RUNNING ->
   (V003.MAX_WAIT_CYCLES <= length (op_pending op))%nat ->
   Forall wakes_only (take V003.MAX_WAIT_CYCLES (op_pending op)) ->
   let after := woken (take V003.MAX_WAIT_CYCLES (op_pending op)) u
                  (pa_threaded_mainloop_lock w) in
   V003.iterate (Some op) u w
   = Returned (fst after)
       (pa_threaded_mainloop_unlock (pa_threaded_mainloop_signal
          (fprintf_stderr "Error: Operation timeout. Exiting loop.\n" (snd after))))) /\
  (op_pending op = [] ->
   V014.iterate (Some op) u w = Blocked (log EvWait (pa_threaded_mainloop_lock w))) /\
  (forall (d : dispatch U) (rest : list (dispatch U)) (u' : U) (w' : world),
      op_pending op = d :: rest ->
      d_run d u (log EvWait (pa_threaded_mainloop_lock w)) = (u', w', true) ->
      V014.iterate (Some op) u w = Returned u' (pa_threaded_mainloop_unlock w')).
Proof.
  split; [|split; [|split]].
  - intros Hq u' w' H. unfold V003.iterate in H.
    destruct (V003.wait_loop V003.MAX_WAIT_CYCLES 0 op u (pa_threaded_mainloop_lock w))
      as [r w1|w1|w1] eqn:E; try discriminate.
    cbn [and_then] in H. inversion H; subst.
    apply wait_loop_waits in E; [|exact Hq]. revert E.
    unfold pa_threaded_mainloop_unlock, pa_threaded_mainloop_signal,
      pa_threaded_mainloop_lock, log.
    cbn [w_trace]. rewrite !waits_of_app.
    change (waits_of [EvLock]) with 0%nat. change (waits_of [EvSignal]) with 0%nat.
    change (waits_of [EvUnlock]) with 0%nat. lia.
  - intros Hs Hl Hall after. unfold V003.iterate.
    now rewrite (wait_loop_cut_off _ _ _ _ _ Hs Hl Hall).
  - intros E. unfold V014.iterate, pa_threaded_mainloop_wait. now rewrite E.
  - intros d rest u' w' E Hd.
    unfold V014.iterate, pa_threaded_mainloop_wait. rewrite E. simpl.
    now rewrite Hd.
Qed.

Lemma iterate_wait_policy_witness :
  (waits_of (w_trace (outcome_world (V003.iterate (Some (Mock.spinning 120)) tt Mock.w0)))
   <= waits_of (w_trace Mock.w0) + 100)%nat /\
  V003.iterate (Some (Mock.spinning 120)) tt Mock.w0
  = Returned tt
      (pa_threaded_mainloop_unlock (pa_threaded_mainloop_signal
         (fprintf_stderr "Error: Operation timeout. Exiting loop.\n"
            (snd (woken (replicate 100 Mock.wakeup) tt
                    (pa_threaded_mainloop_lock Mock.w0)))))) /\
  V014.iterate (Some Mock.hung) tt Mock.w0
    = Blocked (log EvWait (pa_threaded_mainloop_lock Mock.w0)) /\
  (exists w', V014.iterate (Some (Mock.spinning 1)) tt Mock.w0 = Returned tt w').
Proof.
  split; [|split; [|split]].
  - destruct (iterate_wait_policy (Mock.spinning 120) tt Mock.w0) as [H _].
    eapply H; [|vm_compute; reflexivity].
    apply Forall_replicate. intros u w. cbn -[waits_of]. rewrite waits_of_app.
    change (waits_of [EvSignal]) with 0%nat. lia.
  - destruct (iterate_wait_policy (Mock.spinning 120) tt Mock.w0) as [_ [H _]].
    apply H; [reflexivity|vm_compute; lia|].
    apply Forall_take, Forall_replicate. split; reflexivity.
  - destruct (iterate_wait_policy Mock.hung tt Mock.w0) as [_ [_ [H _]]].
    apply H. reflexivity.
  - destruct (iterate_wait_policy (Mock.spinning 1) tt Mock.w0) as [_ [_ [_ H]]].
    eexists. eapply H; reflexivity.
Defined.

(** C1 as stated fails on both bridges.  On v-0.14 a server that never answers
    leaves the caller in a wait with no cut-off.  On v-0.03 the cut-off is
    reached after 100 wake-ups of a still running operation, and the caller
    gets back the same value as for an operation that completed. *)
Lemma iterate_cutoff_counterexample :
  V014.iterate (Some Mock.hung) tt Mock.w0
    = Blocked (log EvWait (pa_threaded_mainloop_lock Mock.w0)) /\
  (exists w1 w2,
      V003.iterate (Some (Mock.spinning 100)) tt Mock.w0 = Returned tt w1 /\
      waits_of (w_trace w1) = 100%nat /\
      In (EvStderr "Error: Operation timeout. Exiting loop.\n") (w_trace w1) /\
      V003.iterate (Some Mock.completing) tt Mock.w0 = Returned tt w2 /\
      ~ In (EvStderr "Error: Operation timeout. Exiting loop.\n") (w_trace w2)).
Proof.
  split; [reflexivity|].
  eexists. eexists. split; [vm_compute; reflexivity|].
  split; [vm_compute; reflexivity|].
  split; [vm_compute; tauto|]. split; [vm_compute; reflexivity|].
  vm_compute. intros H.
  repeat (destruct H as [H|H]; [discriminate H|]). exact H.
Qed.

(** ** Percentage to native volume *)

(** The double arithmetic of v-0.14 agrees, on every percentage the function
    accepts, with the integer quotient. *)
Lemma percent_to_volume_quotient (p : Z) :
  0 <= p <= 100 -> V014.percent_to_volume p = p * PA_VOLUME_NORM / 100.
Proof.
  intros H.
  assert (E : exists n : nat, p = Z.of_nat n /\ (n <= 100)%nat)
    by (exists (Z.to_nat p); lia).
  destruct E as (n & -> & Hn). clear H.
  do 101 (destruct n as [|n]; [vm_compute; reflexivity|]).
  lia.
Qed.

(** The same for the conversion of v-0.03, which then clamps. *)
Lemma old_percent_to_volume_quotient (p : Z) :
  0 <= p <= 100 ->
  V003.percent_to_volume (Conv.double_of_int p)
    = Z.min (p * PA_VOLUME_NORM / 100) (PA_VOLUME_NORM - 1).
Proof.
  intros H.
  assert (E : exists n : nat, p = Z.of_nat n /\ (n <= 100)%nat)
    by (exists (Z.to_nat p); lia).
  destruct E as (n & -> & Hn). clear H.
  do 101 (destruct n as [|n]; [vm_compute; reflexivity|]).
  lia.
Qed.

(** C6 (as the code has it).  For every percentage [p] in [0,100] the raw
    value [manager_set_master_volume] computes is the quotient
    [p * PA_VOLUME_NORM / 100]: it grows with [p], stays within
    [0, PA_VOLUME_NORM], and reaches full scale [PA_VOLUME_NORM] itself exactly
    at [p = 100]; there is no clamp in v-0.14.  Only [set_volume] of v-0.03
    clamps, and writes [PA_VOLUME_NORM - 1] at [p = 100]. *)
Theorem percent_to_volume_range (p : Z) :
  0 <= p <= 100 ->
  V014.percent_to_volume p = p * PA_VOLUME_NORM / 100 /\
  0 <= V014.percent_to_volume p <= PA_VOLUME_NORM /\
  (V014.percent_to_volume p = PA_VOLUME_NORM <-> p = 100) /\
  (forall q, 0 <= q <= p -> V014.percent_to_volume q <= V014.percent_to_volume p) /\
  V003.percent_to_volume (Conv.double_of_int p)
    = Z.min (V014.percent_to_volume p) (PA_VOLUME_NORM - 1) /\
  V003.percent_to_volume (Conv.double_of_int p) < PA_VOLUME_NORM.
Proof.
  intros H.
  rewrite old_percent_to_volume_quotient, percent_to_volume_quotient by lia.
  unfold PA_VOLUME_NORM.
  assert (Hq : 0 <= p * 65536 / 100 <= 65536).
  { split; [apply Z.div_pos; lia|]. apply Z.div_le_upper_bound; lia. }
  split; [reflexivity|]. split; [exact Hq|]. split; [|split; [|split]].
  - split; intros E.
    + destruct (Z.eq_dec p 100) as [|Hne]; [assumption|].
      assert (p * 65536 / 100 < 65536) by (apply Z.div_lt_upper_bound; lia). lia.
    + subst p. reflexivity.
  - intros q Hq'. rewrite percent_to_volume_quotient by lia.
    unfold PA_VOLUME_NORM. apply Z.div_le_mono; lia.
  - reflexivity.
  - lia.
Qed.

Lemma percent_to_volume_range_witness :
  V014.percent_to_volume 100 = 100 * PA_VOLUME_NORM / 100 /\
  V003.percent_to_volume (Conv.double_of_int 100) < PA_VOLUME_NORM.
Proof.
  destruct (percent_to_volume_range 100 ltac:(lia)) as (H1 & _ & _ & _ & _ & H2).
  split; [exact H1|exact H2].
Defined.

(** C6 as stated fails: at [p = 100] v-0.14 writes full scale, not one unit
    below it. *)
Lemma percent_to_volume_counterexample :
  V014.percent_to_volume 100 = PA_VOLUME_NORM /\
  ~ (V014.percent_to_volume 100 < PA_VOLUME_NORM) /\
  V014.percent_to_volume 100 <> PA_VOLUME_NORM - 1.
Proof.
  assert (E : V014.percent_to_volume 100 = PA_VOLUME_NORM) by (vm_compute; reflexivity).
  rewrite E. unfold PA_VOLUME_NORM. repeat split; lia.
Qed.

(** ** Traces, the allocator and the mock server: working lemmas *)

Lemma requests_of_app (a b : list event) :
  requests_of (a ++ b) = requests_of a ++ requests_of b.
Proof. apply omap_app. Qed.

Lemma alloc_keeps (w w1 : world) (ok : bool) :
  alloc w = (ok, w1) ->
  w_server w1 = w_server w /\ w_trace w1 = w_trace w /\ w_query_up w1 = w_query_up w.
Proof.
  unfold alloc. destruct (w_heap w); intros H; inversion H; subst; auto.
Qed.

Lemma find_sink_by_index_index (idx : Z) (s : server) (k : pa_sink_info) :
  find_sink_by_index idx s = Some k -> sink_index k = idx.
Proof.
  unfold find_sink_by_index. intros H. apply find_some in H as [_ H].
  now apply Z.eqb_eq.
Qed.

(** Rewriting the sinks picked by [p] does not move the first sink that
    satisfies a test [q] the rewriting cannot see. *)
Lemma find_map_update (q p : pa_sink_info -> bool) (f : pa_sink_info -> pa_sink_info)
    (l : list pa_sink_info) (k : pa_sink_info) :
  (forall x, q (f x) = q x) ->
  find q l = Some k -> p k = true ->
  find q (map (fun x => if p x then f x else x) l) = Some (f k).
Proof.
  intros Hq. induction l as [|x l IH]; simpl; [discriminate|].
  intros H Hp. destruct (q x) eqn:Ex.
  - inversion H; subst. rewrite Hp, Hq, Ex. reflexivity.
  - assert (E : q (if p x then f x else x) = false)
      by (destruct (p x); [rewrite Hq|]; exact Ex).
    rewrite E. now apply IH.
Qed.

Lemma find_by_index_after_write (idx : Z) (v : pa_cvolume) (s : server) (k : pa_sink_info) :
  find_sink_by_index idx s = Some k ->
  find_sink_by_index idx
    (update_sinks (with_volume v) (fun k' => sink_index k' =? sink_index k) s)
  = Some (with_volume v k).
Proof.
  intros H. unfold find_sink_by_index, update_sinks. simpl.
  apply find_map_update; [reflexivity|exact H|apply Z.eqb_refl].
Qed.

Lemma find_by_name_after_write (n : string) (v : pa_cvolume) (s : server) (k : pa_sink_info) :
  find_sink_by_name n s = Some k ->
  find_sink_by_name n
    (update_sinks (with_volume v) (fun k' => sink_index k' =? sink_index k) s)
  = Some (with_volume v k).
Proof.
  intros H. unfold find_sink_by_name, update_sinks. simpl.
  apply find_map_update; [reflexivity|exact H|apply Z.eqb_refl].
Qed.

Lemma clamp_volume_range (v : pa_volume_t) :
  (0 <=? PA_CLAMP_VOLUME v) && (PA_CLAMP_VOLUME v <=? PA_VOLUME_MAX) = true.
Proof.
  unfold PA_CLAMP_VOLUME, PA_VOLUME_MUTED, PA_VOLUME_MAX.
  destruct (v <? 0) eqn:E1; [reflexivity|].
  destruct (2147483647 <? v) eqn:E2; [reflexivity|].
  apply andb_true_intro. split; [apply Z.leb_le|apply Z.leb_le]; lia.
Qed.

Lemma cvolume_set_valid (n : nat) (v : pa_volume_t) :
  (1 <= n <= 32)%nat -> cvolume_valid (pa_cvolume_set n v) = true.
Proof.
  intros H. unfold cvolume_valid, pa_cvolume_set.
  rewrite length_replicate.
  assert (E1 : Nat.eqb n 0 = false) by (apply Nat.eqb_neq; lia).
  assert (E2 : (n <=? 32)%nat = true) by (apply Nat.leb_le; lia).
  rewrite E1, E2. simpl.
  clear. induction n as [|n IH]; simpl; [reflexivity|].
  now rewrite clamp_volume_range.
Qed.

Lemma cvolume_set_accepted (k : pa_sink_info) (v : pa_volume_t) :
  (1 <= sink_channels k <= 32)%nat ->
  volume_accepted k (pa_cvolume_set (sink_channels k) v) = true.
Proof.
  intros H. unfold volume_accepted. rewrite cvolume_set_valid by exact H.
  unfold pa_cvolume_set. rewrite length_replicate. simpl. apply Nat.eqb_refl.
Qed.

(** ** [get_output_device_by_index] on the mock server *)

Lemma get_output_device_by_index_found (idx : Z) (w w1 : world) (k : pa_sink_info) :
  w_query_up w = true -> alloc w = (true, w1) ->
  find_sink_by_index idx (w_server w) = Some k ->
  SystemQuery.get_output_device_by_index idx w
  = Returned (Some k)
      (log EvUnlock (log EvSignal (log EvSignal (log EvWait (log EvLock
         (submit (GetSinkInfoByIndex idx) (w_server w1) w1)))))).
Proof.
  intros Hup Ha Hk. destruct (alloc_keeps _ _ _ Ha) as (Hs & _ & _).
  unfold SystemQuery.get_output_device_by_index.
  rewrite Hup, Ha. simpl.
  unfold pa_context_get_sink_info_by_index. simpl.
  rewrite Hs, Hk. reflexivity.
Qed.

(** An index the server does not know: the request is sent all the same, and
    nothing else is. *)
Lemma get_output_device_by_index_unknown (idx : Z) (w w1 : world) :
  w_query_up w = true -> alloc w = (true, w1) ->
  find_sink_by_index idx (w_server w) = None ->
  let o := SystemQuery.get_output_device_by_index idx w in
  (forall r w', o <> Returned (Some r) w') /\
  requests_of (w_trace (outcome_world o))
    = requests_of (w_trace w) ++ [GetSinkInfoByIndex idx] /\
  w_server (outcome_world o) = w_server w.
Proof.
  intros Hup Ha Hk. destruct (alloc_keeps _ _ _ Ha) as (Hs & Ht & _).
  unfold SystemQuery.get_output_device_by_index.
  rewrite Hup, Ha. simpl.
  unfold pa_context_get_sink_info_by_index. simpl.
  rewrite Hs, Hk. simpl. split; [discriminate|].
  rewrite Ht, !requests_of_app. simpl. rewrite !app_nil_r. auto.
Qed.

(** ** [manager_set_master_volume] *)

(** The run on a device the server knows: the look-up, then the write of the
    uniform vector; the call returns 0 and the server holds the vector. *)
Lemma set_master_volume_run (m : V014.pulseaudio_manager) (c : pa_context)
    (device_id volume : Z) (w w1 : world) (k : pa_sink_info) :
  V014.context m = Some c -> context_ready c = true ->
  0 <= volume <= 100 ->
  w_query_up w = true -> alloc w = (true, w1) ->
  find_sink_by_index device_id (w_server w) = Some k ->
  (1 <= sink_channels k <= 32)%nat ->
  let v := pa_cvolume_set (sink_channels k) (V014.percent_to_volume volume) in
  exists w',
    V014.manager_set_master_volume (Some m) device_id volume w = Returned 0 w' /\
    requests_of (w_trace w')
      = requests_of (w_trace w)
        ++ [GetSinkInfoByIndex device_id; SetSinkVolumeByIndex device_id v] /\
    w_server w'
      = update_sinks (with_volume v) (fun k' => sink_index k' =? sink_index k) (w_server w).
Proof.
  intros Hc Hr Hv Hup Ha Hk Hch v.
  destruct (alloc_keeps _ _ _ Ha) as (Hs & Ht & _).
  unfold V014.manager_set_master_volume.
  assert (E : (volume <? 0) || (100 <? volume) = false).
  { apply orb_false_intro; apply Z.ltb_ge; lia. }
  rewrite E, (get_output_device_by_index_found _ _ _ _ Hup Ha Hk).
  cbn [and_then]. rewrite Hc.
  unfold pa_context_set_sink_volume_by_index.
  rewrite Hr. fold v. unfold v at 1. rewrite cvolume_set_valid by exact Hch.
  cbn [andb w_server log submit]. rewrite Hs, Hk.
  unfold set_sink_volume. unfold v at 1. rewrite cvolume_set_accepted by exact Hch.
  fold v. eexists. split; [reflexivity|]. split; [|reflexivity].
  cbn. rewrite Ht, !requests_of_app. cbn. rewrite <- !app_assoc. reflexivity.
Qed.

(** The same run, event by event: each of the two requests is followed by a
    wait of its own, and the answer to the write is printed before the call
    returns. *)
Lemma set_master_volume_events (m : V014.pulseaudio_manager) (c : pa_context)
    (device_id volume : Z) (w w1 : world) (k : pa_sink_info) :
  V014.context m = Some c -> context_ready c = true ->
  0 <= volume <= 100 ->
  w_query_up w = true -> alloc w = (true, w1) ->
  find_sink_by_index device_id (w_server w) = Some k ->
  (1 <= sink_channels k <= 32)%nat ->
  let v := pa_cvolume_set (sink_channels k) (V014.percent_to_volume volume) in
  exists w',
    V014.manager_set_master_volume (Some m) device_id volume w = Returned 0 w' /\
    w_trace w'
      = w_trace w
        ++ [EvSubmit (GetSinkInfoByIndex device_id); EvLock; EvWait; EvSignal; EvSignal;
            EvUnlock;
            EvSubmit (SetSinkVolumeByIndex device_id v); EvLock; EvWait;
            EvStdout "Volume set successfully."; EvSignal; EvUnlock].
Proof.
  intros Hc Hr Hv Hup Ha Hk Hch v.
  destruct (alloc_keeps _ _ _ Ha) as (Hs & Ht & _).
  unfold V014.manager_set_master_volume.
  assert (E : (volume <? 0) || (100 <? volume) = false).
  { apply orb_false_intro; apply Z.ltb_ge; lia. }
  rewrite E, (get_output_device_by_index_found _ _ _ _ Hup Ha Hk).
  cbn [and_then]. rewrite Hc.
  unfold pa_context_set_sink_volume_by_index.
  rewrite Hr. fold v. unfold v at 1. rewrite cvolume_set_valid by exact Hch.
  cbn [andb w_server log submit]. rewrite Hs, Hk.
  unfold set_sink_volume. unfold v at 1. rewrite cvolume_set_accepted by exact Hch.
  fold v. eexists. split; [reflexivity|].
  cbn. rewrite Ht, <- !app_assoc. reflexivity.
Qed.

Lemma clamp_percent_to_volume (p : Z) :
  0 <= p <= 100 ->
  PA_CLAMP_VOLUME (V014.percent_to_volume p) = p * PA_VOLUME_NORM / 100.
Proof.
  intros H. rewrite percent_to_volume_quotient by exact H.
  assert (Hq : 0 <= p * PA_VOLUME_NORM / 100 <= 65536).
  { unfold PA_VOLUME_NORM. split; [apply Z.div_pos; lia|].
    apply Z.div_le_upper_bound; lia. }
  unfold PA_CLAMP_VOLUME, PA_VOLUME_MUTED, PA_VOLUME_MAX.
  destruct (Z.ltb_spec (p * PA_VOLUME_NORM / 100) 0); [lia|].
  destruct (Z.ltb_spec 2147483647 (p * PA_VOLUME_NORM / 100)); [lia|reflexivity].
Qed.

(** C2 (as the code has it).  A percentage outside [0,100] is refused on the
    spot: the call returns -1, nothing is sent and the server is as it was.
    A device id is not checked
    locally: the call first sends a look-up of that id to the server (one
    request), and for an id the server does not know it sends nothing more,
    leaves the server as it was, and does not report success. *)
Theorem set_master_volume_rejections (device_id volume : Z) (w : world) :
  (forall manager : option V014.pulseaudio_manager,
      volume < 0 \/ 100 < volume ->
      exists w',
        V014.manager_set_master_volume manager device_id volume w = Returned (-1) w' /\
        requests_of (w_trace w') = requests_of (w_trace w) /\
        w_server w' = w_server w) /\
  (forall (m : V014.pulseaudio_manager) (w1 : world),
      0 <= volume <= 100 ->
      w_query_up w = true -> alloc w = (true, w1) ->
      find_sink_by_index device_id (w_server w) = None ->
      let o := V014.manager_set_master_volume (Some m) device_id volume w in
      (forall w', o <> Returned 0 w') /\
      requests_of (w_trace (outcome_world o))
        = requests_of (w_trace w) ++ [GetSinkInfoByIndex device_id] /\
      w_server (outcome_world o) = w_server w).
Proof.
  split.
  - intros manager H. unfold V014.manager_set_master_volume.
    assert (E : (volume <? 0) || (100 <? volume) = true).
    { apply orb_true_iff. destruct H; [left|right]; apply Z.ltb_lt; lia. }
    destruct manager as [m|]; [rewrite E|]; eexists; (split; [reflexivity|]);
      cbn; rewrite requests_of_app; cbn; rewrite app_nil_r; auto.
  - intros m w1 Hv Hup Ha Hk.
    destruct (get_output_device_by_index_unknown _ _ _ Hup Ha Hk) as (Hn & Hreq & Hsrv).
    unfold V014.manager_set_master_volume.
    assert (E : (volume <? 0) || (100 <? volume) = false).
    { apply orb_false_intro; apply Z.ltb_ge; lia. }
    rewrite E.
    destruct (SystemQuery.get_output_device_by_index device_id w) as [[r|] w2|w2|w2];
      cbn [and_then outcome_world] in *.
    + now specialize (Hn r w2).
    + split; [discriminate|]. cbn. rewrite requests_of_app, Hreq. cbn.
      rewrite app_nil_r. auto.
    + split; [discriminate|]. auto.
    + split; [discriminate|]. auto.
Qed.

Lemma set_master_volume_rejections_witness :
  (exists w',
      V014.manager_set_master_volume (Some Mock.m0) 0 101 Mock.w0 = Returned (-1) w' /\
      requests_of (w_trace w') = requests_of (w_trace Mock.w0) /\
      w_server w' = w_server Mock.w0) /\
  requests_of (w_trace (outcome_world
     (V014.manager_set_master_volume (Some Mock.m0) 7 50 Mock.w0)))
  = requests_of (w_trace Mock.w0) ++ [GetSinkInfoByIndex 7].
Proof.
  split.
  - apply (set_master_volume_rejections 0 101 Mock.w0). lia.
  - apply (set_master_volume_rejections 7 50 Mock.w0) with (m := Mock.m0) (w1 := Mock.w0);
      [lia|reflexivity|reflexivity|reflexivity].
Defined.

(** C2 as stated fails for device ids: device 7 is unknown to the server, and
    the call has sent a request to find that out. *)
Lemma set_master_volume_lookup_counterexample :
  find_sink_by_index 7 (w_server Mock.w0) = None /\
  requests_of (w_trace (outcome_world
     (V014.manager_set_master_volume (Some Mock.m0) 7 50 Mock.w0)))
  = [GetSinkInfoByIndex 7] /\
  requests_of (w_trace (outcome_world
     (V014.manager_set_master_volume (Some Mock.m0) 7 50 Mock.w0)))
  <> requests_of (w_trace Mock.w0).
Proof.
  split; [reflexivity|]. split; [vm_compute; reflexivity|].
  vm_compute. discriminate.
Qed.

(** C10.  For a device the server knows and a percentage [p] in [0,100],
    [manager_set_master_volume] returns 0 and the vector it writes gives every
    channel of the device's channel map the same raw value
    [p * PA_VOLUME_NORM / 100]; after the call the server holds that uniform
    vector for the device, whatever the balance was before. *)
Theorem set_master_volume_uniform (m : V014.pulseaudio_manager) (c : pa_context)
    (device_id volume : Z) (w w1 : world) (k : pa_sink_info) :
  V014.context m = Some c -> context_ready c = true ->
  0 <= volume <= 100 ->
  w_query_up w = true -> alloc w = (true, w1) ->
  find_sink_by_index device_id (w_server w) = Some k ->
  (1 <= sink_channels k <= 32)%nat ->
  let raw := volume * PA_VOLUME_NORM / 100 in
  exists w' k',
    V014.manager_set_master_volume (Some m) device_id volume w = Returned 0 w' /\
    last (requests_of (w_trace w'))
      = Some (SetSinkVolumeByIndex device_id (replicate (sink_channels k) raw)) /\
    find_sink_by_index device_id (w_server w') = Some k' /\
    sink_volume k' = replicate (sink_channels k) raw /\
    (forall (ch : nat) (x : pa_volume_t), sink_volume k' !! ch = Some x -> x = raw).
Proof.
  intros Hc Hr Hv Hup Ha Hk Hch raw.
  destruct (set_master_volume_run m c device_id volume w w1 k Hc Hr Hv Hup Ha Hk Hch)
    as (w' & Hrun & Hreq & Hsrv).
  unfold pa_cvolume_set in Hreq, Hsrv.
  rewrite clamp_percent_to_volume in Hreq, Hsrv by exact Hv. fold raw in Hreq, Hsrv.
  exists w', (with_volume (replicate (sink_channels k) raw) k).
  split; [exact Hrun|]. split.
  - rewrite Hreq, last_app_cons. reflexivity.
  - split; [rewrite Hsrv; now apply find_by_index_after_write|].
    split; [reflexivity|].
    intros ch x Hx. cbn in Hx. apply lookup_replicate in Hx. tauto.
Qed.

Lemma set_master_volume_uniform_witness :
  exists w' k',
    V014.manager_set_master_volume (Some Mock.m0) 0 40 Mock.w0 = Returned 0 w' /\
    last (requests_of (w_trace w'))
      = Some (SetSinkVolumeByIndex 0 (replicate 2 (40 * PA_VOLUME_NORM / 100))) /\
    find_sink_by_index 0 (w_server w') = Some k' /\
    sink_volume k' = replicate 2 (40 * PA_VOLUME_NORM / 100) /\
    (forall (ch : nat) (x : pa_volume_t),
        sink_volume k' !! ch = Some x -> x = 40 * PA_VOLUME_NORM / 100).
Proof.
  apply (set_master_volume_uniform Mock.m0 Mock.ready 0 40 Mock.w0 Mock.w0
           (Mock.mk_sink 0 "out.0" "Speakers" [30000; 50000]));
    [reflexivity|reflexivity|lia|reflexivity|reflexivity|reflexivity|simpl; lia].
Defined.

(** ** [set_volume] of v-0.03 and the order of the round-trips *)

(** An operation the server answers in one signalling turn ends the loop of
    the v-0.03 [iterate] after one wait. *)
Lemma wait_loop_answered {U} (n wc : nat) (deliver : U -> world -> ran U)
    (u u' : U) (w w' : world) :
  deliver u (log EvWait w) = (u', w', true) ->
  V003.wait_loop (S n) wc (answered deliver) u w = Returned (u', S wc, false) w'.
Proof.
  intros H. unfold answered.
  cbn [V003.wait_loop pa_operation_get_state op_state].
  unfold pa_threaded_mainloop_wait. cbn [op_pending wait_turns d_run d_state].
  rewrite H. destruct n; reflexivity.
Qed.

Lemma old_iterate_answered {U} (deliver : U -> world -> ran U) (u u' : U) (w w' : world) :
  deliver u (log EvWait (pa_threaded_mainloop_lock w)) = (u', w', true) ->
  V003.iterate (Some (answered deliver)) u w
  = Returned u' (pa_threaded_mainloop_unlock (pa_threaded_mainloop_signal w')).
Proof.
  intros H. unfold V003.iterate.
  change V003.MAX_WAIT_CYCLES with (S 99).
  now rewrite (wait_loop_answered _ _ _ _ _ _ _ H).
Qed.

(** The run of the v-0.03 [set_volume] on a device the server knows. *)
Lemma set_volume_run (m : V003.pulseaudio_manager) (device_index : Z)
    (percentage : float) (w : world) (d : V003.pulseaudio_device) (k : pa_sink_info) :
  PrimFloat.ltb percentage 0%float = false ->
  PrimFloat.ltb 100%float percentage = false ->
  0 <= device_index < V003.device_count m ->
  V003.devices m !! Z.to_nat device_index = Some d ->
  V003.pa_ready m = 1 -> V003.devices_loaded m = 1 ->
  context_ready (V003.context m) = true ->
  find_sink_by_name (V003.name d) (w_server w) = Some k ->
  sink_channels k = V003.channel_map d ->
  (1 <= V003.channel_map d <= 32)%nat ->
  let v := pa_cvolume_set (V003.channel_map d) (V003.percent_to_volume percentage) in
  exists m' w',
    V003.set_volume (Some m) device_index percentage w = Returned (true, Some m') w' /\
    requests_of (w_trace w')
      = requests_of (w_trace w)
        ++ [SetSinkVolumeByName (V003.name d) v; GetSinkInfoByName (V003.name d)] /\
    find_sink_by_name (V003.name d) (w_server w') = Some (with_volume v k) /\
    V003.devices m' = V003.store_volume (V003.active_device_index m) v (V003.devices m).
Proof.
  intros Hlo Hhi Hidx Hd Hrdy Hld Hc Hk Hch Hn v.
  unfold V003.set_volume.
  assert (E : (V003.device_count m <=? device_index) = false) by (apply Z.leb_gt; lia).
  rewrite Hlo, Hhi, E, Hrdy, Hld, Hd. cbn [orb negb Z.eqb Pos.eqb].
  fold v.
  unfold pa_context_set_sink_volume_by_name.
  cbn [V003.context V003.with_operations_pending].
  rewrite Hc. unfold v at 1. rewrite cvolume_set_valid by exact Hn. fold v.
  cbn [andb w_server printf log]. rewrite Hk.
  unfold set_sink_volume.
  assert (Ea : volume_accepted k v = true).
  { unfold v. rewrite <- Hch. apply cvolume_set_accepted. now rewrite Hch. }
  rewrite Ea.
  erewrite old_iterate_answered by reflexivity.
  cbn [and_then].
  unfold pa_context_get_sink_info_by_name.
  cbn [V003.context V003.with_operations_pending].
  rewrite Hc.
  cbn [w_server pa_threaded_mainloop_unlock pa_threaded_mainloop_signal log submit
       pa_threaded_mainloop_lock Z.eqb].
  rewrite (find_by_name_after_write _ v _ _ Hk).
  cbn [sink_info_reply].
  erewrite old_iterate_answered by reflexivity.
  cbn [and_then].
  eexists. eexists. split; [reflexivity|].
  split; [|split].
  - cbn. rewrite !requests_of_app. cbn. rewrite <- !app_assoc. reflexivity.
  - cbn [w_server pa_threaded_mainloop_unlock pa_threaded_mainloop_signal log submit
         pa_threaded_mainloop_lock printf].
    apply (find_by_name_after_write _ v _ _ Hk).
  - reflexivity.
Qed.

(** C5 (as the code has it).  [manager_set_master_volume] of v-0.14 makes two
    round-trips one after the other for a known device and a percentage in
    [0,100]: first a look-up of the device by index, waited for until its
    answer has come, then the volume write, waited for until the server's
    answer is printed; these are all the events of the call.  It does not
    fetch the device again afterwards and writes nothing to the catalog.  The
    write followed by a re-fetch is what [set_volume] of v-0.03 does: the
    write by name, then the look-up by name, whose answer overwrites a cached
    vector; for the active device that is its own record, which then holds
    the vector the server applied. *)
Theorem set_volume_round_trips :
  (forall (m : V014.pulseaudio_manager) (c : pa_context) (device_id volume : Z)
          (w w1 : world) (k : pa_sink_info),
      V014.context m = Some c -> context_ready c = true ->
      0 <= volume <= 100 ->
      w_query_up w = true -> alloc w = (true, w1) ->
      find_sink_by_index device_id (w_server w) = Some k ->
      (1 <= sink_channels k <= 32)%nat ->
      let v := pa_cvolume_set (sink_channels k) (V014.percent_to_volume volume) in
      exists w',
        V014.manager_set_master_volume (Some m) device_id volume w = Returned 0 w' /\
        w_trace w'
        = w_trace w
          ++ [EvSubmit (GetSinkInfoByIndex device_id); EvLock; EvWait; EvSignal; EvSignal;
              EvUnlock;
              EvSubmit (SetSinkVolumeByIndex device_id v); EvLock; EvWait;
              EvStdout "Volume set successfully."; EvSignal; EvUnlock] /\
        requests_of (w_trace w')
        = requests_of (w_trace w)
          ++ [GetSinkInfoByIndex device_id; SetSinkVolumeByIndex device_id v]) /\
  (forall (m : V003.pulseaudio_manager) (device_index : Z) (percentage : float)
          (w : world) (d : V003.pulseaudio_device) (k : pa_sink_info),
      PrimFloat.ltb percentage 0%float = false ->
      PrimFloat.ltb 100%float percentage = false ->
      0 <= device_index < V003.device_count m ->
      V003.devices m !! Z.to_nat device_index = Some d ->
      V003.pa_ready m = 1 -> V003.devices_loaded m = 1 ->
      context_ready (V003.context m) = true ->
      find_sink_by_name (V003.name d) (w_server w) = Some k ->
      sink_channels k = V003.channel_map d ->
      (1 <= V003.channel_map d <= 32)%nat ->
      V003.active_device_index m = device_index ->
      let v := pa_cvolume_set (V003.channel_map d) (V003.percent_to_volume percentage) in
      exists m' w' d' k',
        V003.set_volume (Some m) device_index percentage w
        = Returned (true, Some m') w' /\
        requests_of (w_trace w')
        = requests_of (w_trace w)
          ++ [SetSinkVolumeByName (V003.name d) v; GetSinkInfoByName (V003.name d)] /\
        find_sink_by_name (V003.name d) (w_server w') = Some k' /\
        V003.devices m' !! Z.to_nat device_index = Some d' /\
        V003.volume d' = sink_volume k' /\ sink_volume k' = v).
Proof.
  split.
  - intros m c device_id volume w w1 k Hc Hr Hv Hup Ha Hk Hch v.
    destruct (set_master_volume_events m c device_id volume w w1 k Hc Hr Hv Hup Ha Hk Hch)
      as (w' & Hrun & Htr).
    fold v in Htr. exists w'. split; [exact Hrun|]. split; [exact Htr|].
    rewrite Htr, requests_of_app. reflexivity.
  - intros m device_index percentage w d k Hlo Hhi Hidx Hd Hrdy Hld Hc Hk Hch Hn Hact v.
    destruct (set_volume_run m device_index percentage w d k
                Hlo Hhi Hidx Hd Hrdy Hld Hc Hk Hch Hn) as (m' & w' & Hrun & Hreq & Hsrv & Hdev).
    fold v in Hreq, Hsrv, Hdev.
    exists m', w', (V003.with_device_volume v d), (with_volume v k).
    split; [exact Hrun|]. split; [exact Hreq|]. split; [exact Hsrv|].
    split; [|split; reflexivity].
    rewrite Hdev, Hact. unfold V003.store_volume.
    destruct (Z.ltb_spec device_index 0); [lia|].
    rewrite Hd. apply list_lookup_insert_eq.
    now apply lookup_lt_Some in Hd.
Qed.

Lemma set_volume_round_trips_witness :
  (exists w',
      V014.manager_set_master_volume (Some Mock.m0) 0 40 Mock.w0 = Returned 0 w' /\
      w_trace w'
      = w_trace Mock.w0
        ++ [EvSubmit (GetSinkInfoByIndex 0); EvLock; EvWait; EvSignal; EvSignal;
            EvUnlock;
            EvSubmit (SetSinkVolumeByIndex 0 (pa_cvolume_set 2 (V014.percent_to_volume 40)));
            EvLock; EvWait; EvStdout "Volume set successfully."; EvSignal; EvUnlock] /\
      requests_of (w_trace w')
      = requests_of (w_trace Mock.w0)
        ++ [GetSinkInfoByIndex 0;
            SetSinkVolumeByIndex 0 (pa_cvolume_set 2 (V014.percent_to_volume 40))]) /\
  (exists m' w' d' k',
      V003.set_volume (Some Mock.old_m0) 0 40%float Mock.w0
      = Returned (true, Some m') w' /\
      requests_of (w_trace w')
      = requests_of (w_trace Mock.w0)
        ++ [SetSinkVolumeByName "out.0"
              (pa_cvolume_set 2 (V003.percent_to_volume 40%float));
            GetSinkInfoByName "out.0"] /\
      find_sink_by_name "out.0" (w_server w') = Some k' /\
      V003.devices m' !! Z.to_nat 0 = Some d' /\
      V003.volume d' = sink_volume k' /\
      sink_volume k' = pa_cvolume_set 2 (V003.percent_to_volume 40%float)).
Proof.
  destruct set_volume_round_trips as [H14 H03]. split.
  - apply (H14 Mock.m0 Mock.ready 0 40 Mock.w0 Mock.w0
             (Mock.mk_sink 0 "out.0" "Speakers" [30000; 50000]));
      [reflexivity|reflexivity|lia|reflexivity|reflexivity|reflexivity|simpl; lia].
  - apply (H03 Mock.old_m0 0 40%float Mock.w0
             {| V003.index := 0; V003.name := "out.0"; V003.description := "Speakers";
                V003.volume := [30000; 50000]; V003.channel_map := 2%nat;
                V003.mute := 0 |}
             (Mock.mk_sink 0 "out.0" "Speakers" [30000; 50000]));
      [reflexivity|reflexivity|simpl; lia|reflexivity|reflexivity|reflexivity
      |reflexivity|reflexivity|reflexivity|simpl; lia|reflexivity].
Defined.

(** C5 as stated fails on v-0.14: of the two requests of a successful call the
    first is a look-up, not the write, and nothing follows the write. *)
Lemma set_master_volume_order_counterexample :
  exists w',
    V014.manager_set_master_volume (Some Mock.m0) 0 40 Mock.w0 = Returned 0 w' /\
    requests_of (w_trace w')
    = [GetSinkInfoByIndex 0; SetSinkVolumeByIndex 0 [26214; 26214]] /\
    head (requests_of (w_trace w')) <> Some (SetSinkVolumeByIndex 0 [26214; 26214]) /\
    last (requests_of (w_trace w')) <> Some (GetSinkInfoByIndex 0).
Proof.
  eexists. split; [vm_compute; reflexivity|].
  split; [vm_compute; reflexivity|]. split; vm_compute; discriminate.
Qed.

(** In v-0.03 the re-fetched vector goes to the record of the active device,
    also when another device was set: here device 1 is set and the cache of
    device 0 changes. *)
Example set_volume_caches_on_active_device :
  exists m' w',
    V003.set_volume (Some Mock.old_m0) 1 100%float Mock.w0 = Returned (true, Some m') w' /\
    map V003.volume (V003.devices m') = [[65535; 65535]; [65536; 65536]].
Proof.
  eexists. eexists. split; vm_compute; reflexivity.
Qed.

(** ** [manager_switch_default_output] *)

(** A request the server answers in one signalling turn: both later bridges
    return after that turn. *)
Lemma new_iterate_answered {U} (deliver : U -> world -> ran U) (u u' : U) (w w' : world) :
  deliver u (log EvWait (pa_threaded_mainloop_lock w)) = (u', w', true) ->
  V014.iterate (Some (answered deliver)) u w
  = Returned u' (pa_threaded_mainloop_unlock w').
Proof.
  intros H. unfold V014.iterate, answered, pa_threaded_mainloop_wait.
  cbn [op_pending wait_turns d_run d_state]. now rewrite H.
Qed.

Lemma query_iterate_answered {U} (deliver : U -> world -> ran U) (u u' : U) (w w' : world) :
  deliver u (log EvWait (pa_threaded_mainloop_lock w)) = (u', w', true) ->
  SystemQuery.iterate (Some (answered deliver)) u w
  = Returned u' (pa_threaded_mainloop_unlock w').
Proof.
  intros H. unfold SystemQuery.iterate, answered.
  cbn [op_pending length SystemQuery.wait_while_running pa_operation_get_state op_state].
  unfold pa_threaded_mainloop_wait.
  cbn [op_pending wait_turns d_run d_state]. now rewrite H.
Qed.

(** The stream callback asks for one move per stream it is shown. *)
Lemma deliver_moves (c : pa_context) (items : list pa_sink_input_info) :
  context_ready c = true ->
  Forall (fun s => input_index s <> UINT32_MAX) items ->
  forall (signalled : bool) (sd : V014._shared_data_1) (w : world),
    V014.new_index sd <> UINT32_MAX ->
    exists w',
      deliver_items (V014.manager_switch_default_output_cb_2 c) items 1 signalled sd w
      = (sd, w', true) /\
      requests_of (w_trace w')
      = requests_of (w_trace w) ++ moves_to (V014.new_index sd) items /\
      srv_default_sink (w_server w') = srv_default_sink (w_server w).
Proof.
  intros Hc Hitems. induction Hitems as [|s items Hs _ IH]; intros sig sd w Hidx.
  - cbn. eexists. split; [rewrite orb_true_r; reflexivity|].
    cbn. rewrite requests_of_app. cbn. rewrite !app_nil_r. auto.
  - cbn [deliver_items]. unfold V014.manager_switch_default_output_cb_2 at 1.
    cbn [Z.ltb Z.compare Z.eqb]. unfold pa_context_move_sink_input_by_index.
    rewrite Hc.
    assert (E1 : (input_index s =? UINT32_MAX) = false) by now apply Z.eqb_neq.
    assert (E2 : (V014.new_index sd =? UINT32_MAX) = false) by now apply Z.eqb_neq.
    rewrite E1, E2. cbn [andb negb].
    destruct (move_sink_input (input_index s) (V014.new_index sd) (w_server w))
      as [success s'] eqn:Em.
    destruct (IH (sig || true) sd
                (pa_threaded_mainloop_signal
                   (submit (MoveSinkInputByIndex (input_index s) (V014.new_index sd)) s' w))
                Hidx) as (w' & Hrun & Hreq & Hdef).
    exists w'. split; [exact Hrun|]. split.
    + rewrite Hreq. cbn. rewrite !requests_of_app. cbn.
      rewrite app_nil_r, <- app_assoc. reflexivity.
    + rewrite Hdef. cbn. unfold move_sink_input in Em.
      destruct (find_sink_by_index _ _); [|now inversion Em].
      destruct (existsb _ _); now inversion Em.
Qed.

Lemma get_output_device_index_by_code_found (c : pa_context) (cd : string)
    (w : world) (k : pa_sink_info) :
  w_query_up w = true -> context_ready c = true ->
  find_sink_by_name cd (w_server w) = Some k ->
  SystemQuery.get_output_device_index_by_code (Some c) (Some cd) w
  = Returned (sink_index k)
      (log EvUnlock (log EvSignal (log EvSignal (log EvWait (log EvLock
         (submit (GetSinkInfoByName cd) (w_server w) w)))))).
Proof.
  intros Hup Hc Hk. unfold SystemQuery.get_output_device_index_by_code.
  rewrite Hup. cbn [negb]. unfold pa_context_get_sink_info_by_name.
  rewrite Hc, Hk. cbn [sink_info_reply].
  erewrite query_iterate_answered by reflexivity. reflexivity.
Qed.

(** C3.  For a valid output index whose record has a code the server knows,
    [manager_switch_default_output] asks the server to make that code the
    default sink, asks again for the sink of that code to get its current
    numeric id, lists the active streams, and asks for one move to that id for
    every stream of the list, in the order of the list; it returns [true] and
    the server's default is the code. *)
Theorem switch_default_output_moves_streams (self : V014.pulseaudio_manager)
    (c : pa_context) (device_index : Z) (w : world)
    (d : V014.pulseaudio_device) (cd : string) (k : pa_sink_info) :
  V014.context self = Some c -> context_ready c = true ->
  0 <= device_index < V014.output_count self ->
  V014.outputs self !! Z.to_nat device_index = Some d ->
  V014.code d = Some cd ->
  w_query_up w = true ->
  find_sink_by_name cd (w_server w) = Some k ->
  sink_index k <> UINT32_MAX ->
  Forall (fun s => input_index s <> UINT32_MAX) (srv_sink_inputs (w_server w)) ->
  exists w',
    V014.manager_switch_default_output self device_index w = Returned true w' /\
    requests_of (w_trace w')
    = requests_of (w_trace w)
      ++ [SetDefaultSink cd; GetSinkInfoByName cd; GetSinkInputInfoList]
      ++ moves_to (sink_index k) (srv_sink_inputs (w_server w)) /\
    srv_default_sink (w_server w') = cd.
Proof.
  intros Hctx Hc Hidx Hd Hcode Hup Hk Hki Hin.
  unfold V014.manager_switch_default_output, V014.read_outputs_index, V014.read_outputs.
  rewrite Hctx, Hd. cbn [and_then].
  assert (E : (V014.output_count self <=? device_index) = false) by (apply Z.leb_gt; lia).
  rewrite E, Hcode.
  unfold pa_context_set_default_sink. rewrite Hc.
  cbn [w_server log]. unfold set_default_sink. rewrite Hk.
  erewrite new_iterate_answered by reflexivity.
  cbn [and_then].
  erewrite get_output_device_index_by_code_found; [|exact Hup|exact Hc|exact Hk].
  cbn [and_then]. unfold pa_context_get_sink_input_info_list. rewrite Hc.
  cbn [w_server log submit pa_threaded_mainloop_unlock pa_threaded_mainloop_signal
       pa_threaded_mainloop_lock Z.eqb srv_sink_inputs V014.sd1_manager].
  match goal with
  | |- context [V014.iterate (Some (answered (deliver_items _ _ 1 false))) ?sd ?w0] =>
      destruct (deliver_moves c _ Hc Hin false sd
                  (log EvWait (pa_threaded_mainloop_lock w0)) Hki)
        as (w' & Hrun & Hreq & Hdef)
  end.
  rewrite (new_iterate_answered _ _ _ _ _ Hrun). cbn [and_then].
  eexists. split; [reflexivity|]. split.
  - cbn [w_trace log pa_threaded_mainloop_unlock]. rewrite requests_of_app, Hreq.
    cbn. rewrite !requests_of_app. cbn. rewrite !app_nil_r, <- !app_assoc. reflexivity.
  - cbn [w_server log pa_threaded_mainloop_unlock]. rewrite Hdef. reflexivity.
Qed.

Lemma switch_default_output_moves_streams_witness :
  exists w',
    V014.manager_switch_default_output Mock.m0 1 Mock.w0 = Returned true w' /\
    requests_of (w_trace w')
    = requests_of (w_trace Mock.w0)
      ++ [SetDefaultSink "out.1"; GetSinkInfoByName "out.1"; GetSinkInputInfoList]
      ++ moves_to 5 (srv_sink_inputs (w_server Mock.w0)) /\
    srv_default_sink (w_server w') = "out.1".
Proof.
  apply (switch_default_output_moves_streams Mock.m0 Mock.ready 1 Mock.w0
           {| V014.index := 5; V014.code := Some "out.1"; V014.name := Some "Headphones" |}
           "out.1" (Mock.mk_sink 5 "out.1" "Headphones" [65536; 65536]));
    [reflexivity|reflexivity|simpl; lia|reflexivity|reflexivity|reflexivity
    |reflexivity|discriminate|].
  repeat constructor; discriminate.
Defined.

(** C4 (the code at an invalid index).  The first step of
    [manager_switch_default_output], before the test of the index, is a read
    of [self->outputs[device_index]].  For an index at or past [output_count]
    that read lies outside the array.  Where the memory it reaches is not
    mapped the process dies there, with nothing returned, printed or sent.
    Where it finds a stray word the call goes on to the test, returns [false]
    with the complaint on stderr, sends nothing and leaves the server as it
    was. *)
Theorem switch_default_output_invalid_index (self : V014.pulseaudio_manager)
    (c : pa_context) (device_index : Z) (w : world) :
  V014.manager_wf self ->
  V014.context self = Some c ->
  V014.output_count self <= device_index ->
  V014.outputs self !! Z.to_nat device_index = None /\
  (w_stray w device_index = None ->
   V014.manager_switch_default_output self device_index w
   = Crashed (log (EvReadOutputs device_index) w)) /\
  (forall stray : Z,
      w_stray w device_index = Some stray ->
      exists w',
        V014.manager_switch_default_output self device_index w = Returned false w' /\
        w_trace w'
        = w_trace w ++ [EvReadOutputs device_index; EvStderr "Invalid arguments provided."] /\
        requests_of (w_trace w') = requests_of (w_trace w) /\
        w_server w' = w_server w).
Proof.
  intros [Hwf _] Hctx Hidx.
  assert (Hout : V014.outputs self !! Z.to_nat device_index = None)
    by (apply lookup_ge_None; lia).
  split; [exact Hout|].
  unfold V014.manager_switch_default_output, V014.read_outputs_index.
  rewrite Hout, Hctx. split.
  - intros Hs. rewrite Hs. reflexivity.
  - intros stray Hs. rewrite Hs. cbn [and_then].
    assert (E : (V014.output_count self <=? device_index) = true) by (apply Z.leb_le; lia).
    rewrite E. eexists. split; [reflexivity|].
    split; [cbn; rewrite <- app_assoc; reflexivity|].
    split; [cbn; rewrite !requests_of_app; cbn; rewrite !app_nil_r; reflexivity|].
    reflexivity.
Qed.

Lemma switch_default_output_invalid_index_witness :
  (V014.outputs Mock.m0 !! Z.to_nat 1000000 = None /\
   V014.manager_switch_default_output Mock.m0 1000000 Mock.w0
   = Crashed (log (EvReadOutputs 1000000) Mock.w0)) /\
  (exists w',
      V014.manager_switch_default_output Mock.m0 5 Mock.w0 = Returned false w' /\
      w_trace w'
      = w_trace Mock.w0 ++ [EvReadOutputs 5; EvStderr "Invalid arguments provided."] /\
      requests_of (w_trace w') = requests_of (w_trace Mock.w0) /\
      w_server w' = w_server Mock.w0).
Proof.
  split.
  - destruct (switch_default_output_invalid_index Mock.m0 Mock.ready 1000000 Mock.w0)
      as [H1 [H2 _]]; [split; reflexivity|reflexivity|simpl; lia|].
    split; [exact H1|apply H2; reflexivity].
  - destruct (switch_default_output_invalid_index Mock.m0 Mock.ready 5 Mock.w0)
      as [_ [_ H]]; [split; reflexivity|reflexivity|simpl; lia|].
    apply (H 0). reflexivity.
Defined.

(** ** [manager_toggle_output_mute] *)

(** C8 (as the code has it).  For a manager with a context and an index
    below [output_count], [manager_toggle_output_mute] returns 0 whatever the
    server answers: with a READY context one mute request is sent, and when
    the server has no sink of that index its completion callback reports the
    failure, which is written to stderr and goes no further; the server is
    left as it was.  The call returns -1 only for a null manager, a null
    context, or an index that is not below [output_count]. *)
Theorem toggle_output_mute_returns_zero (manager : option V014.pulseaudio_manager)
    (index state : Z) (w : world) :
  (forall (m : V014.pulseaudio_manager) (c : pa_context),
      manager = Some m -> V014.context m = Some c ->
      0 <= index < V014.output_count m ->
      exists w',
        V014.manager_toggle_output_mute manager index state w = Returned 0 w' /\
        (context_ready c = true ->
         requests_of (w_trace w')
         = requests_of (w_trace w) ++ [SetSinkMuteByIndex index state] /\
         (find_sink_by_index index (w_server w) = None ->
          In (EvStderr "Failed to toggle mute state.") (w_trace w') /\
          w_server w' = w_server w))) /\
  (forall w',
      V014.manager_toggle_output_mute manager index state w = Returned (-1) w' ->
      manager = None \/
      exists m, manager = Some m /\
                (V014.context m = None \/ V014.output_count m <= index)).
Proof.
  split.
  - intros m c -> Hctx Hidx. unfold V014.manager_toggle_output_mute.
    cbn [mbind option_bind]. rewrite Hctx. cbn [option_map].
    assert (E : (V014.output_count m <=? index) = false) by (apply Z.leb_gt; lia).
    rewrite E. unfold pa_context_set_sink_mute_by_index.
    destruct (context_ready c) eqn:Hc.
    + destruct (set_sink_mute index state (w_server w)) as [success s] eqn:Es.
      erewrite new_iterate_answered by reflexivity.
      cbn [and_then]. eexists. split; [reflexivity|]. intros _. split.
      * destruct (success =? 0); cbn; rewrite !requests_of_app; cbn;
          rewrite !app_nil_r; reflexivity.
      * intros Hnone. unfold set_sink_mute in Es. rewrite Hnone in Es.
        inversion Es; subst. cbn. split; [|reflexivity].
        rewrite !in_app_iff. cbn. tauto.
    + cbn. eexists. split; [reflexivity|]. discriminate.
  - intros w' H. destruct manager as [m|]; [right|now left].
    exists m. split; [reflexivity|].
    unfold V014.manager_toggle_output_mute in H. cbn [mbind option_bind] in H.
    destruct (V014.context m) as [c|]; [right|now left].
    cbn [option_map] in H.
    destruct (Z.leb_spec (V014.output_count m) index) as [Hle|Hgt]; [exact Hle|].
    exfalso. destruct (pa_context_set_sink_mute_by_index c index state _ w) as [op w1].
    destruct (V014.iterate op m w1); discriminate H.
Qed.

Lemma toggle_output_mute_returns_zero_witness :
  exists w',
    V014.manager_toggle_output_mute (Some Mock.m0) 1 1 Mock.w0 = Returned 0 w' /\
    (context_ready Mock.ready = true ->
     requests_of (w_trace w') = requests_of (w_trace Mock.w0) ++ [SetSinkMuteByIndex 1 1] /\
     (find_sink_by_index 1 (w_server Mock.w0) = None ->
      In (EvStderr "Failed to toggle mute state.") (w_trace w') /\
      w_server w' = w_server Mock.w0)).
Proof.
  destruct (toggle_output_mute_returns_zero (Some Mock.m0) 1 1 Mock.w0) as [H _].
  apply (H Mock.m0 Mock.ready); [reflexivity|reflexivity|simpl; lia].
Defined.

(** C8 fails on the code, and so does the function's own header, which
    promises -1 on failure: index 1 is a valid catalog index, the server has
    no sink numbered 1, its callback reports the failure (the message is on
    stderr, no sink is muted), and the call returns 0. *)
Lemma toggle_output_mute_counterexample :
  exists w',
    V014.manager_toggle_output_mute (Some Mock.m0) 1 1 Mock.w0 = Returned 0 w' /\
    In (EvStderr "Failed to toggle mute state.") (w_trace w') /\
    map sink_mute (srv_sinks (w_server w')) = [false; false].
Proof.
  eexists. split; [vm_compute; reflexivity|].
  split; [vm_compute; tauto|vm_compute; reflexivity].
Qed.

(** ** [manager_set_output_mute_state] *)

Lemma cvolume_max_from (v : pa_cvolume) :
  forall m0, 0 <= m0 <= PA_VOLUME_MAX ->
  forallb (fun x => (0 <=? x) && (x <=? PA_VOLUME_MAX)) v = true ->
  0 <= fold_left (fun m x => if m <? x then x else m) v m0 <= PA_VOLUME_MAX.
Proof.
  induction v as [|x v IH]; intros m0 Hm H; cbn in *; [exact Hm|].
  apply andb_true_iff in H as [Hx Hv]. apply andb_true_iff in Hx as [H0 H1].
  apply Z.leb_le in H0, H1. apply IH; [|exact Hv].
  destruct (m0 <? x); lia.
Qed.

Lemma cvolume_max_range (v : pa_cvolume) :
  cvolume_valid v = true -> 0 <= pa_cvolume_max v <= PA_VOLUME_MAX.
Proof.
  unfold cvolume_valid. intros H. apply andb_true_iff in H as [_ H].
  apply cvolume_max_from; [|exact H]. unfold PA_VOLUME_MUTED, PA_VOLUME_MAX. lia.
Qed.

Lemma forallb_insert {A} (p : A -> bool) (l : list A) (i : nat) (x : A) :
  forallb p l = true -> p x = true -> forallb p (<[i := x]> l) = true.
Proof.
  revert i. induction l as [|y l IH]; intros [|i] H Hx; cbn in *; try exact H.
  - apply andb_true_iff in H as [_ H]. now rewrite Hx.
  - apply andb_true_iff in H as [Hy H]. rewrite Hy. now apply IH.
Qed.

Lemma cvolume_store_accepted (k : pa_sink_info) (v : pa_cvolume) (c : Z) (x : pa_volume_t) :
  volume_accepted k v = true -> 0 <= x <= PA_VOLUME_MAX ->
  volume_accepted k (cvolume_store v c x) = true.
Proof.
  unfold volume_accepted, cvolume_valid, cvolume_store. intros H Hx.
  destruct (c <? 0); [exact H|]. rewrite length_insert.
  apply andb_true_iff in H as [H Hl]. apply andb_true_iff in H as [Hn Hf].
  rewrite Hn, Hl. cbn. rewrite andb_true_r. apply forallb_insert; [exact Hf|].
  apply andb_true_iff. split; apply Z.leb_le; lia.
Qed.

(** One call on a sink the server knows: the fetch, then the write of the
    fetched vector with the one entry changed. *)
Lemma set_output_mute_state_run (self : V014.pulseaudio_manager) (c : pa_context)
    (sink_index channel : Z) (mute : bool) (w : world) (k : pa_sink_info) :
  V014.context self = Some c -> context_ready c = true ->
  find_sink_by_index sink_index (w_server w) = Some k ->
  volume_accepted k (sink_volume k) = true ->
  let v := cvolume_store (sink_volume k) channel
             (if mute then PA_VOLUME_MUTED else pa_cvolume_max (sink_volume k)) in
  exists w',
    V014.manager_set_output_mute_state self sink_index channel mute w = Returned 0 w' /\
    requests_of (w_trace w')
    = requests_of (w_trace w)
      ++ [GetSinkInfoByIndex sink_index; SetSinkVolumeByIndex sink_index v] /\
    find_sink_by_index sink_index (w_server w') = Some (with_volume v k).
Proof.
  intros Hctx Hc Hk Hacc v.
  assert (Hv : volume_accepted k v = true).
  { apply cvolume_store_accepted; [exact Hacc|].
    destruct mute; [unfold PA_VOLUME_MUTED, PA_VOLUME_MAX; lia|].
    apply cvolume_max_range. unfold volume_accepted in Hacc.
    now apply andb_true_iff in Hacc as [Hacc _]. }
  unfold V014.manager_set_output_mute_state. rewrite Hctx.
  unfold pa_context_get_sink_info_by_index. rewrite Hc, Hk. cbn [sink_info_reply].
  erewrite new_iterate_answered by reflexivity.
  cbn [and_then V014.new_volume V014.channel_index V014.mute_state]. fold v.
  unfold pa_context_set_sink_volume_by_index. rewrite Hc.
  assert (Hvv : cvolume_valid v = true).
  { unfold volume_accepted in Hv. now apply andb_true_iff in Hv as [Hv _]. }
  rewrite Hvv.
  cbn [andb w_server log submit pa_threaded_mainloop_unlock pa_threaded_mainloop_signal
       pa_threaded_mainloop_lock].
  rewrite Hk. unfold set_sink_volume. rewrite Hv.
  erewrite new_iterate_answered by reflexivity.
  cbn [and_then]. eexists. split; [reflexivity|]. split.
  - cbn. rewrite !requests_of_app. cbn. rewrite !app_nil_r, <- !app_assoc. reflexivity.
  - cbn [w_server log pa_threaded_mainloop_unlock pa_threaded_mainloop_signal submit Z.eqb].
    now apply find_by_index_after_write.
Qed.

(** C7 (as the code has it).  Muting a channel and then unmuting it does not
    bring back the channel's former value: the unmute writes the largest value
    found in the vector at that moment, which is the largest value of the
    other channels (0 when there is none).  The former value comes back
    exactly when it was equal to that maximum. *)
Theorem mute_then_unmute (self : V014.pulseaudio_manager) (c : pa_context)
    (sink_index channel : Z) (w : world) (k : pa_sink_info) (x : pa_volume_t) :
  V014.context self = Some c -> context_ready c = true ->
  find_sink_by_index sink_index (w_server w) = Some k ->
  volume_accepted k (sink_volume k) = true ->
  0 <= channel -> sink_volume k !! Z.to_nat channel = Some x ->
  let others := pa_cvolume_max (<[Z.to_nat channel := PA_VOLUME_MUTED]> (sink_volume k)) in
  exists w1 w2 k2,
    V014.manager_set_output_mute_state self sink_index channel true w = Returned 0 w1 /\
    V014.manager_set_output_mute_state self sink_index channel false w1 = Returned 0 w2 /\
    find_sink_by_index sink_index (w_server w2) = Some k2 /\
    sink_volume k2 = <[Z.to_nat channel := others]> (sink_volume k) /\
    sink_volume k2 !! Z.to_nat channel = Some others /\
    (sink_volume k2 !! Z.to_nat channel = Some x <-> x = others).
Proof.
  intros Hctx Hc Hk Hacc Hch Hx others.
  assert (Hlt : (Z.to_nat channel < length (sink_volume k))%nat)
    by now apply lookup_lt_Some in Hx.
  assert (E : (channel <? 0) = false) by (apply Z.ltb_ge; lia).
  destruct (set_output_mute_state_run self c sink_index channel true w k Hctx Hc Hk Hacc)
    as (w1 & Hrun1 & _ & Hk1).
  unfold cvolume_store in Hk1. rewrite E in Hk1.
  set (v1 := <[Z.to_nat channel := PA_VOLUME_MUTED]> (sink_volume k)) in *.
  assert (Hacc1 : volume_accepted (with_volume v1 k) (sink_volume (with_volume v1 k)) = true).
  { assert (H := cvolume_store_accepted k (sink_volume k) channel PA_VOLUME_MUTED Hacc).
    unfold cvolume_store in H. rewrite E in H. apply H.
    unfold PA_VOLUME_MUTED, PA_VOLUME_MAX. lia. }
  destruct (set_output_mute_state_run self c sink_index channel false w1 _ Hctx Hc Hk1 Hacc1)
    as (w2 & Hrun2 & _ & Hk2).
  cbn [sink_volume with_volume] in Hk2. unfold cvolume_store in Hk2. rewrite E in Hk2.
  fold others in Hk2. unfold v1 in Hk2. rewrite list_insert_insert_eq in Hk2.
  exists w1, w2. eexists. split; [exact Hrun1|]. split; [exact Hrun2|].
  split; [exact Hk2|]. cbn [sink_volume with_volume].
  split; [reflexivity|].
  rewrite list_lookup_insert_eq by exact Hlt. split; [reflexivity|].
  split; [now intros [= ->]|now intros ->].
Qed.

Lemma mute_then_unmute_witness :
  exists w1 w2 k2,
    V014.manager_set_output_mute_state Mock.m0 0 0 true Mock.w0 = Returned 0 w1 /\
    V014.manager_set_output_mute_state Mock.m0 0 0 false w1 = Returned 0 w2 /\
    find_sink_by_index 0 (w_server w2) = Some k2 /\
    sink_volume k2
    = <[Z.to_nat 0 := pa_cvolume_max (<[Z.to_nat 0 := PA_VOLUME_MUTED]> [30000; 50000])]>
        [30000; 50000] /\
    sink_volume k2 !! Z.to_nat 0
    = Some (pa_cvolume_max (<[Z.to_nat 0 := PA_VOLUME_MUTED]> [30000; 50000])) /\
    (sink_volume k2 !! Z.to_nat 0 = Some 30000
     <-> 30000 = pa_cvolume_max (<[Z.to_nat 0 := PA_VOLUME_MUTED]> [30000; 50000])).
Proof.
  apply (mute_then_unmute Mock.m0 Mock.ready 0 0 Mock.w0
           (Mock.mk_sink 0 "out.0" "Speakers" [30000; 50000]) 30000);
    [reflexivity|reflexivity|reflexivity|reflexivity|lia|reflexivity].
Defined.

(** C7 as stated fails: the left channel of the first output is at 30000 and
    the right one at 50000; after mute and unmute of the left channel it is at
    50000. *)
Lemma mute_then_unmute_counterexample :
  exists w1 w2,
    map sink_volume (srv_sinks (w_server Mock.w0)) = [[30000; 50000]; [65536; 65536]] /\
    V014.manager_set_output_mute_state Mock.m0 0 0 true Mock.w0 = Returned 0 w1 /\
    map sink_volume (srv_sinks (w_server w1)) = [[0; 50000]; [65536; 65536]] /\
    V014.manager_set_output_mute_state Mock.m0 0 0 false w1 = Returned 0 w2 /\
    map sink_volume (srv_sinks (w_server w2)) = [[50000; 50000]; [65536; 65536]].
Proof.
  eexists. eexists. split; [reflexivity|].
  split; [vm_compute; reflexivity|]. split; [vm_compute; reflexivity|].
  split; vm_compute; reflexivity.
Qed.

(** ** The arrays of the catalog *)

Import SystemQuery.

Lemma reallocs_of_app (a b : list event) :
  reallocs_of (a ++ b) = reallocs_of a ++ reallocs_of b.
Proof. apply omap_app. Qed.

(** The callback on one item, with an allocator that grants everything. *)
Lemma input_devices_cb_item (c : pa_context) (i : pa_source_info)
    (sd : _shared_data_sources) (w : world) :
  w_heap w = [] ->
  0 <= count sd -> 0 <= allocated sd -> allocated sd + 8 < 4294967296 ->
  count sd + 1 < 4294967296 ->
  let full := allocated sd <=? count sd in
  let sd1 := if full
             then {| sources := resize (allocated sd + 8) (sources sd);
                     count := count sd; allocated := allocated sd + 8 |}
             else sd in
  get_available_input_devices_cb c (Some i) 0 sd w
  = ({| sources := store (count sd) (Some i) (sources sd1);
        count := count sd + 1; allocated := allocated sd1 |},
     (if full then log (EvRealloc (allocated sd + 8)) w else w), false).
Proof.
  intros Hh Hc Ha Hw Hw' full sd1. unfold get_available_input_devices_cb.
  cbn [Z.ltb Z.compare]. fold full.
  assert (Ea : alloc w = (true, w)) by (unfold alloc; now rewrite Hh).
  assert (E8 : wrap32 (allocated sd + 8) = allocated sd + 8)
    by (unfold wrap32; apply Z.mod_small; lia).
  assert (E1 : wrap32 (count sd + 1) = count sd + 1)
    by (unfold wrap32; apply Z.mod_small; lia).
  unfold sd1. destruct full.
  - rewrite E8, Ea. cbn [fst snd].
    assert (Ea' : alloc (log (EvRealloc (allocated sd + 8)) w)
                  = (true, log (EvRealloc (allocated sd + 8)) w))
      by (unfold alloc; cbn; now rewrite Hh).
    rewrite Ea'. cbn [count sources allocated]. now rewrite E1.
  - rewrite Ea. now rewrite E1.
Qed.

Lemma steps_of_eight_S (n : nat) :
  steps_of_eight (S n) = steps_of_eight n ++ [8 * Z.of_nat (S n)].
Proof. unfold steps_of_eight. rewrite seq_S, map_app. reflexivity. Qed.

Lemma building_item (c : pa_context) (base : list Z) (reqs : list request)
    (seen : list pa_source_info) (i : pa_source_info)
    (sd : _shared_data_sources) (w : world) :
  building base reqs seen sd w ->
  Z.of_nat (length seen) + 16 < 4294967296 ->
  exists sd' w',
    get_available_input_devices_cb c (Some i) 0 sd w = (sd', w', false) /\
    building base reqs (seen ++ [i]) sd' w'.
Proof.
  intros (Hh & Hc & Ha & Hl & Ht & Hr & Hq) Hbound.
  assert (Hc0 : 0 <= count sd) by lia.
  assert (Hdiv : count sd <= allocated sd < count sd + 8)
    by (rewrite Ha; Z.div_mod_to_equations; lia).
  rewrite (input_devices_cb_item c i sd w Hh) by lia.
  eexists. eexists. split; [reflexivity|].
  destruct (Z.leb_spec (allocated sd) (count sd)) as [Hfull|Hroom].
  - (* the array is full: eight more slots *)
    assert (Hca : allocated sd = count sd) by lia.
    assert (Hn : length (sources sd) = length seen) by lia.
    unfold building. cbn [count allocated sources w_heap w_trace log].
    rewrite length_app. cbn [length].
    split; [exact Hh|]. split; [lia|].
    split; [rewrite Ha at 1; Z.div_mod_to_equations; lia|].
    unfold store, resize.
    replace (Z.to_nat (count sd)) with (length seen) by lia.
    replace (Z.to_nat (allocated sd + 8)) with (length seen + 8)%nat by lia.
    rewrite take_ge by lia. rewrite Hn.
    replace (length seen + 8 - length seen)%nat with 8%nat by lia.
    split; [rewrite length_insert, length_app, length_replicate; lia|].
    split.
    + replace (length seen + 1)%nat with (S (length seen)) by lia.
      erewrite take_S_r
        by (apply list_lookup_insert_eq; rewrite length_app, length_replicate; lia).
      rewrite take_insert_ge by lia. rewrite take_app_le by lia.
      rewrite Ht, map_app. reflexivity.
    + split; [|rewrite requests_of_app, Hq; cbn; now rewrite app_nil_r].
      rewrite reallocs_of_app, Hr. cbn [reallocs_of omap].
      replace (Z.to_nat ((allocated sd + 8) / 8)) with (S (Z.to_nat (allocated sd / 8)))
        by (rewrite Ha; Z.div_mod_to_equations; lia).
      rewrite steps_of_eight_S, app_assoc. f_equal. cbn. f_equal.
      rewrite Nat2Z.inj_succ, Z2Nat.id by (Z.div_mod_to_equations; lia).
      Z.div_mod_to_equations; lia.
  - (* there is room *)
    unfold building. cbn [count allocated sources w_heap w_trace].
    rewrite length_app. cbn [length].
    split; [exact Hh|]. split; [lia|].
    split; [rewrite Ha at 1; Z.div_mod_to_equations; lia|].
    unfold store. split; [rewrite length_insert; exact Hl|].
    split; [|split; [exact Hr|exact Hq]].
    replace (Z.to_nat (count sd)) with (length seen) by lia.
    replace (length seen + 1)%nat with (S (length seen)) by lia.
    erewrite take_S_r by (apply list_lookup_insert_eq; lia).
    rewrite take_insert_ge by lia. rewrite Ht, map_app. reflexivity.
Qed.

Lemma building_items (c : pa_context) (base : list Z) (reqs : list request)
    (items : list pa_source_info) :
  forall (seen : list pa_source_info) (sd : _shared_data_sources) (w : world)
         (signalled : bool),
    building base reqs seen sd w ->
    Z.of_nat (length seen + length items) + 16 < 4294967296 ->
    exists sd' w',
      deliver_items (get_available_input_devices_cb c) items 1 signalled sd w
      = (sd', w', true) /\
      building base reqs (seen ++ items) sd' w'.
Proof.
  induction items as [|i items IH]; intros seen sd w sig Hb Hbound.
  - cbn. eexists. eexists. split; [rewrite orb_true_r; reflexivity|].
    destruct Hb as (Hh & Hc & Ha & Hl & Ht & Hr & Hq).
    rewrite app_nil_r. unfold building. cbn [count allocated sources w_heap w_trace].
    split; [exact Hh|]. split; [exact Hc|]. split; [exact Ha|].
    unfold store. split; [rewrite length_insert; exact Hl|].
    split; [rewrite take_insert_ge by lia; exact Ht|].
    cbn. rewrite reallocs_of_app, requests_of_app. cbn. rewrite !app_nil_r. auto.
  - cbn [deliver_items length] in *.
    destruct (building_item c base reqs seen i sd w Hb) as (sd1 & w1 & Hrun & Hb1); [lia|].
    rewrite Hrun.
    destruct (IH (seen ++ [i]) sd1 w1 (sig || false) Hb1) as (sd' & w' & Hrun' & Hb').
    { rewrite length_app. cbn [length]. lia. }
    exists sd', w'. split; [exact Hrun'|]. now rewrite <- app_assoc in Hb'.
Qed.

Lemma insert_last {A} (l : list A) (n : nat) (x : A) :
  length l = S n -> <[n := x]> l = take n l ++ [x].
Proof.
  intros H. rewrite insert_take_drop by lia. now rewrite drop_ge by lia.
Qed.

(** The whole build: the array comes back with the records in the server's
    order and the NULL sentinel; it was reallocated to 8, 16, ... slots while
    the list came in, and once more at the end. *)
Lemma get_available_input_devices_run (w : world) :
  w_query_up w = true -> w_heap w = [] ->
  Z.of_nat (length (srv_sources (w_server w))) + 16 < 4294967296 ->
  let n := Z.of_nat (length (srv_sources (w_server w))) in
  exists w',
    get_available_input_devices w
    = Returned (Some (map Some (srv_sources (w_server w)) ++ [None])) w' /\
    reallocs_of (w_trace w')
    = reallocs_of (w_trace w) ++ steps_of_eight (Z.to_nat ((n + 7) / 8)) ++ [n + 1] /\
    requests_of (w_trace w') = requests_of (w_trace w) ++ [GetSourceInfoList].
Proof.
  intros Hup Hh Hbound n. unfold get_available_input_devices.
  rewrite Hup. cbn [negb]. unfold pa_context_get_source_info_list.
  cbn [context_ready shared_context ctx_state].
  set (sd0 := {| sources := []; count := 0; allocated := 0 |}).
  set (w1 := log EvWait (pa_threaded_mainloop_lock
                (submit GetSourceInfoList (w_server w) w))).
  assert (Hb0 : building (reallocs_of (w_trace w))
                  (requests_of (w_trace w) ++ [GetSourceInfoList]) [] sd0 w1).
  { unfold building, sd0, w1. cbn.
    rewrite !reallocs_of_app, !requests_of_app. cbn. rewrite !app_nil_r. auto 10. }
  destruct (building_items shared_context _ _ (srv_sources (w_server w)) [] sd0 w1 false Hb0)
    as (sd' & w' & Hrun & Hb'); [cbn [length]; lia|].
  cbn [app] in Hb'. destruct Hb' as (Hh' & Hc' & Ha' & Hl' & Ht' & Hr' & Hq').
  erewrite query_iterate_answered by exact Hrun. cbn [and_then].
  assert (Ea : forall e, alloc (log e w') = (true, log e w'))
    by (intros e; unfold alloc; cbn; now rewrite Hh').
  unfold pa_threaded_mainloop_unlock. rewrite Ea.
  assert (E1 : wrap32 (count sd' + 1) = count sd' + 1)
    by (unfold wrap32; apply Z.mod_small; lia).
  assert (Hca : count sd' <= allocated sd')
    by (rewrite Ha'; Z.div_mod_to_equations; lia).
  rewrite E1. eexists. split.
  - f_equal. f_equal. unfold store, resize.
    replace (Z.to_nat (count sd')) with (length (srv_sources (w_server w))) by lia.
    rewrite insert_last.
    + rewrite take_app_le by (rewrite length_take; lia).
      rewrite take_take. replace (_ `min` _)%nat with (length (srv_sources (w_server w))) by lia.
      now rewrite Ht'.
    + rewrite length_app, length_take, length_replicate. lia.
  - cbn [w_trace log]. rewrite !reallocs_of_app, !requests_of_app, Hr', Hq'. cbn.
    rewrite !app_nil_r. split; [|reflexivity].
    rewrite <- app_assoc. f_equal. f_equal; [|now rewrite Hc'].
    f_equal. rewrite Ha', Hc'. fold n. Z.div_mod_to_equations; lia.
Qed.

(** The array of output devices: no callback of its build reallocates. *)
Lemma deliver_items_keeps_reallocs {I U} (cb : option I -> Z -> U -> world -> ran U) :
  (forall i eol u w, reallocs_of (w_trace (snd (fst (cb i eol u w)))) = reallocs_of (w_trace w)) ->
  forall (items : list I) (eol : Z) (signalled : bool) (u : U) (w : world),
    reallocs_of (w_trace (snd (fst (deliver_items cb items eol signalled u w))))
    = reallocs_of (w_trace w).
Proof.
  intros Hcb. induction items as [|i items IH]; intros eol sig u w; cbn.
  - specialize (Hcb None eol u w). destruct (cb None eol u w) as [[u1 w1] s1]. exact Hcb.
  - specialize (Hcb (Some i) 0 u w). destruct (cb (Some i) 0 u w) as [[u1 w1] s1].
    rewrite IH. exact Hcb.
Qed.

Lemma query_iterate_keeps_reallocs {U} (deliver : U -> world -> ran U) (u : U) (w : world) :
  (forall u w, reallocs_of (w_trace (snd (fst (deliver u w)))) = reallocs_of (w_trace w)) ->
  reallocs_of (w_trace (outcome_world (iterate (Some (answered deliver)) u w)))
  = reallocs_of (w_trace w).
Proof.
  intros H. unfold iterate, answered. cbn.
  specialize (H u (log EvWait (pa_threaded_mainloop_lock w))).
  destruct (deliver u (log EvWait (pa_threaded_mainloop_lock w))) as [[u1 w1] [|]];
    cbn in *; rewrite ?reallocs_of_app, H, !reallocs_of_app; cbn;
    now rewrite !app_nil_r.
Qed.

Lemma output_devices_cb_keeps_reallocs (c : pa_context) (i : option pa_sink_info)
    (eol : Z) (sd : _shared_data_3) (w : world) :
  reallocs_of (w_trace (snd (fst (get_available_output_devices_cb c i eol sd w))))
  = reallocs_of (w_trace w).
Proof.
  unfold get_available_output_devices_cb.
  destruct (eol <? 0); [cbn; rewrite !reallocs_of_app; cbn; now rewrite !app_nil_r|].
  destruct (0 <? eol); [cbn; rewrite !reallocs_of_app; cbn; now rewrite !app_nil_r|].
  unfold alloc. destruct (w_heap w) as [|[|] rest]; cbn;
    rewrite ?reallocs_of_app; cbn; rewrite ?app_nil_r; reflexivity.
Qed.

Lemma output_device_count_cb_keeps_reallocs (c : pa_context) (i : option pa_card_info)
    (eol : Z) (n : Z) (w : world) :
  reallocs_of (w_trace (snd (fst (get_output_device_count_cb c i eol n w))))
  = reallocs_of (w_trace w).
Proof.
  unfold get_output_device_count_cb.
  destruct (eol <? 0); [cbn; rewrite !reallocs_of_app; cbn; now rewrite !app_nil_r|].
  destruct (0 <? eol); [cbn; rewrite !reallocs_of_app; cbn; now rewrite !app_nil_r|].
  reflexivity.
Qed.

Lemma get_available_output_devices_keeps_reallocs (w : world) :
  reallocs_of (w_trace (outcome_world (get_available_output_devices w)))
  = reallocs_of (w_trace w).
Proof.
  unfold get_available_output_devices.
  assert (Hc : reallocs_of (w_trace (outcome_world (get_output_device_count w)))
               = reallocs_of (w_trace w)).
  { unfold get_output_device_count.
    destruct (w_query_up w); cbn [negb].
    - unfold pa_context_get_card_info_list. cbn [context_ready shared_context ctx_state].
      rewrite query_iterate_keeps_reallocs.
      + cbn. rewrite reallocs_of_app. cbn. now rewrite app_nil_r.
      + intros u0 w0. apply deliver_items_keeps_reallocs.
        intros. apply output_device_count_cb_keeps_reallocs.
    - cbn. rewrite reallocs_of_app. cbn. now rewrite app_nil_r. }
  destruct (get_output_device_count w) as [max_sinks w1|w1|w1];
    cbn [and_then outcome_world] in *; try exact Hc.
  destruct (alloc w1) as [ok w2] eqn:Ea.
  destruct (alloc_keeps _ _ _ Ea) as (_ & Ht & _).
  destruct (w_query_up w2); cbn [negb].
  - destruct ok; cbn [negb].
    + unfold pa_context_get_sink_info_list.
      cbn [context_ready shared_context ctx_state].
      match goal with
      | |- context [iterate (Some (answered ?d)) ?u ?w0] =>
          assert (Hi := query_iterate_keeps_reallocs d u w0);
          destruct (iterate (Some (answered d)) u w0) as [sd w4|w4|w4]
      end; cbn [and_then outcome_world] in *;
        (rewrite Hi;
         [cbn; rewrite reallocs_of_app, Ht, Hc; cbn; now rewrite app_nil_r
         |intros; apply deliver_items_keeps_reallocs;
          intros; apply output_devices_cb_keeps_reallocs]).
    + cbn. rewrite reallocs_of_app, Ht, Hc. cbn. now rewrite app_nil_r.
  - cbn. rewrite reallocs_of_app, Ht, Hc. cbn. now rewrite app_nil_r.
Qed.

(** C9 (as the code has it).  The array of input devices grows by a fixed
    step of 8 slots, not by doubling: when the callback gets an item and the
    array is full, it reallocates it to [allocated + 8] slots; a build of [n]
    devices, [n] not a multiple of 8, reallocates to 8, 16, ..., that is
    [(n + 7) / 8] times while the list comes in (one reallocation per eight
    records), plus once at the end to [n + 1] slots.  (When [n] is a multiple
    of 8 the array is full, or still null, at the end of the list, and the
    terminal call of the callback stores its sentinel outside it: the build
    is then undefined in C.)  The build of the array of output devices never
    reallocates: that array is allocated once before the list is requested. *)
Theorem device_array_growth :
  (forall (c : pa_context) (i : pa_source_info) (sd : _shared_data_sources) (w : world),
      w_heap w = [] ->
      0 <= allocated sd <= count sd -> count sd + 16 < 4294967296 ->
      exists sd' w',
        get_available_input_devices_cb c (Some i) 0 sd w = (sd', w', false) /\
        allocated sd' = allocated sd + 8 /\
        count sd' = count sd + 1 /\
        reallocs_of (w_trace w') = reallocs_of (w_trace w) ++ [allocated sd + 8]) /\
  (forall w : world,
      w_query_up w = true -> w_heap w = [] ->
      Z.of_nat (length (srv_sources (w_server w))) + 16 < 4294967296 ->
      Z.of_nat (length (srv_sources (w_server w))) mod 8 <> 0 ->
      let n := Z.of_nat (length (srv_sources (w_server w))) in
      exists w',
        get_available_input_devices w
        = Returned (Some (map Some (srv_sources (w_server w)) ++ [None])) w' /\
        reallocs_of (w_trace w')
        = reallocs_of (w_trace w) ++ steps_of_eight (Z.to_nat ((n + 7) / 8)) ++ [n + 1]) /\
  (forall w : world,
      reallocs_of (w_trace (outcome_world (get_available_output_devices w)))
      = reallocs_of (w_trace w)).
Proof.
  split; [|split].
  - intros c i sd w Hh Ha Hc.
    rewrite (input_devices_cb_item c i sd w Hh) by lia.
    assert (E : (allocated sd <=? count sd) = true) by (apply Z.leb_le; lia).
    rewrite E. eexists. eexists. split; [reflexivity|].
    cbn. rewrite reallocs_of_app. cbn. auto.
  - intros w Hup Hh Hn _ n.
    destruct (get_available_input_devices_run w Hup Hh Hn) as (w' & Hrun & Hre & _).
    now exists w'.
  - exact get_available_output_devices_keeps_reallocs.
Qed.

Lemma device_array_growth_witness :
  (exists sd' w',
      get_available_input_devices_cb Mock.ready (Some (Mock.mic 16)) 0 Mock.full16 Mock.w0
      = (sd', w', false) /\
      allocated sd' = allocated Mock.full16 + 8 /\
      count sd' = count Mock.full16 + 1 /\
      reallocs_of (w_trace w') = reallocs_of (w_trace Mock.w0) ++ [allocated Mock.full16 + 8]) /\
  (exists w',
      get_available_input_devices (Mock.with_sources 33)
      = Returned (Some (map Some (srv_sources (w_server (Mock.with_sources 33))) ++ [None]))
          w' /\
      reallocs_of (w_trace w')
      = reallocs_of (w_trace (Mock.with_sources 33))
        ++ steps_of_eight
             (Z.to_nat
                ((Z.of_nat (length (srv_sources (w_server (Mock.with_sources 33)))) + 7) / 8))
        ++ [Z.of_nat (length (srv_sources (w_server (Mock.with_sources 33)))) + 1]).
Proof.
  destruct device_array_growth as (Hstep & Hbuild & _). split.
  - apply (Hstep Mock.ready (Mock.mic 16) Mock.full16 Mock.w0);
      [reflexivity|cbn; lia|cbn; lia].
  - apply (Hbuild (Mock.with_sources 33));
      [reflexivity|reflexivity|cbn; lia|vm_compute; lia].
Defined.

(** C9 as stated fails: an array of 16 slots that is full is reallocated to
    24 slots, fewer than twice 16; and a build of 33 devices reallocates five
    times while the list comes in (8, 16, 24, 32, 40), where doubling from 8
    would reach 64 in three. *)
Lemma device_array_growth_counterexample :
  allocated (fst (fst (get_available_input_devices_cb Mock.ready (Some (Mock.mic 16)) 0
                         Mock.full16 Mock.w0))) = 24 /\
  24 < 2 * allocated Mock.full16 /\
  reallocs_of (w_trace (outcome_world (get_available_input_devices (Mock.with_sources 33))))
  = [8; 16; 24; 32; 40; 34].
Proof.
  split; [vm_compute; reflexivity|]. split; [vm_compute; reflexivity|].
  vm_compute. reflexivity.
Qed.

(** * Further properties of the embedded code *)

(** ** Proof steps shared below *)

Ltac worlds :=
  cbn [w_query_up w_server w_trace w_heap log submit pa_threaded_mainloop_unlock
       pa_threaded_mainloop_signal pa_threaded_mainloop_lock printf fprintf_stderr].

Ltac requests :=
  cbn; rewrite ?requests_of_app; cbn; rewrite ?app_nil_r, <- ?app_assoc.

Lemma alloc_granted (w : world) : w_heap w = [] -> alloc w = (true, w).
Proof. intros H. unfold alloc. now rewrite H. Qed.

(** A callback that adds one per item and signals at the end of the list. *)
Lemma count_items {I} (cb : option I -> Z -> Z -> world -> ran Z) (items : list I) :
  (forall i n w, cb (Some i) 0 n w = (wrap32 (n + 1), w, false)) ->
  (forall n w, cb None 1 n w = (n, pa_threaded_mainloop_signal w, true)) ->
  forall (sig : bool) (n : Z) (w : world),
    0 <= n < 4294967296 ->
    deliver_items cb items 1 sig n w
    = ((n + Z.of_nat (length items)) mod 4294967296, pa_threaded_mainloop_signal w, true).
Proof.
  intros Hitem Hend. induction items as [|i items IH]; intros sig n w Hn.
  - cbn. rewrite Hend, Z.add_0_r, Z.mod_small by lia. now rewrite orb_true_r.
  - cbn [deliver_items length]. rewrite Hitem, IH.
    + unfold wrap32. f_equal. f_equal.
      rewrite Nat2Z.inj_succ, Zplus_mod_idemp_l. f_equal. lia.
    + unfold wrap32. apply Z.mod_pos_bound. lia.
Qed.

Lemma get_output_device_count_run (w : world) :
  w_query_up w = true ->
  SystemQuery.get_output_device_count w
  = Returned (Z.of_nat (length (srv_cards (w_server w))) mod 4294967296)
      (log EvUnlock (log EvSignal (log EvWait (log EvLock
         (submit GetCardInfoList (w_server w) w))))).
Proof.
  intros Hup. unfold SystemQuery.get_output_device_count. rewrite Hup. cbn [negb].
  unfold pa_context_get_card_info_list.
  cbn [context_ready SystemQuery.shared_context ctx_state].
  erewrite query_iterate_answered.
  2:{ apply count_items; [reflexivity|reflexivity|lia]. }
  reflexivity.
Qed.

Lemma get_input_device_count_run (w : world) :
  w_query_up w = true ->
  SystemQuery.get_input_device_count w
  = Returned (Z.of_nat (length (srv_sources (w_server w))) mod 4294967296)
      (log EvUnlock (log EvSignal (log EvWait (log EvLock
         (submit GetSourceInfoList (w_server w) w))))).
Proof.
  intros Hup. unfold SystemQuery.get_input_device_count. rewrite Hup. cbn [negb].
  unfold pa_context_get_source_info_list.
  cbn [context_ready SystemQuery.shared_context ctx_state].
  erewrite query_iterate_answered.
  2:{ apply count_items; [reflexivity|reflexivity|lia]. }
  reflexivity.
Qed.

(** ** The query layer: look-ups and counts *)

(** X1.  With the query layer up and memory granted,
    [get_output_device_by_index] comes back exactly when the server knows the
    index: for a known index it returns the server's record and leaves the
    server as it was; for an unknown index the request is sent, the callback
    gets the error reply and does not signal, and the call never returns. *)
Theorem query_by_index_returns_iff_known (index : Z) (w w1 : world) :
  w_query_up w = true -> alloc w = (true, w1) ->
  match find_sink_by_index index (w_server w) with
  | Some k =>
      exists w', SystemQuery.get_output_device_by_index index w = Returned (Some k) w' /\
                 w_server w' = w_server w
  | None =>
      exists w', SystemQuery.get_output_device_by_index index w = Blocked w' /\
                 requests_of (w_trace w')
                 = requests_of (w_trace w) ++ [GetSinkInfoByIndex index]
  end.
Proof.
  intros Hup Ha. destruct (alloc_keeps _ _ _ Ha) as (Hs & Ht & _).
  destruct (find_sink_by_index index (w_server w)) as [k|] eqn:Hk.
  - rewrite (get_output_device_by_index_found _ _ _ _ Hup Ha Hk).
    eexists. split; [reflexivity|]. exact Hs.
  - unfold SystemQuery.get_output_device_by_index.
    rewrite Hup, Ha. cbn [negb]. unfold pa_context_get_sink_info_by_index.
    cbn [context_ready SystemQuery.shared_context ctx_state].
    rewrite Hs, Hk. cbn. eexists. split; [reflexivity|].
    cbn. rewrite Ht, !requests_of_app. cbn. now rewrite !app_nil_r.
Qed.

Lemma query_by_index_returns_iff_known_witness :
  (exists w', SystemQuery.get_output_device_by_index 5 Mock.w0
              = Returned (Some (Mock.mk_sink 5 "out.1" "Headphones" [65536; 65536])) w' /\
              w_server w' = w_server Mock.w0) /\
  (exists w', SystemQuery.get_output_device_by_index 7 Mock.w0 = Blocked w' /\
              requests_of (w_trace w')
              = requests_of (w_trace Mock.w0) ++ [GetSinkInfoByIndex 7]).
Proof.
  split.
  - apply (query_by_index_returns_iff_known 5 Mock.w0 Mock.w0); reflexivity.
  - apply (query_by_index_returns_iff_known 7 Mock.w0 Mock.w0); reflexivity.
Defined.

(** X2.  [get_output_device_count] returns the number of sound cards of the
    server (modulo 2^32), whatever its sinks are: it lists the cards, in one
    request, and counts the items. *)
Theorem output_device_count_counts_cards (w : world) :
  w_query_up w = true ->
  exists w',
    SystemQuery.get_output_device_count w
    = Returned (Z.of_nat (length (srv_cards (w_server w))) mod 4294967296) w' /\
    requests_of (w_trace w') = requests_of (w_trace w) ++ [GetCardInfoList] /\
    w_server w' = w_server w.
Proof.
  intros Hup. rewrite (get_output_device_count_run _ Hup).
  eexists. split; [reflexivity|]. split; [now requests|reflexivity].
Qed.

Lemma output_device_count_counts_cards_witness :
  exists w',
    SystemQuery.get_output_device_count Mock.w0 = Returned 1 w' /\
    requests_of (w_trace w') = requests_of (w_trace Mock.w0) ++ [GetCardInfoList] /\
    w_server w' = w_server Mock.w0.
Proof. apply (output_device_count_counts_cards Mock.w0). reflexivity. Defined.

(** The slots of the output array while the list of sinks comes in: their
    number does not change; as long as the stores stay inside the array the
    records are in the order of the list, followed by the NULL sentinel. *)
Lemma output_devices_items (c : pa_context) (items : list pa_sink_info) :
  forall (seen : list pa_sink_info) (sd : SystemQuery._shared_data_3) (w : world)
         (sig : bool),
    w_heap w = [] ->
    SystemQuery.sinks_count sd = Z.of_nat (length seen) ->
    Z.of_nat (length (SystemQuery.sinks sd)) < 4294967296 ->
    take (length seen) (SystemQuery.sinks sd) = map Some seen ->
    exists sd' w',
      deliver_items (SystemQuery.get_available_output_devices_cb c) items 1 sig sd w
      = (sd', w', true) /\
      w_heap w' = [] /\ w_server w' = w_server w /\
      length (SystemQuery.sinks sd') = length (SystemQuery.sinks sd) /\
      ((length seen + length items < length (SystemQuery.sinks sd))%nat ->
       take (length seen + length items + 1) (SystemQuery.sinks sd')
       = map Some (seen ++ items) ++ [None]).
Proof.
  induction items as [|i items IH]; intros seen sd w sig Hh Hc Hl Ht.
  - cbn [deliver_items]. unfold SystemQuery.get_available_output_devices_cb.
    cbn [Z.ltb Z.compare]. eexists _, _. split; [now rewrite orb_true_r|].
    split; [exact Hh|]. split; [reflexivity|].
    cbn [SystemQuery.sinks]. rewrite length_insert. split; [reflexivity|].
    intros Hb. rewrite Hc, Nat2Z.id, app_nil_r. cbn [length] in *.
    replace (length seen + 0 + 1)%nat with (S (length seen)) by lia.
    erewrite take_S_r by (apply list_lookup_insert_eq; lia).
    rewrite take_insert_ge by lia. now rewrite Ht.
  - cbn [deliver_items]. unfold SystemQuery.get_available_output_devices_cb at 1.
    cbn [Z.ltb Z.compare]. rewrite (alloc_granted _ Hh).
    set (sd1 := {| SystemQuery.sinks := _; SystemQuery.sinks_count := _ |}).
    destruct (decide (length seen < length (SystemQuery.sinks sd))%nat) as [Hin|Hout].
    + destruct (IH (seen ++ [i]) sd1 w (sig || false) Hh)
        as (sd' & w' & Hrun & Hh' & Hs' & Hlen & Hcont).
      * unfold sd1. cbn. rewrite Hc, length_app. cbn.
        unfold wrap32. rewrite Z.mod_small by lia. lia.
      * unfold sd1. cbn. now rewrite length_insert.
      * unfold sd1. cbn. rewrite Hc, Nat2Z.id, length_app. cbn.
        replace (length seen + 1)%nat with (S (length seen)) by lia.
        erewrite take_S_r by (apply list_lookup_insert_eq; lia).
        rewrite take_insert_ge by lia. now rewrite Ht, map_app.
      * exists sd', w'. split; [exact Hrun|]. split; [exact Hh'|].
        split; [exact Hs'|]. split.
        { rewrite Hlen. unfold sd1. cbn. now rewrite length_insert. }
        intros Hb. rewrite length_app in Hcont. cbn [length] in *.
        replace (length seen + S (length items) + 1)%nat
          with (length seen + 1 + length items + 1)%nat by lia.
        rewrite Hcont; [now rewrite <- app_assoc|].
        unfold sd1. cbn. rewrite length_insert. lia.
    + (* the array is full: the stores fall outside it *)
      clear IH Ht.
      assert (G : forall items (sd : SystemQuery._shared_data_3) (w : world) (sig : bool),
                 w_heap w = [] ->
                 exists sd' w',
                   deliver_items (SystemQuery.get_available_output_devices_cb c)
                     items 1 sig sd w = (sd', w', true) /\
                   w_heap w' = [] /\ w_server w' = w_server w /\
                   length (SystemQuery.sinks sd') = length (SystemQuery.sinks sd)).
      { clear. induction items as [|i items IH]; intros sd w sig Hh.
        - cbn [deliver_items]. unfold SystemQuery.get_available_output_devices_cb.
          cbn [Z.ltb Z.compare]. eexists _, _. split; [now rewrite orb_true_r|].
          cbn. now rewrite length_insert.
        - cbn [deliver_items]. unfold SystemQuery.get_available_output_devices_cb at 1.
          cbn [Z.ltb Z.compare]. rewrite (alloc_granted _ Hh).
          edestruct IH as (sd' & w' & Hrun & Hh' & Hs' & Hlen); [exact Hh|].
          exists sd', w'. split; [exact Hrun|]. split; [exact Hh'|].
          split; [exact Hs'|]. rewrite Hlen. cbn. now rewrite length_insert. }
      destruct (G items sd1 w (sig || false) Hh) as (sd' & w' & Hrun & Hh' & Hs' & Hlen).
      exists sd', w'. split; [exact Hrun|]. split; [exact Hh'|]. split; [exact Hs'|]. split.
      * rewrite Hlen. unfold sd1. cbn. now rewrite length_insert.
      * intros Hb. cbn [length] in Hb. lia.
Qed.

(** The whole build of the output array. *)
Lemma get_available_output_devices_run (w : world) :
  w_query_up w = true -> w_heap w = [] ->
  let cards := length (srv_cards (w_server w)) in
  let ks := srv_sinks (w_server w) in
  Z.of_nat cards + 1 < 4294967296 ->
  exists arr w',
    SystemQuery.get_available_output_devices w = Returned (Some arr) w' /\
    w_heap w' = [] /\ w_server w' = w_server w /\
    length arr = S cards /\
    ((length ks <= cards)%nat -> take (S (length ks)) arr = map Some ks ++ [None]).
Proof.
  intros Hup Hh cards ks Hb. unfold SystemQuery.get_available_output_devices.
  rewrite (get_output_device_count_run _ Hup). cbn [and_then].
  rewrite alloc_granted by exact Hh.
  cbn [w_query_up log submit negb].
  rewrite Hup. cbn [negb]. unfold pa_context_get_sink_info_list.
  cbn [context_ready SystemQuery.shared_context ctx_state w_server log submit].
  fold cards. fold ks.
  assert (E : wrap32 (Z.of_nat cards mod 4294967296 + 1) = Z.of_nat (S cards)).
  { unfold wrap32. rewrite (Z.mod_small (Z.of_nat cards)) by lia.
    rewrite Z.mod_small by lia. lia. }
  rewrite E, Nat2Z.id.
  match goal with
  | |- context [SystemQuery.iterate (Some (answered (deliver_items ?cb ks 1 false))) ?sd ?w0] =>
      destruct (output_devices_items SystemQuery.shared_context ks [] sd
                  (log EvWait (pa_threaded_mainloop_lock w0)) false)
        as (sd' & w' & Hrun & Hh' & Hs' & Hlen & Hcont)
  end.
  - exact Hh.
  - reflexivity.
  - cbn. rewrite length_replicate. lia.
  - reflexivity.
  - erewrite query_iterate_answered by exact Hrun. cbn [and_then].
    eexists _, _. split; [reflexivity|]. worlds.
    split; [exact Hh'|]. split; [rewrite Hs'; reflexivity|].
    cbn [SystemQuery.sinks] in Hlen, Hcont. rewrite length_replicate in Hlen, Hcont.
    split; [exact Hlen|]. intros Hn. cbn [length app] in Hcont.
    replace (S (length ks)) with (0 + length ks + 1)%nat by lia.
    apply Hcont. lia.
Qed.

(** X3.  For a server with no more sinks than sound cards (so that every
    store of the build falls inside the array), the array
    [get_available_output_devices] returns has one slot more than the server
    has cards: it is sized from [get_output_device_count], not from the
    number of sinks.  Its first slots hold the sinks in the server's order,
    followed by the NULL sentinel. *)
Theorem output_array_sized_by_cards (w : world) :
  w_query_up w = true -> w_heap w = [] ->
  let cards := length (srv_cards (w_server w)) in
  let ks := srv_sinks (w_server w) in
  Z.of_nat cards + 1 < 4294967296 ->
  (length ks <= cards)%nat ->
  exists arr w',
    SystemQuery.get_available_output_devices w = Returned (Some arr) w' /\
    length arr = S cards /\
    take (S (length ks)) arr = map Some ks ++ [None].
Proof.
  intros Hup Hh cards ks Hb Hfit.
  destruct (get_available_output_devices_run w Hup Hh Hb)
    as (arr & w' & Hrun & _ & _ & Hlen & Hcont).
  exists arr, w'. auto.
Qed.

Lemma output_array_sized_by_cards_witness :
  exists arr w',
    SystemQuery.get_available_output_devices (Mock.with_cards 3) = Returned (Some arr) w' /\
    length arr = 4%nat /\
    take 3 arr = map Some (srv_sinks Mock.srv0) ++ [None].
Proof.
  apply (output_array_sized_by_cards (Mock.with_cards 3));
    [reflexivity|reflexivity|cbn; lia|cbn; lia].
Defined.

(** X4.  The count and the array of input devices agree: for a server whose
    number of sources is not a multiple of 8 (so that every store of the
    build falls inside the array), [get_input_device_count] returns the number
    of sources, and the array [get_available_input_devices] builds next holds
    that many records, in the server's order, followed by the NULL sentinel.
    Each of the two calls lists the sources once. *)
Theorem input_count_matches_array (w : world) :
  w_query_up w = true -> w_heap w = [] ->
  let srcs := srv_sources (w_server w) in
  Z.of_nat (length srcs) + 16 < 4294967296 ->
  Z.of_nat (length srcs) mod 8 <> 0 ->
  exists w1 arr w2,
    SystemQuery.get_input_device_count w = Returned (Z.of_nat (length srcs)) w1 /\
    SystemQuery.get_available_input_devices w1 = Returned (Some arr) w2 /\
    arr = map Some srcs ++ [None] /\
    requests_of (w_trace w2)
    = requests_of (w_trace w) ++ [GetSourceInfoList; GetSourceInfoList].
Proof.
  intros Hup Hh srcs Hb _.
  rewrite (get_input_device_count_run _ Hup). fold srcs.
  rewrite Z.mod_small by lia.
  eexists.
  match goal with |- context [Returned _ ?w1 = Returned _ _] =>
    destruct (get_available_input_devices_run w1) as (w2 & Hrun & _ & Hreq);
      [exact Hup | exact Hh | exact Hb |]
  end.
  cbn [w_server log submit] in Hrun. fold srcs in Hrun.
  eexists _, w2. split; [reflexivity|]. split; [exact Hrun|]. split; [reflexivity|].
  rewrite Hreq. cbn. rewrite !requests_of_app. cbn.
  now rewrite !app_nil_r, <- app_assoc.
Qed.

Lemma input_count_matches_array_witness :
  exists w1 arr w2,
    SystemQuery.get_input_device_count (Mock.with_sources 3) = Returned 3 w1 /\
    SystemQuery.get_available_input_devices w1 = Returned (Some arr) w2 /\
    arr = [Some (Mock.mic 0); Some (Mock.mic 1); Some (Mock.mic 2); None] /\
    requests_of (w_trace w2) = [GetSourceInfoList; GetSourceInfoList].
Proof.
  apply (input_count_matches_array (Mock.with_sources 3));
    [reflexivity|reflexivity|cbn; lia|vm_compute; lia].
Defined.

(** X5.  The terminal call of [get_available_input_devices_cb] stores the
    NULL sentinel at [sources[count]] without growing the array.  After a
    list of [n] sources, delivered to an empty array, [count] is [n]; the
    slot [sources[n]] is a slot of the array when [n] is not a multiple of 8,
    and when [n] is a multiple of 8 (zero included) the array has exactly [n]
    slots, so that the store made by the terminal call is one past its end. *)
Theorem input_sentinel_slot (c : pa_context) (w : world) (srcs : list pa_source_info) :
  w_heap w = [] ->
  Z.of_nat (length srcs) + 16 < 4294967296 ->
  let sd0 := {| SystemQuery.sources := []; SystemQuery.count := 0;
                SystemQuery.allocated := 0 |} in
  exists sd' w',
    deliver_items (SystemQuery.get_available_input_devices_cb c) srcs 1 false sd0 w
    = (sd', w', true) /\
    SystemQuery.count sd' = Z.of_nat (length srcs) /\
    (Z.of_nat (length srcs) mod 8 = 0 ->
     Z.of_nat (length (SystemQuery.sources sd')) = SystemQuery.count sd') /\
    (Z.of_nat (length srcs) mod 8 <> 0 ->
     SystemQuery.count sd' < Z.of_nat (length (SystemQuery.sources sd'))).
Proof.
  intros Hh Hb sd0.
  assert (Hb0 : building (reallocs_of (w_trace w)) (requests_of (w_trace w)) [] sd0 w).
  { unfold building, sd0. cbn. rewrite app_nil_r. auto 10. }
  destruct (building_items c _ _ srcs [] sd0 w false Hb0) as (sd' & w' & Hrun & Hb');
    [cbn [length]; lia|].
  cbn [app] in Hb'. destruct Hb' as (_ & Hc & Ha & Hl & Ht & _ & _).
  exists sd', w'. split; [exact Hrun|]. split; [exact Hc|].
  rewrite Hl, Ha, Hc. split; intros H; Z.div_mod_to_equations; lia.
Qed.

Lemma input_sentinel_slot_witness :
  exists sd' w',
    deliver_items (SystemQuery.get_available_input_devices_cb Mock.ready)
      (map Mock.mic (seq 0 8)) 1 false
      {| SystemQuery.sources := []; SystemQuery.count := 0; SystemQuery.allocated := 0 |}
      Mock.w0
    = (sd', w', true) /\
    SystemQuery.count sd' = 8 /\
    Z.of_nat (length (SystemQuery.sources sd')) = SystemQuery.count sd'.
Proof.
  destruct (input_sentinel_slot Mock.ready Mock.w0 (map Mock.mic (seq 0 8)))
    as (sd' & w' & Hrun & Hc & Hfull & _); [reflexivity|cbn; lia|].
  exists sd', w'. split; [exact Hrun|]. split; [exact Hc|].
  apply Hfull. reflexivity.
Defined.

(** ** Writes read back through the query layer *)

(** X6.  A master volume that was set reads back: after
    [manager_set_master_volume(manager, id, p)] on a sink the server knows,
    [get_output_device_by_index(id)] returns a record on which
    [get_channel_volume] gives [p * PA_VOLUME_NORM / 100] for every channel of
    the sink. *)
Theorem master_volume_reads_back (m : V014.pulseaudio_manager) (c : pa_context)
    (device_id volume channel : Z) (w : world) (k : pa_sink_info) :
  V014.context m = Some c -> context_ready c = true ->
  0 <= volume <= 100 ->
  w_query_up w = true -> w_heap w = [] ->
  find_sink_by_index device_id (w_server w) = Some k ->
  (1 <= sink_channels k <= 32)%nat ->
  0 <= channel < Z.of_nat (sink_channels k) ->
  exists w1 k' w2,
    V014.manager_set_master_volume (Some m) device_id volume w = Returned 0 w1 /\
    SystemQuery.get_output_device_by_index device_id w1 = Returned (Some k') w2 /\
    SystemQuery.get_channel_volume (Some k') channel w2
    = (volume * PA_VOLUME_NORM / 100, w2).
Proof.
  intros Hc Hr Hv Hup Hh Hk Hch Hchan.
  pose proof (alloc_granted _ Hh) as Ha.
  set (v := pa_cvolume_set (sink_channels k) (V014.percent_to_volume volume)).
  unfold V014.manager_set_master_volume.
  assert (E : (volume <? 0) || (100 <? volume) = false).
  { apply orb_false_intro; apply Z.ltb_ge; lia. }
  rewrite E, (get_output_device_by_index_found _ _ _ _ Hup Ha Hk).
  cbn [and_then]. rewrite Hc.
  unfold pa_context_set_sink_volume_by_index.
  rewrite Hr. fold v. unfold v at 1. rewrite cvolume_set_valid by exact Hch.
  cbn [andb w_server log submit]. rewrite Hk.
  unfold set_sink_volume. unfold v at 1. rewrite cvolume_set_accepted by exact Hch.
  fold v. erewrite new_iterate_answered by reflexivity. cbn [and_then].
  eexists. exists (with_volume v k).
  match goal with |- context [SystemQuery.get_output_device_by_index _ ?w1] =>
    pose proof (get_output_device_by_index_found device_id w1 w1 (with_volume v k))
      as Hfound
  end.
  rewrite Hfound; clear Hfound.
  - eexists. split; [reflexivity|]. split; [reflexivity|].
    unfold SystemQuery.get_channel_volume. worlds. cbn [Z.eqb]. worlds.
    rewrite Hup. cbn [negb with_volume sink_channels sink_volume].
    assert (E2 : (Z.of_nat (sink_channels k) <=? channel) = false) by (apply Z.leb_gt; lia).
    rewrite E2. f_equal. unfold SystemQuery.values_at, v, pa_cvolume_set.
    rewrite lookup_replicate_2 by lia. cbn [default].
    apply clamp_percent_to_volume. exact Hv.
  - cbn. exact Hup.
  - apply alloc_granted. cbn. exact Hh.
  - worlds. cbn [Z.eqb]. worlds. now apply find_by_index_after_write.
Qed.

Lemma master_volume_reads_back_witness :
  exists w1 k' w2,
    V014.manager_set_master_volume (Some Mock.m0) 5 50 Mock.w0 = Returned 0 w1 /\
    SystemQuery.get_output_device_by_index 5 w1 = Returned (Some k') w2 /\
    SystemQuery.get_channel_volume (Some k') 1 w2 = (50 * PA_VOLUME_NORM / 100, w2).
Proof.
  apply (master_volume_reads_back Mock.m0 Mock.ready 5 50 1 Mock.w0
           (Mock.mk_sink 5 "out.1" "Headphones" [65536; 65536]));
    [reflexivity|reflexivity|lia|reflexivity|reflexivity|reflexivity|cbn; lia|cbn; lia].
Defined.

(** X7.  A mute that was toggled reads back: after
    [manager_toggle_output_mute(manager, index, state)] on a sink the server
    knows, [get_muted_output_status] of that sink's name returns 0 when
    [state] is 0 and 1 otherwise.  The two calls send one request each. *)
Theorem toggle_then_muted_status (m : V014.pulseaudio_manager) (c : pa_context)
    (index state : Z) (w : world) (k : pa_sink_info) :
  V014.context m = Some c -> context_ready c = true ->
  index < V014.output_count m ->
  w_query_up w = true ->
  find_sink_by_index index (w_server w) = Some k ->
  find_sink_by_name (sink_name k) (w_server w) = Some k ->
  exists w1 w2,
    V014.manager_toggle_output_mute (Some m) index state w = Returned 0 w1 /\
    SystemQuery.get_muted_output_status (Some (sink_name k)) w1
    = Returned (if state =? 0 then 0 else 1) w2 /\
    requests_of (w_trace w2)
    = requests_of (w_trace w)
      ++ [SetSinkMuteByIndex index state; GetSinkInfoByName (sink_name k)].
Proof.
  intros Hc Hr Hi Hup Hk Hn.
  unfold V014.manager_toggle_output_mute.
  cbn [mbind option_bind]. rewrite Hc. cbn [option_map].
  assert (E : (V014.output_count m <=? index) = false) by (apply Z.leb_gt; lia).
  rewrite E. unfold pa_context_set_sink_mute_by_index. rewrite Hr.
  unfold set_sink_mute. rewrite Hk. cbn [option_map].
  erewrite new_iterate_answered by reflexivity. cbn [and_then Z.eqb].
  eexists. eexists. split; [reflexivity|].
  unfold SystemQuery.get_muted_output_status. worlds.
  rewrite Hup. cbn [negb]. unfold pa_context_get_sink_info_by_name.
  cbn [context_ready SystemQuery.shared_context ctx_state]. worlds.
  unfold find_sink_by_name, update_sinks. cbn [srv_sinks].
  erewrite find_map_update;
    [|reflexivity|exact Hn|apply Z.eqb_eq; exact (find_sink_by_index_index _ _ _ Hk)].
  cbn [sink_info_reply].
  erewrite query_iterate_answered by reflexivity.
  split.
  - f_equal. cbn. now destruct (state =? 0).
  - cbn. rewrite !requests_of_app. cbn. now rewrite !app_nil_r, <- !app_assoc.
Qed.

Lemma toggle_then_muted_status_witness :
  exists w1 w2,
    V014.manager_toggle_output_mute (Some Mock.m0) 0 1 Mock.w0 = Returned 0 w1 /\
    SystemQuery.get_muted_output_status (Some "out.0") w1 = Returned 1 w2 /\
    requests_of (w_trace w2) = [SetSinkMuteByIndex 0 1; GetSinkInfoByName "out.0"].
Proof.
  apply (toggle_then_muted_status Mock.m0 Mock.ready 0 1 Mock.w0
           (Mock.mk_sink 0 "out.0" "Speakers" [30000; 50000]));
    [reflexivity|reflexivity|cbn; lia|reflexivity|reflexivity|reflexivity].
Defined.

(** X8.  For a name the server does not know [get_muted_output_status]
    returns -1, after one request: its callback signals on the error reply. *)
Theorem muted_status_unknown_name (n : string) (w : world) :
  w_query_up w = true ->
  find_sink_by_name n (w_server w) = None ->
  exists w',
    SystemQuery.get_muted_output_status (Some n) w = Returned (-1) w' /\
    requests_of (w_trace w') = requests_of (w_trace w) ++ [GetSinkInfoByName n].
Proof.
  intros Hup Hk. unfold SystemQuery.get_muted_output_status. rewrite Hup. cbn [negb].
  unfold pa_context_get_sink_info_by_name.
  cbn [context_ready SystemQuery.shared_context ctx_state]. rewrite Hk.
  cbn [sink_info_reply]. erewrite query_iterate_answered by reflexivity.
  eexists. split; [reflexivity|]. now requests.
Qed.

Lemma muted_status_unknown_name_witness :
  exists w',
    SystemQuery.get_muted_output_status (Some "out.9") Mock.w0 = Returned (-1) w' /\
    requests_of (w_trace w') = requests_of (w_trace Mock.w0) ++ [GetSinkInfoByName "out.9"].
Proof. apply (muted_status_unknown_name "out.9" Mock.w0); reflexivity. Defined.

(** X9.  A channel mute reads back: after
    [manager_set_output_mute_state(self, sink, channel, mute)] on a sink the
    server knows, [get_output_channel_mute_state] of that channel returns
    [true] when [mute] was [true]; when it was [false] the answer is whether
    the largest channel value found at the time of the call was 0. *)
Theorem channel_mute_state_reads_back (self : V014.pulseaudio_manager) (c : pa_context)
    (sink_index channel : Z) (mute : bool) (w : world) (k : pa_sink_info) :
  V014.context self = Some c -> context_ready c = true ->
  w_query_up w = true ->
  find_sink_by_index sink_index (w_server w) = Some k ->
  volume_accepted k (sink_volume k) = true ->
  0 <= channel < Z.of_nat (length (sink_volume k)) ->
  exists w1 w2,
    V014.manager_set_output_mute_state self sink_index channel mute w = Returned 0 w1 /\
    SystemQuery.get_output_channel_mute_state (Some c) true sink_index channel w1
    = Returned (if mute then true else pa_cvolume_max (sink_volume k) =? 0) w2.
Proof.
  intros Hctx Hc Hup Hk Hacc Hch.
  set (v := cvolume_store (sink_volume k) channel
              (if mute then PA_VOLUME_MUTED else pa_cvolume_max (sink_volume k))).
  assert (Hv : volume_accepted k v = true).
  { apply cvolume_store_accepted; [exact Hacc|].
    destruct mute; [unfold PA_VOLUME_MUTED, PA_VOLUME_MAX; lia|].
    apply cvolume_max_range. unfold volume_accepted in Hacc.
    now apply andb_true_iff in Hacc as [Hacc _]. }
  unfold V014.manager_set_output_mute_state. rewrite Hctx.
  unfold pa_context_get_sink_info_by_index. rewrite Hc, Hk. cbn [sink_info_reply].
  erewrite new_iterate_answered by reflexivity.
  cbn [and_then V014.new_volume V014.channel_index V014.mute_state]. fold v.
  unfold pa_context_set_sink_volume_by_index. rewrite Hc.
  assert (Hvv : cvolume_valid v = true).
  { unfold volume_accepted in Hv. now apply andb_true_iff in Hv as [Hv _]. }
  rewrite Hvv. cbn [andb]. worlds.
  rewrite Hk. unfold set_sink_volume. rewrite Hv.
  erewrite new_iterate_answered by reflexivity.
  cbn [and_then Z.eqb]. eexists. eexists. split; [reflexivity|].
  unfold SystemQuery.get_output_channel_mute_state.
  unfold pa_context_get_sink_info_by_index. rewrite Hc. worlds.
  rewrite (find_by_index_after_write _ v _ _ Hk). cbn [sink_info_reply].
  worlds. rewrite Hup. cbn [negb].
  assert (Hlen : length v = length (sink_volume k)).
  { unfold v, cvolume_store. destruct (channel <? 0); [reflexivity|apply length_insert]. }
  erewrite query_iterate_answered.
  2:{ cbn [deliver_items]. unfold SystemQuery.get_output_channel_mute_state_cb.
      cbn [Z.ltb Z.compare with_volume sink_volume SystemQuery.sd5_channel_index].
      rewrite Hlen.
      assert (E : (channel <? Z.of_nat (length (sink_volume k))) = true)
        by (apply Z.ltb_lt; lia).
      rewrite E. reflexivity. }
  cbn [and_then SystemQuery.sd5_mute_state]. f_equal.
  unfold SystemQuery.values_at, v, cvolume_store.
  assert (E0 : (channel <? 0) = false) by (apply Z.ltb_ge; lia). rewrite E0.
  rewrite list_lookup_insert_eq by lia. cbn [default]. now destruct mute.
Qed.

Lemma channel_mute_state_reads_back_witness :
  exists w1 w2,
    V014.manager_set_output_mute_state Mock.m0 0 1 true Mock.w0 = Returned 0 w1 /\
    SystemQuery.get_output_channel_mute_state (Some Mock.ready) true 0 1 w1
    = Returned true w2.
Proof.
  apply (channel_mute_state_reads_back Mock.m0 Mock.ready 0 1 true Mock.w0
           (Mock.mk_sink 0 "out.0" "Speakers" [30000; 50000]));
    [reflexivity|reflexivity|reflexivity|reflexivity|reflexivity|cbn; lia].
Defined.

(** X10.  [get_output_channel_mute_state] on a sink the server does not know
    never returns: its callback signals on the end of the list only, and the
    error reply is not one. *)
Theorem channel_mute_state_unknown_sink (c : pa_context) (sink_index channel : Z)
    (w : world) :
  context_ready c = true -> w_query_up w = true ->
  find_sink_by_index sink_index (w_server w) = None ->
  exists w',
    SystemQuery.get_output_channel_mute_state (Some c) true sink_index channel w
    = Blocked w'.
Proof.
  intros Hc Hup Hk. unfold SystemQuery.get_output_channel_mute_state.
  unfold pa_context_get_sink_info_by_index. rewrite Hc, Hk. cbn [sink_info_reply].
  worlds. rewrite Hup. cbn. eauto.
Qed.

Lemma channel_mute_state_unknown_sink_witness :
  exists w',
    SystemQuery.get_output_channel_mute_state (Some Mock.ready) true 7 0 Mock.w0
    = Blocked w'.
Proof.
  apply (channel_mute_state_unknown_sink Mock.ready 7 0 Mock.w0); reflexivity.
Defined.

(** X11.  With the query layer up and a READY context,
    [get_output_device_index_by_code] comes back exactly when the server has a
    sink of that name, with that sink's index; for an unknown name the request
    is sent, the callback returns on the error reply without signalling, and
    the call never returns (no UINT32_MAX comes back). *)
Theorem index_by_code_returns_iff_known (c : pa_context) (code : string) (w : world) :
  w_query_up w = true -> context_ready c = true ->
  match find_sink_by_name code (w_server w) with
  | Some k =>
      exists w', SystemQuery.get_output_device_index_by_code (Some c) (Some code) w
                 = Returned (sink_index k) w'
  | None =>
      exists w', SystemQuery.get_output_device_index_by_code (Some c) (Some code) w
                 = Blocked w' /\
                 requests_of (w_trace w')
                 = requests_of (w_trace w) ++ [GetSinkInfoByName code]
  end.
Proof.
  intros Hup Hc. destruct (find_sink_by_name code (w_server w)) as [k|] eqn:Hk.
  - rewrite (get_output_device_index_by_code_found _ _ _ _ Hup Hc Hk). eauto.
  - unfold SystemQuery.get_output_device_index_by_code. rewrite Hup. cbn [negb].
    unfold pa_context_get_sink_info_by_name. rewrite Hc, Hk. cbn.
    eexists. split; [reflexivity|]. now requests.
Qed.

Lemma index_by_code_returns_iff_known_witness :
  (exists w', SystemQuery.get_output_device_index_by_code (Some Mock.ready) (Some "out.1")
                Mock.w0 = Returned 5 w') /\
  (exists w', SystemQuery.get_output_device_index_by_code (Some Mock.ready) (Some "usb.2")
                Mock.w0 = Blocked w' /\
              requests_of (w_trace w')
              = requests_of (w_trace Mock.w0) ++ [GetSinkInfoByName "usb.2"]).
Proof.
  split.
  - apply (index_by_code_returns_iff_known Mock.ready "out.1" Mock.w0); reflexivity.
  - apply (index_by_code_returns_iff_known Mock.ready "usb.2" Mock.w0); reflexivity.
Defined.

(** ** The manager on a device the server does not know *)

(** X12.  [manager_set_master_volume] with a percentage in range, on a device
    id the server does not know, never returns: its look-up
    [get_output_device_by_index] is sent and stays in its wait, and nothing
    else is sent. *)
Theorem set_master_volume_unknown_device (m : V014.pulseaudio_manager)
    (device_id volume : Z) (w : world) :
  0 <= volume <= 100 -> w_query_up w = true -> w_heap w = [] ->
  find_sink_by_index device_id (w_server w) = None ->
  exists w',
    V014.manager_set_master_volume (Some m) device_id volume w = Blocked w' /\
    requests_of (w_trace w') = requests_of (w_trace w) ++ [GetSinkInfoByIndex device_id].
Proof.
  intros Hv Hup Hh Hk. unfold V014.manager_set_master_volume.
  assert (E : (volume <? 0) || (100 <? volume) = false).
  { apply orb_false_intro; apply Z.ltb_ge; lia. }
  rewrite E. unfold SystemQuery.get_output_device_by_index.
  rewrite Hup, (alloc_granted _ Hh). cbn [negb].
  unfold pa_context_get_sink_info_by_index.
  cbn [context_ready SystemQuery.shared_context ctx_state]. rewrite Hk. cbn.
  eexists. split; [reflexivity|]. now requests.
Qed.

Lemma set_master_volume_unknown_device_witness :
  exists w',
    V014.manager_set_master_volume (Some Mock.m0) 7 50 Mock.w0 = Blocked w' /\
    requests_of (w_trace w') = requests_of (w_trace Mock.w0) ++ [GetSinkInfoByIndex 7].
Proof.
  apply (set_master_volume_unknown_device Mock.m0 7 50 Mock.w0);
    [lia|reflexivity|reflexivity|reflexivity].
Defined.

(** X13.  [manager_set_output_mute_state] on a sink index the server does not
    know never returns: the fetch is sent, its callback signals on the end of
    the list only, and no volume write follows. *)
Theorem set_output_mute_state_unknown_sink (self : V014.pulseaudio_manager)
    (c : pa_context) (sink_index channel : Z) (mute : bool) (w : world) :
  V014.context self = Some c -> context_ready c = true ->
  find_sink_by_index sink_index (w_server w) = None ->
  exists w',
    V014.manager_set_output_mute_state self sink_index channel mute w = Blocked w' /\
    requests_of (w_trace w') = requests_of (w_trace w) ++ [GetSinkInfoByIndex sink_index].
Proof.
  intros Hctx Hc Hk. unfold V014.manager_set_output_mute_state. rewrite Hctx.
  unfold pa_context_get_sink_info_by_index. rewrite Hc, Hk. cbn.
  eexists. split; [reflexivity|]. now requests.
Qed.

Lemma set_output_mute_state_unknown_sink_witness :
  exists w',
    V014.manager_set_output_mute_state Mock.m0 7 0 true Mock.w0 = Blocked w' /\
    requests_of (w_trace w') = requests_of (w_trace Mock.w0) ++ [GetSinkInfoByIndex 7].
Proof.
  apply (set_output_mute_state_unknown_sink Mock.m0 Mock.ready 7 0 true Mock.w0);
    reflexivity.
Defined.

(** X14.  [manager_switch_default_output] on a record whose code the server
    no longer has never returns: the default-sink request is refused by the
    server (and waited for), then the look-up of the code's index is sent and
    stays in its wait.  No stream is listed or moved, and the server is left
    as it was. *)
Theorem switch_default_output_unknown_code (self : V014.pulseaudio_manager)
    (c : pa_context) (device_index : Z) (w : world)
    (d : V014.pulseaudio_device) (cd : string) :
  V014.context self = Some c -> context_ready c = true ->
  0 <= device_index < V014.output_count self ->
  V014.outputs self !! Z.to_nat device_index = Some d ->
  V014.code d = Some cd ->
  w_query_up w = true ->
  find_sink_by_name cd (w_server w) = None ->
  exists w',
    V014.manager_switch_default_output self device_index w = Blocked w' /\
    requests_of (w_trace w')
    = requests_of (w_trace w) ++ [SetDefaultSink cd; GetSinkInfoByName cd] /\
    w_server w' = w_server w.
Proof.
  intros Hctx Hc Hidx Hd Hcode Hup Hk.
  unfold V014.manager_switch_default_output, V014.read_outputs_index, V014.read_outputs.
  rewrite Hctx, Hd. cbn [and_then].
  assert (E : (V014.output_count self <=? device_index) = false) by (apply Z.leb_gt; lia).
  rewrite E, Hcode.
  unfold pa_context_set_default_sink. rewrite Hc.
  cbn [w_server log]. unfold set_default_sink. rewrite Hk.
  erewrite new_iterate_answered by reflexivity.
  cbn [and_then Z.eqb].
  unfold SystemQuery.get_output_device_index_by_code. worlds. rewrite Hup. cbn [negb].
  unfold pa_context_get_sink_info_by_name. rewrite Hc. worlds. rewrite Hk. cbn.
  eexists. split; [reflexivity|]. split; [now requests|reflexivity].
Qed.

Lemma switch_default_output_unknown_code_witness :
  exists w',
    V014.manager_switch_default_output Mock.stale_m0 1 Mock.w0 = Blocked w' /\
    requests_of (w_trace w')
    = requests_of (w_trace Mock.w0) ++ [SetDefaultSink "usb.2"; GetSinkInfoByName "usb.2"] /\
    w_server w' = w_server Mock.w0.
Proof.
  apply (switch_default_output_unknown_code Mock.stale_m0 Mock.ready 1 Mock.w0
           {| V014.index := 7; V014.code := Some "usb.2"; V014.name := Some "Headset" |}
           "usb.2");
    [reflexivity|reflexivity|cbn; lia|reflexivity|reflexivity|reflexivity|reflexivity].
Defined.

(** ** Moving the streams *)

(** X15.  [manager_move_output_playback(self, sink1, sink2)] with both
    positions inside the catalog lists the streams and asks for one move per
    stream, of every stream of the server, in the order of the list, to the
    sink whose server id is the number [sink2] itself; [sink1] plays no part
    beyond the bounds test.  It returns 0 whether or not the server has a sink
    with that id: the answers to the moves are not looked at. *)
Theorem move_output_playback_run (m : V014.pulseaudio_manager) (c : pa_context)
    (sink1_index sink2_index : Z) (w : world) :
  V014.context m = Some c -> context_ready c = true ->
  sink1_index < V014.output_count m -> sink2_index < V014.output_count m ->
  sink2_index <> UINT32_MAX ->
  Forall (fun s => input_index s <> UINT32_MAX) (srv_sink_inputs (w_server w)) ->
  exists w',
    V014.manager_move_output_playback (Some m) sink1_index sink2_index w = Returned 0 w' /\
    requests_of (w_trace w')
    = requests_of (w_trace w)
      ++ GetSinkInputInfoList :: moves_to sink2_index (srv_sink_inputs (w_server w)).
Proof.
  intros Hctx Hc H1 H2 Hinv Hin. unfold V014.manager_move_output_playback.
  assert (E : (V014.output_count m <=? sink1_index) || (V014.output_count m <=? sink2_index)
              = false) by (apply orb_false_intro; apply Z.leb_gt; lia).
  rewrite E, Hctx. unfold pa_context_get_sink_input_info_list. rewrite Hc.
  match goal with
  | |- context [V014.iterate (Some (answered (deliver_items _ _ 1 false))) ?sd ?w0] =>
      destruct (deliver_moves c _ Hc Hin false sd
                  (log EvWait (pa_threaded_mainloop_lock w0)) Hinv)
        as (w' & Hrun & Hreq & _)
  end.
  rewrite (new_iterate_answered _ _ _ _ _ Hrun). cbn [and_then].
  eexists. split; [reflexivity|]. worlds. cbn [V014.new_index] in *.
  rewrite requests_of_app, Hreq. requests. reflexivity.
Qed.

Lemma move_output_playback_run_witness :
  (exists w',
      V014.manager_move_output_playback (Some Mock.m0) 0 1 Mock.w0 = Returned 0 w' /\
      requests_of (w_trace w')
      = [GetSinkInputInfoList; MoveSinkInputByIndex 11 1; MoveSinkInputByIndex 12 1;
         MoveSinkInputByIndex 13 1]) /\
  (exists w',
      V014.manager_move_output_playback (Some Mock.m0) 1 0 Mock.w0 = Returned 0 w' /\
      requests_of (w_trace w')
      = [GetSinkInputInfoList; MoveSinkInputByIndex 11 0; MoveSinkInputByIndex 12 0;
         MoveSinkInputByIndex 13 0]).
Proof.
  split.
  - apply (move_output_playback_run Mock.m0 Mock.ready 0 1 Mock.w0);
      [reflexivity|reflexivity|cbn; lia|cbn; lia|discriminate
      |repeat constructor; discriminate].
  - apply (move_output_playback_run Mock.m0 Mock.ready 1 0 Mock.w0);
      [reflexivity|reflexivity|cbn; lia|cbn; lia|discriminate
      |repeat constructor; discriminate].
Defined.

(** ** The first bridge: loading the catalog *)

Lemma steps_of_five_S (n : nat) :
  steps_of_five (S n) = steps_of_five n ++ [5 * Z.of_nat (S n)].
Proof. unfold steps_of_five. rewrite seq_S, map_app. reflexivity. Qed.

(** [device_cb] on a catalog that holds [device_count] records, with an
    allocator that grants everything: the resize keeps the records. *)
Lemma device_cb_resize (m : V003.pulseaudio_manager) (seen : list pa_sink_info) (w : world) :
  w_heap w = [] ->
  V003.device_count m = Z.of_nat (length seen) ->
  V003.devices m = map V003.device_of_sink seen ->
  Z.of_nat (length seen) + 5 < 4294967296 ->
  forall (c : pa_context) (i : option pa_sink_info) (eol : Z),
  V003.device_cb c i eol m w
  = let w1 := if V003.device_count m mod 5 =? 0
              then log (EvRealloc (V003.device_count m + 5)) w else w in
    if eol <? 0 then (m, pa_threaded_mainloop_signal w1, true)
    else if 0 <? eol then
      (V003.with_devices_loaded 1 m, pa_threaded_mainloop_signal w1, true)
    else
      match i with
      | Some info =>
          (V003.with_device_count (V003.device_count m + 1)
             (V003.with_devices (V003.devices m ++ [V003.device_of_sink info]) m),
           w1, false)
      | None => (m, w1, false)
      end.
Proof.
  intros Hh Hc Hd Hb c i eol. unfold V003.device_cb, V003.INITIAL_ALLOCATION_SIZE.
  assert (Et : take (Z.to_nat (wrap32 (V003.device_count m + 5))) (V003.devices m)
               = V003.devices m).
  { apply take_ge. rewrite Hd, length_map. unfold wrap32.
    rewrite Z.mod_small by lia. lia. }
  assert (Em : V003.with_devices (V003.devices m) m = m) by now destruct m.
  assert (E5 : wrap32 (V003.device_count m + 5) = V003.device_count m + 5)
    by (unfold wrap32; apply Z.mod_small; lia).
  assert (E1 : wrap32 (V003.device_count m + 1) = V003.device_count m + 1)
    by (unfold wrap32; apply Z.mod_small; lia).
  assert (Es : forall d, V003.store_device (V003.device_count m) d (V003.devices m)
                         = V003.devices m ++ [d]).
  { intros d. unfold V003.store_device.
    assert (E : (Z.to_nat (V003.device_count m) <? length (V003.devices m))%nat = false).
    { apply Nat.ltb_ge. rewrite Hd, length_map. lia. }
    now rewrite E. }
  destruct (V003.device_count m mod 5 =? 0).
  - rewrite (alloc_granted _ Hh), Et, Em, E5. cbn zeta.
    destruct (eol <? 0); [reflexivity|]. destruct (0 <? eol); [reflexivity|].
    destruct i; [|reflexivity]. now rewrite E1, Es.
  - cbn zeta. destruct (eol <? 0); [reflexivity|]. destruct (0 <? eol); [reflexivity|].
    destruct i; [|reflexivity]. now rewrite E1, Es.
Qed.

Lemma loading_items (c : pa_context) (base : list Z) (m0 : V003.pulseaudio_manager)
    (w0 : world) (items : list pa_sink_info) :
  forall (seen : list pa_sink_info) (m : V003.pulseaudio_manager) (w : world) (sig : bool),
    loading base m0 seen m w w0 ->
    Z.of_nat (length seen + length items) + 5 < 4294967296 ->
    exists m' w',
      deliver_items (V003.device_cb c) items 1 sig m w = (m', w', true) /\
      V003.devices m' = map V003.device_of_sink (seen ++ items) /\
      V003.device_count m' = Z.of_nat (length (seen ++ items)) /\
      V003.devices_loaded m' = 1 /\
      V003.context m' = V003.context m0 /\
      V003.pa_ready m' = V003.pa_ready m0 /\
      V003.active_device_index m' = V003.active_device_index m0 /\
      reallocs_of (w_trace w')
      = base ++ steps_of_five (S (length (seen ++ items) / 5)) /\
      requests_of (w_trace w') = requests_of (w_trace w0) /\
      w_server w' = w_server w0.
Proof.
  induction items as [|i items IH];
    intros seen m w sig (Hh & Hc & Hd & Hx & Hp & Ha & Hr & Hq & Hs) Hb.
  - cbn [deliver_items length] in *.
    rewrite (device_cb_resize m seen w Hh Hc Hd) by lia.
    cbn [Z.ltb Z.compare]. cbn zeta. eexists _, _. split; [now rewrite orb_true_r|].
    rewrite app_nil_r. cbn [V003.devices V003.device_count V003.devices_loaded
                            V003.with_devices_loaded V003.context V003.pa_ready
                            V003.active_device_index].
    repeat split; try assumption.
    + destruct (Z.eqb_spec (V003.device_count m mod 5) 0) as [E|E]; worlds;
        rewrite ?reallocs_of_app, Hr; cbn -[steps_of_five Nat.div Z.div Z.add];
          rewrite ?app_nil_r.
      * replace (length seen / 5)%nat with (Z.to_nat ((V003.device_count m + 4) / 5)).
        2:{ rewrite Hc. rewrite <- (Nat2Z.id (length seen / 5)), Nat2Z.inj_div.
            f_equal. Z.div_mod_to_equations; lia. }
        rewrite steps_of_five_S, app_assoc. f_equal. f_equal.
        rewrite Nat2Z.inj_succ, Z2Nat.id by (Z.div_mod_to_equations; lia).
        Z.div_mod_to_equations; lia.
      * f_equal. f_equal. rewrite Hc.
        rewrite <- (Nat2Z.id (S _)), Nat2Z.inj_succ, Nat2Z.inj_div.
        f_equal. Z.div_mod_to_equations; lia.
    + destruct (V003.device_count m mod 5 =? 0); worlds;
        rewrite ?requests_of_app, Hq; cbn; now rewrite ?app_nil_r.
    + destruct (V003.device_count m mod 5 =? 0); worlds; exact Hs.
  - cbn [deliver_items length] in *.
    rewrite (device_cb_resize m seen w Hh Hc Hd) by lia.
    cbn [Z.ltb Z.compare]. cbn zeta.
    match goal with |- context [deliver_items _ items 1 _ ?m1 ?w1] =>
      destruct (IH (seen ++ [i]) m1 w1 (sig || false)) as (m' & w' & Hrun & Hrest)
    end.
    + unfold loading.
      cbn [V003.devices V003.device_count V003.with_device_count V003.with_devices
           V003.context V003.pa_ready V003.active_device_index].
      rewrite length_app, map_app, Hd. cbn [length map].
      split; [now destruct (V003.device_count m mod 5 =? 0)|].
      split; [lia|]. split; [reflexivity|]. split; [exact Hx|]. split; [exact Hp|].
      split; [exact Ha|]. split; [|split].
      * destruct (Z.eqb_spec (V003.device_count m mod 5) 0) as [E|E]; worlds;
          rewrite ?reallocs_of_app, Hr; cbn -[steps_of_five Nat.div Z.div Z.add];
            rewrite ?app_nil_r.
        -- replace (Z.to_nat ((V003.device_count m + 1 + 4) / 5))
             with (S (Z.to_nat ((V003.device_count m + 4) / 5)))
             by (Z.div_mod_to_equations; lia).
           rewrite steps_of_five_S, app_assoc. f_equal. f_equal.
           rewrite Nat2Z.inj_succ, Z2Nat.id by (Z.div_mod_to_equations; lia).
           Z.div_mod_to_equations; lia.
        -- f_equal. f_equal. f_equal. Z.div_mod_to_equations; lia.
      * destruct (V003.device_count m mod 5 =? 0); worlds;
          rewrite ?requests_of_app, Hq; cbn; now rewrite ?app_nil_r.
      * destruct (V003.device_count m mod 5 =? 0); worlds; exact Hs.
    + rewrite length_app. cbn [length]. lia.
    + exists m', w'. split; [exact Hrun|]. now rewrite <- app_assoc in Hrest.
Qed.

(** The whole load, from an empty catalog. *)
Lemma load_devices_run (self : V003.pulseaudio_manager) (w : world) :
  context_ready (V003.context self) = true ->
  w_heap w = [] ->
  V003.device_count self = 0 -> V003.devices self = [] ->
  let ks := srv_sinks (w_server w) in
  Z.of_nat (length ks) + 5 < 4294967296 ->
  exists m' w',
    V003.load_devices self w = Returned (true, m') w' /\
    V003.devices m' = map V003.device_of_sink ks /\
    V003.device_count m' = Z.of_nat (length ks) /\
    V003.devices_loaded m' = 1 /\
    V003.context m' = V003.context self /\
    V003.pa_ready m' = V003.pa_ready self /\
    V003.active_device_index m' = V003.active_device_index self /\
    reallocs_of (w_trace w')
    = reallocs_of (w_trace w) ++ steps_of_five (S (length ks / 5)) /\
    requests_of (w_trace w') = requests_of (w_trace w) ++ [GetSinkInfoList] /\
    w_server w' = w_server w.
Proof.
  intros Hc Hh Hn Hd ks Hb. unfold V003.load_devices, pa_context_get_sink_info_list.
  rewrite Hc. fold ks.
  set (w0 := log EvWait (pa_threaded_mainloop_lock (submit GetSinkInfoList (w_server w) w))).
  destruct (loading_items (V003.context self) (reallocs_of (w_trace w)) self w0 ks
              [] self w0 false)
    as (m' & w' & Hrun & Hdev & Hcount & Hl & Hx & Hp & Hact & Hr & Hq & Hs).
  - unfold loading. rewrite Hn, Hd. unfold w0. worlds.
    rewrite !reallocs_of_app. cbn. rewrite !app_nil_r. auto 10.
  - cbn [length]. lia.
  - erewrite old_iterate_answered by exact Hrun. cbn [and_then].
    exists m'. eexists. split; [reflexivity|]. cbn [app] in *.
    split; [exact Hdev|]. split; [exact Hcount|]. split; [exact Hl|].
    split; [exact Hx|]. split; [exact Hp|]. split; [exact Hact|]. worlds.
    rewrite !reallocs_of_app, !requests_of_app, Hr, Hq, Hs. unfold w0. worlds.
    rewrite !requests_of_app. cbn. now rewrite !app_nil_r.
Qed.

(** X17.  [load_devices] on a manager with an empty catalog, a READY
    context and an allocator that grants everything: it returns [true]; the
    catalog holds one record per sink of the server, in the server's order,
    [device_count] is their number and [devices_loaded] is 1; one request was
    sent.  The array was reallocated to 5, 10, ... slots, once more than the
    records need when their number is a multiple of 5 (the resize comes
    before the end-of-list test), and [device_count] is below the number of
    slots the last reallocation gave. *)
Theorem load_devices_catalog (self : V003.pulseaudio_manager) (w : world) :
  context_ready (V003.context self) = true ->
  w_heap w = [] ->
  V003.device_count self = 0 -> V003.devices self = [] ->
  let ks := srv_sinks (w_server w) in
  Z.of_nat (length ks) + 5 < 4294967296 ->
  exists m' w' slots,
    V003.load_devices self w = Returned (true, m') w' /\
    V003.devices m' = map V003.device_of_sink ks /\
    V003.device_count m' = Z.of_nat (length ks) /\
    V003.devices_loaded m' = 1 /\
    reallocs_of (w_trace w')
    = reallocs_of (w_trace w) ++ steps_of_five (S (length ks / 5)) /\
    last (reallocs_of (w_trace w')) = Some slots /\
    V003.device_count m' < slots /\
    requests_of (w_trace w') = requests_of (w_trace w) ++ [GetSinkInfoList].
Proof.
  intros Hc Hh Hn Hd ks Hb.
  destruct (load_devices_run self w Hc Hh Hn Hd Hb)
    as (m' & w' & Hrun & Hdev & Hcount & Hl & _ & _ & _ & Hr & Hq & _).
  exists m', w', (5 * Z.of_nat (S (length ks / 5))).
  split; [exact Hrun|]. split; [exact Hdev|]. split; [exact Hcount|].
  split; [exact Hl|]. split; [exact Hr|]. split; [|split; [|exact Hq]].
  - rewrite Hr, steps_of_five_S, app_assoc. apply last_snoc.
  - rewrite Hcount, Nat2Z.inj_succ, Nat2Z.inj_div. change (Z.of_nat 5) with 5.
    unfold ks. Z.div_mod_to_equations; lia.
Qed.

Lemma load_devices_catalog_witness :
  exists m' w' slots,
    V003.load_devices Mock.fresh_m0 Mock.w0 = Returned (true, m') w' /\
    V003.devices m' = map V003.device_of_sink (srv_sinks Mock.srv0) /\
    V003.device_count m' = 2 /\
    V003.devices_loaded m' = 1 /\
    reallocs_of (w_trace w') = [5] /\
    last (reallocs_of (w_trace w')) = Some slots /\
    V003.device_count m' < slots /\
    requests_of (w_trace w') = [GetSinkInfoList].
Proof.
  apply (load_devices_catalog Mock.fresh_m0 Mock.w0);
    [reflexivity|reflexivity|reflexivity|reflexivity|cbn; lia].
Defined.

(** X18.  A catalog loaded by [load_devices] serves [set_volume]: for a
    manager whose [active_device_index] is a position of the server's list of
    sinks (neither [new_manager] nor [load_devices] sets that field), every
    position of that list, a percentage in range, and a sink of 1 to 32
    channels that its name finds, [set_volume] on the loaded manager returns
    [true], writes the uniform vector to the sink of that name and reads it
    back; the server then holds that vector, and so does the record of the
    active device. *)
Theorem loaded_catalog_serves_set_volume (self : V003.pulseaudio_manager) (w : world)
    (device_index : Z) (percentage : float) (k : pa_sink_info) :
  context_ready (V003.context self) = true ->
  w_heap w = [] ->
  V003.device_count self = 0 -> V003.devices self = [] ->
  V003.pa_ready self = 1 ->
  0 <= V003.active_device_index self < Z.of_nat (length (srv_sinks (w_server w))) ->
  Z.of_nat (length (srv_sinks (w_server w))) + 5 < 4294967296 ->
  PrimFloat.ltb percentage 0%float = false ->
  PrimFloat.ltb 100%float percentage = false ->
  0 <= device_index ->
  srv_sinks (w_server w) !! Z.to_nat device_index = Some k ->
  find_sink_by_name (sink_name k) (w_server w) = Some k ->
  (1 <= sink_channels k <= 32)%nat ->
  let v := pa_cvolume_set (sink_channels k) (V003.percent_to_volume percentage) in
  exists m1 w1 m2 w2,
    V003.load_devices self w = Returned (true, m1) w1 /\
    V003.set_volume (Some m1) device_index percentage w1 = Returned (true, Some m2) w2 /\
    requests_of (w_trace w2)
    = requests_of (w_trace w)
      ++ [GetSinkInfoList; SetSinkVolumeByName (sink_name k) v;
          GetSinkInfoByName (sink_name k)] /\
    find_sink_by_name (sink_name k) (w_server w2) = Some (with_volume v k) /\
    V003.volume <$> V003.devices m2 !! Z.to_nat (V003.active_device_index self) = Some v.
Proof.
  intros Hc Hh Hn Hd Hp Ha Hb Hlo Hhi Hi Hk Hname Hch v.
  destruct (load_devices_run self w Hc Hh Hn Hd Hb)
    as (m1 & w1 & Hrun & Hdev & Hcount & Hl & Hx & Hp1 & Hact & _ & Hq & Hs).
  destruct (set_volume_run m1 device_index percentage w1 (V003.device_of_sink k) k)
    as (m2 & w2 & Hrun2 & Hq2 & Hfind & Hst); try assumption.
  - rewrite Hcount. apply lookup_lt_Some in Hk. lia.
  - now rewrite Hdev, list_lookup_fmap, Hk.
  - now rewrite Hp1.
  - now rewrite Hx.
  - cbn [V003.name V003.device_of_sink]. now rewrite Hs.
  - reflexivity.
  - exists m1, w1, m2, w2. split; [exact Hrun|]. split; [exact Hrun2|].
    cbn [V003.name V003.channel_map V003.device_of_sink] in *. fold v in Hq2, Hfind, Hst.
    split; [rewrite Hq2, Hq, <- app_assoc; reflexivity|]. split; [exact Hfind|].
    rewrite Hst, Hact. unfold V003.store_volume.
    destruct (Z.ltb_spec (V003.active_device_index self) 0); [lia|].
    destruct (V003.devices m1 !! Z.to_nat (V003.active_device_index self)) as [d|] eqn:Ed.
    + rewrite list_lookup_insert_eq by (now apply lookup_lt_Some in Ed). reflexivity.
    + apply lookup_ge_None in Ed. rewrite Hdev, length_map in Ed. lia.
Qed.

Lemma loaded_catalog_serves_set_volume_witness :
  exists m1 w1 m2 w2,
    V003.load_devices Mock.fresh_m0 Mock.w0 = Returned (true, m1) w1 /\
    V003.set_volume (Some m1) 1 50%float w1 = Returned (true, Some m2) w2 /\
    requests_of (w_trace w2)
    = [GetSinkInfoList; SetSinkVolumeByName "out.1" [32768; 32768];
       GetSinkInfoByName "out.1"] /\
    find_sink_by_name "out.1" (w_server w2)
    = Some (with_volume [32768; 32768] (Mock.mk_sink 5 "out.1" "Headphones" [65536; 65536])) /\
    V003.volume <$> V003.devices m2 !! Z.to_nat (V003.active_device_index Mock.fresh_m0)
    = Some [32768; 32768].
Proof.
  apply (loaded_catalog_serves_set_volume Mock.fresh_m0 Mock.w0 1 50%float
           (Mock.mk_sink 5 "out.1" "Headphones" [65536; 65536]));
    [reflexivity|reflexivity|reflexivity|reflexivity|reflexivity|cbn; lia|cbn; lia
    |reflexivity|reflexivity|lia|reflexivity|reflexivity|cbn; lia].
Defined.

(** ** The first bridge: bringing the connection up *)

(** One wait for the connection: it ends at the first state that settles
    it, and never if there is none. *)
Lemma wait_turns_settles (states : list pa_context_state_t) :
  forall (m : V003.pulseaudio_manager) (w : world),
    V003.pa_ready m = 0 ->
    match first_settled states with
    | Some b =>
        exists m' rest w',
          wait_turns (map V003.state_change states) m w = Returned (m', rest) w' /\
          V003.pa_ready m' = (if b then 1 else 2) /\
          context_ready (V003.context m') = b /\
          waits_of (w_trace w') = waits_of (w_trace w)
    | None => exists w', wait_turns (map V003.state_change states) m w = Blocked w'
    end.
Proof.
  induction states as [|st states IH]; intros m w Hp; [cbn; eauto|].
  assert (Hgo : forall m1, V003.pa_ready m1 = 0 ->
            match first_settled states with
            | Some b =>
                exists m' rest w',
                  wait_turns (map V003.state_change states) m1 w = Returned (m', rest) w' /\
                  V003.pa_ready m' = (if b then 1 else 2) /\
                  context_ready (V003.context m') = b /\
                  waits_of (w_trace w') = waits_of (w_trace w)
            | None => exists w', wait_turns (map V003.state_change states) m1 w = Blocked w'
            end) by (intros m1 H1; apply IH; exact H1).
  destruct st; cbn [first_settled map wait_turns V003.state_change d_run d_state
                    V003.context_state_cb ctx_state];
    try (apply Hgo; exact Hp);
    eexists _, _, _; (split; [reflexivity|]); worlds; rewrite waits_of_app; cbn;
    repeat split; lia.
Qed.

(** X19.  [initialize], entered with [pa_ready] at 0 and with a main loop, a
    context and a connection attempt the library accepts, is decided by the
    first state among READY, FAILED and TERMINATED the context reaches: on
    READY it returns [true] with [pa_ready] at 1 and a READY context; on
    FAILED or TERMINATED it returns [false] with [pa_ready] at 2; in both
    cases after a single wait.  When the context reaches none of them it
    never returns: the wait has no bound. *)
Theorem initialize_settles (env : V003.connection) (self : V003.pulseaudio_manager)
    (w : world) :
  V003.conn_mainloop env = true -> V003.conn_context env = true ->
  V003.conn_connect env = true ->
  V003.pa_ready self = 0 ->
  match first_settled (V003.conn_states env) with
  | Some b =>
      exists m' w',
        V003.initialize env self w = Returned (b, m') w' /\
        V003.pa_ready m' = (if b then 1 else 2) /\
        context_ready (V003.context m') = b /\
        waits_of (w_trace w') = S (waits_of (w_trace w))
  | None => exists w', V003.initialize env self w = Blocked w'
  end.
Proof.
  intros H1 H2 H3 Hp. unfold V003.initialize. rewrite H1, H2, H3. cbn [negb].
  set (self1 := V003.with_context _ self).
  set (w1 := pa_threaded_mainloop_lock w).
  pose proof (wait_turns_settles (V003.conn_states env) self1 (log EvWait w1) Hp) as Hw.
  destruct (V003.conn_states env) as [|st states] eqn:Est.
  - cbn [map length V003.wait_until_ready first_settled].
    change (V003.pa_ready self1) with (V003.pa_ready self). rewrite Hp. cbn. eauto.
  - rewrite <- Est in *. rewrite length_map.
    assert (El : length (V003.conn_states env) = S (length states)) by now rewrite Est.
    rewrite El. cbn [V003.wait_until_ready].
    change (V003.pa_ready self1) with (V003.pa_ready self). rewrite Hp. cbn [Z.eqb].
    destruct (first_settled (V003.conn_states env)) as [b|].
    + destruct Hw as (m' & rest & w' & Hrun & Hr & Hc & Hwt). rewrite Hrun.
      assert (E0 : (V003.pa_ready m' =? 0) = false) by (rewrite Hr; now destruct b).
      destruct (length states); cbn [V003.wait_until_ready]; rewrite E0; cbn [and_then];
        rewrite Hr; destruct b; cbn [Z.eqb]; eexists _, _; (split; [reflexivity|]);
        (split; [exact Hr|]); (split; [exact Hc|]);
        worlds; rewrite waits_of_app, Hwt; unfold w1; worlds; rewrite !waits_of_app;
        cbn; lia.
    + destruct Hw as (w' & Hrun). rewrite Hrun. cbn. eauto.
Qed.

Lemma initialize_settles_witness :
  exists m' w',
    V003.initialize Mock.handshake (V003.with_pa_ready 0 Mock.old_m0) Mock.w0
    = Returned (true, m') w' /\
    V003.pa_ready m' = 1 /\
    context_ready (V003.context m') = true /\
    waits_of (w_trace w') = 1%nat.
Proof.
  apply (initialize_settles Mock.handshake (V003.with_pa_ready 0 Mock.old_m0) Mock.w0);
    reflexivity.
Defined.

(** X20.  [initialize] does not set [pa_ready] before it tests it: entered
    with a value other than 0 and 2 (the manager of [new_manager] comes from
    [malloc] and is not cleared), it returns [true] without a single wait,
    whatever the context does later; the context is then still CONNECTING, and
    the flag is as it was. *)
Theorem initialize_stale_flag (env : V003.connection) (self : V003.pulseaudio_manager)
    (w : world) :
  V003.conn_mainloop env = true -> V003.conn_context env = true ->
  V003.conn_connect env = true ->
  V003.pa_ready self <> 0 -> V003.pa_ready self <> 2 ->
  exists m' w',
    V003.initialize env self w = Returned (true, m') w' /\
    context_ready (V003.context m') = false /\
    V003.pa_ready m' = V003.pa_ready self /\
    waits_of (w_trace w') = waits_of (w_trace w).
Proof.
  intros H1 H2 H3 Hp0 Hp2. unfold V003.initialize. rewrite H1, H2, H3. cbn [negb].
  set (self1 := V003.with_context _ self).
  assert (E0 : (V003.pa_ready self1 =? 0) = false) by now apply Z.eqb_neq.
  assert (E2 : (V003.pa_ready self1 =? 2) = false) by now apply Z.eqb_neq.
  destruct (length (map V003.state_change (V003.conn_states env)));
    cbn [V003.wait_until_ready]; rewrite E0; cbn [and_then]; rewrite E2;
    eexists _, _; (split; [reflexivity|]); (split; [reflexivity|]);
    (split; [reflexivity|]); worlds; rewrite !waits_of_app; cbn; lia.
Qed.

Lemma initialize_stale_flag_witness :
  exists m' w',
    V003.initialize Mock.handshake Mock.old_m0 Mock.w0 = Returned (true, m') w' /\
    context_ready (V003.context m') = false /\
    V003.pa_ready m' = V003.pa_ready Mock.old_m0 /\
    waits_of (w_trace w') = waits_of (w_trace Mock.w0).
Proof.
  apply (initialize_stale_flag Mock.handshake Mock.old_m0 Mock.w0);
    [reflexivity|reflexivity|reflexivity|cbn; lia|cbn; lia].
Defined.

(** ** The first bridge: switching the device *)

Lemma wait_loop_handle_answered {U} (n : nat) (deliver : U -> world -> ran U)
    (u u' : U) (w w' : world) :
  deliver u (log EvWait w) = (u', w', true) ->
  V003.wait_loop_handle (S n) (answered deliver) u w
  = {| op_state := PA_OPERATION_DONE; op_pending := [] |}.
Proof.
  intros H. unfold answered. cbn [V003.wait_loop_handle pa_operation_get_state op_state].
  unfold pa_threaded_mainloop_wait. cbn [op_pending wait_turns d_run d_state].
  rewrite H. now destruct n.
Qed.

Lemma iterate_while_running_answered {U} (deliver : U -> world -> ran U)
    (u u' : U) (w w' : world) :
  deliver u (log EvWait (pa_threaded_mainloop_lock w)) = (u', w', true) ->
  V003.iterate_while_running 1 (answered deliver) u w
  = Returned u' (pa_threaded_mainloop_unlock (pa_threaded_mainloop_signal w')).
Proof.
  intros H. cbn [V003.iterate_while_running].
  change (pa_operation_get_state (answered deliver)) with PA_OPERATION_RUNNING.
  cbn iota. rewrite (old_iterate_answered _ _ _ _ _ H).
  change V003.MAX_WAIT_CYCLES with (S 99).
  now rewrite (wait_loop_handle_answered _ _ _ _ _ _ H).
Qed.

(** The stream callback of [switch_device] on a list. *)
Lemma deliver_switch_moves (c : pa_context) (m : V003.pulseaudio_manager)
    (d : V003.pulseaudio_device) (items : list pa_sink_input_info) :
  context_ready c = true ->
  V003.devices m !! Z.to_nat (V003.current_device_index m) = Some d ->
  V003.index d <> UINT32_MAX ->
  Forall (fun s => input_index s <> UINT32_MAX) items ->
  forall (signalled : bool) (w : world),
    exists w',
      deliver_items (V003.switch_device_cb c) items 1 signalled m w = (m, w', true) /\
      requests_of (w_trace w')
      = requests_of (w_trace w) ++ moves_to (V003.index d) items.
Proof.
  intros Hc Hd Hidx Hitems. induction Hitems as [|s items Hs _ IH]; intros sig w.
  - cbn. eexists. split; [rewrite orb_true_r; reflexivity|].
    cbn. rewrite requests_of_app. cbn. now rewrite !app_nil_r.
  - cbn [deliver_items]. unfold V003.switch_device_cb at 1.
    cbn [Z.eqb]. rewrite Hd. unfold pa_context_move_sink_input_by_index.
    rewrite Hc.
    assert (E1 : (input_index s =? UINT32_MAX) = false) by now apply Z.eqb_neq.
    assert (E2 : (V003.index d =? UINT32_MAX) = false) by now apply Z.eqb_neq.
    rewrite E1, E2. cbn [andb negb].
    destruct (move_sink_input (input_index s) (V003.index d) (w_server w))
      as [success s'] eqn:Em. cbn [snd].
    destruct (IH (sig || false)
                (submit (MoveSinkInputByIndex (input_index s) (V003.index d)) s' w))
      as (w' & Hrun & Hreq).
    exists w'. split; [exact Hrun|].
    rewrite Hreq. cbn. rewrite !requests_of_app. cbn.
    rewrite <- app_assoc. reflexivity.
Qed.

(** X21.  [switch_device] on a valid position, with a READY context: it
    records the position in [current_device_index], asks the server to make
    the record's name the default sink (and does not wait for the answer),
    lists the streams, and asks for one move per stream to the sink id cached
    in the record, in the order of the list; it returns [true]. *)
Theorem switch_device_run (m : V003.pulseaudio_manager) (device_index : Z) (w : world)
    (d : V003.pulseaudio_device) :
  context_ready (V003.context m) = true ->
  0 <= device_index < V003.device_count m ->
  V003.devices m !! Z.to_nat device_index = Some d ->
  V003.index d <> UINT32_MAX ->
  Forall (fun s => input_index s <> UINT32_MAX) (srv_sink_inputs (w_server w)) ->
  exists w',
    V003.switch_device (Some m) device_index w
    = Returned (true, Some (V003.with_current_device_index device_index m)) w' /\
    requests_of (w_trace w')
    = requests_of (w_trace w)
      ++ [SetDefaultSink (V003.name d); GetSinkInputInfoList]
      ++ moves_to (V003.index d) (srv_sink_inputs (w_server w)).
Proof.
  intros Hc Hi Hd Hidx Hin. unfold V003.switch_device.
  assert (E : (V003.device_count m <=? device_index) = false) by (apply Z.leb_gt; lia).
  rewrite E. cbn [V003.devices V003.with_current_device_index V003.context].
  rewrite Hd. unfold pa_context_set_default_sink. rewrite Hc.
  destruct (set_default_sink (V003.name d) (w_server w)) as [success s1] eqn:Es.
  assert (Hstreams : srv_sink_inputs s1 = srv_sink_inputs (w_server w)).
  { unfold set_default_sink in Es. destruct (find_sink_by_name _ _); now inversion Es. }
  unfold pa_context_get_sink_input_info_list. rewrite Hc. worlds. rewrite Hstreams.
  cbn [answered op_pending length].
  match goal with
  | |- context [V003.iterate_while_running 1 _ ?m1 ?w0] =>
      destruct (deliver_switch_moves (V003.context m) m1 d _ Hc
                  ltac:(cbn [V003.devices V003.current_device_index
                             V003.with_current_device_index]; exact Hd)
                  Hidx Hin false (log EvWait (pa_threaded_mainloop_lock w0)))
        as (w' & Hrun & Hreq);
      pose proof (iterate_while_running_answered _ _ _ _ _ Hrun) as Hit
  end.
  rewrite Hit. cbn [and_then].
  eexists. split; [reflexivity|]. worlds.
  rewrite !requests_of_app, Hreq. requests. reflexivity.
Qed.

Lemma switch_device_run_witness :
  exists w',
    V003.switch_device (Some Mock.old_m0) 1 Mock.w0
    = Returned (true, Some (V003.with_current_device_index 1 Mock.old_m0)) w' /\
    requests_of (w_trace w')
    = [SetDefaultSink "out.1"; GetSinkInputInfoList; MoveSinkInputByIndex 11 5;
       MoveSinkInputByIndex 12 5; MoveSinkInputByIndex 13 5].
Proof.
  apply (switch_device_run Mock.old_m0 1 Mock.w0
           {| V003.index := 5; V003.name := "out.1"; V003.description := "Headphones";
              V003.volume := [65536; 65536]; V003.channel_map := 2%nat;
              V003.mute := 0 |});
    [reflexivity|cbn; lia|reflexivity|discriminate|].
  repeat constructor; discriminate.
Defined.

(** X22.  [switch_device] on a valid position with a context that is not
    READY ends the process: the library refuses the default-sink request with
    a null handle, and the handle is unref'd without a test.  Nothing was sent
    or written before. *)
Theorem switch_device_unconnected (m : V003.pulseaudio_manager) (device_index : Z)
    (w : world) (d : V003.pulseaudio_device) :
  context_ready (V003.context m) = false ->
  0 <= device_index < V003.device_count m ->
  V003.devices m !! Z.to_nat device_index = Some d ->
  V003.switch_device (Some m) device_index w = Crashed w.
Proof.
  intros Hc Hi Hd. unfold V003.switch_device.
  assert (E : (V003.device_count m <=? device_index) = false) by (apply Z.leb_gt; lia).
  rewrite E. cbn [V003.devices V003.with_current_device_index V003.context].
  rewrite Hd. unfold pa_context_set_default_sink. now rewrite Hc.
Qed.

Lemma switch_device_unconnected_witness :
  V003.switch_device (Some Mock.offline_m0) 1 Mock.w0 = Crashed Mock.w0.
Proof.
  apply (switch_device_unconnected Mock.offline_m0 1 Mock.w0
           {| V003.index := 5; V003.name := "out.1"; V003.description := "Headphones";
              V003.volume := [65536; 65536]; V003.channel_map := 2%nat;
              V003.mute := 0 |});
    [reflexivity|cbn; lia|reflexivity].
Defined.

(** X23.  [switch_device] tests the position before it uses it: for a
    position at or past [device_count] it returns [false], the manager
    ([current_device_index] included) is as it was, nothing is sent and the
    server is unchanged. *)
Theorem switch_device_invalid_index (m : V003.pulseaudio_manager) (device_index : Z)
    (w : world) :
  V003.device_count m <= device_index ->
  exists w',
    V003.switch_device (Some m) device_index w = Returned (false, Some m) w' /\
    requests_of (w_trace w') = requests_of (w_trace w) /\
    w_server w' = w_server w.
Proof.
  intros Hi. unfold V003.switch_device.
  assert (E : (V003.device_count m <=? device_index) = true) by (apply Z.leb_le; lia).
  rewrite E. eexists. split; [reflexivity|]. split; [now requests|reflexivity].
Qed.

Lemma switch_device_invalid_index_witness :
  exists w',
    V003.switch_device (Some Mock.old_m0) 2 Mock.w0 = Returned (false, Some Mock.old_m0) w' /\
    requests_of (w_trace w') = requests_of (w_trace Mock.w0) /\
    w_server w' = w_server Mock.w0.
Proof. apply (switch_device_invalid_index Mock.old_m0 2 Mock.w0). cbn. lia. Defined.

(** X24.  [set_volume] of v-0.03 returns [false] and touches nothing (no
    request, no message, the manager as it was) when the percentage is below
    0 or above 100, when the position is at or past [device_count], or when
    the manager is not ready or its catalog not loaded. *)
Theorem old_set_volume_refusals (m : V003.pulseaudio_manager) (device_index : Z)
    (percentage : float) (w : world) :
  PrimFloat.ltb percentage 0%float = true \/ PrimFloat.ltb 100%float percentage = true \/
  V003.device_count m <= device_index \/
  V003.pa_ready m <> 1 \/ V003.devices_loaded m <> 1 ->
  V003.set_volume (Some m) device_index percentage w = Returned (false, Some m) w.
Proof.
  intros H. unfold V003.set_volume.
  destruct (PrimFloat.ltb percentage 0) eqn:E1; [reflexivity|].
  destruct (PrimFloat.ltb 100 percentage) eqn:E2; [reflexivity|].
  destruct (Z.leb_spec (V003.device_count m) device_index) as [E3|E3]; [reflexivity|].
  cbn [orb].
  destruct (Z.eqb_spec (V003.pa_ready m) 1) as [E4|E4]; [|reflexivity].
  destruct (Z.eqb_spec (V003.devices_loaded m) 1) as [E5|E5]; [|reflexivity].
  exfalso. destruct H as [H|[H|[H|[H|H]]]]; try discriminate; try lia; contradiction.
Qed.

Lemma old_set_volume_refusals_witness :
  V003.set_volume (Some Mock.old_m0) 0 150%float Mock.w0
  = Returned (false, Some Mock.old_m0) Mock.w0.
Proof.
  apply (old_set_volume_refusals Mock.old_m0 0 150%float Mock.w0).
  right. left. reflexivity.
Defined.

(** ** The bridge of the query layer *)

(** A wait on turns that all leave the operation running: it never ends,
    or it ends with a running operation that has fewer turns to come. *)
Lemma wait_turns_still_running {U} (ds : list (dispatch U)) :
  forall (u : U) (w : world),
    Forall (fun d => d_state d = PA_OPERATION_RUNNING) ds ->
    (exists w', wait_turns ds u w = Blocked w') \/
    (exists u' o' w',
        wait_turns ds u w = Returned (u', o') w' /\
        op_state o' = PA_OPERATION_RUNNING /\
        (length (op_pending o') < length ds)%nat /\
        Forall (fun d => d_state d = PA_OPERATION_RUNNING) (op_pending o')).
Proof.
  induction ds as [|d ds IHd]; intros u w Hall; [left; cbn; eauto|].
  apply Forall_cons in Hall as [Hd Hall]. cbn [wait_turns].
  destruct (d_run d u w) as [[u1 w1] [|]].
  - right. eexists _, _, _. split; [reflexivity|]. cbn. auto with lia.
  - destruct (IHd u1 w1 Hall) as [Hb|(u' & o' & w' & Hr & Ho & Hl & Hf)]; [now left|].
    right. exists u', o', w'. cbn [length]. auto with lia.
Qed.

(** X25.  The [iterate] of the query layer has no way out but completion:
    on an operation that is RUNNING and stays RUNNING through every turn of
    the event loop the call never returns, however many of those turns signal
    the waiter. *)
Theorem query_iterate_needs_completion {U} (op : pa_operation U) (u : U) (w : world) :
  op_state op = PA_OPERATION_RUNNING ->
  Forall (fun d => d_state d = PA_OPERATION_RUNNING) (op_pending op) ->
  exists w', SystemQuery.iterate (Some op) u w = Blocked w'.
Proof.
  intros Hs Hall. unfold SystemQuery.iterate.
  assert (G : forall (n : nat) (o : pa_operation U) (u : U) (w : world),
             (length (op_pending o) <= n)%nat ->
             op_state o = PA_OPERATION_RUNNING ->
             Forall (fun d => d_state d = PA_OPERATION_RUNNING) (op_pending o) ->
             exists w', SystemQuery.wait_while_running n o u w = Blocked w').
  { clear. induction n as [|n IH]; intros o u w Hn Hs Hall;
      cbn [SystemQuery.wait_while_running]; unfold pa_operation_get_state; rewrite Hs;
      [eauto|].
    unfold pa_threaded_mainloop_wait.
    destruct (wait_turns_still_running (op_pending o) u (log EvWait w) Hall)
      as [(w' & Hb)|(u' & o' & w' & Hr & Ho & Hl & Hf)].
    - rewrite Hb. eauto.
    - rewrite Hr. apply IH; [lia|exact Ho|exact Hf]. }
  destruct (G (length (op_pending op)) op u (pa_threaded_mainloop_lock w)) as [w' Hw];
    [lia|exact Hs|exact Hall|].
  rewrite Hw. cbn. eauto.
Qed.

Lemma query_iterate_needs_completion_witness :
  exists w', SystemQuery.iterate (Some (Mock.spinning 3)) tt Mock.w0 = Blocked w'.
Proof.
  apply (query_iterate_needs_completion (Mock.spinning 3) tt Mock.w0);
    [reflexivity|repeat constructor].
Defined.

(** ** The query layer: look-ups by name *)

(** The scan of an array that holds the records of [ks], then the sentinel. *)
Lemma scan_by_name_sentinel (n : string) (ks : list pa_sink_info)
    (rest : list (option pa_sink_info)) (w : world) :
  w_heap w = [] ->
  SystemQuery.scan_by_name n (map Some ks ++ None :: rest) w
  = Returned (option_map SystemQuery.copy_of
                (find (fun k => String.eqb (sink_name k) n) ks)) w.
Proof.
  intros Hh. induction ks as [|k ks IH]; [reflexivity|].
  cbn [map app SystemQuery.scan_by_name find].
  destruct (String.eqb (sink_name k) n); [|exact IH].
  now rewrite (alloc_granted _ Hh).
Qed.

(** X26.  On a server with no more sinks than sound cards (so that the array
    of [get_available_output_devices] holds every sink and the sentinel),
    [get_output_device_by_name] returns a copy of the first sink of that name,
    and NULL when there is none; the server is left as it was. *)
Theorem output_device_by_name_finds (n : string) (w : world) :
  w_query_up w = true -> w_heap w = [] ->
  Z.of_nat (length (srv_cards (w_server w))) + 1 < 4294967296 ->
  (length (srv_sinks (w_server w)) <= length (srv_cards (w_server w)))%nat ->
  exists w',
    SystemQuery.get_output_device_by_name (Some n) w
    = Returned (option_map SystemQuery.copy_of (find_sink_by_name n (w_server w))) w' /\
    w_server w' = w_server w.
Proof.
  intros Hup Hh Hb Hfit. unfold SystemQuery.get_output_device_by_name.
  rewrite Hup. cbn [negb].
  destruct (get_available_output_devices_run w Hup Hh Hb)
    as (arr & w' & Hrun & Hh' & Hs' & _ & Hcont).
  rewrite Hrun. cbn [and_then]. specialize (Hcont Hfit).
  rewrite <- (take_drop (S (length (srv_sinks (w_server w)))) arr), Hcont, <- app_assoc.
  cbn [app]. rewrite (scan_by_name_sentinel _ _ _ _ Hh').
  exists w'. split; [reflexivity|exact Hs'].
Qed.

Lemma output_device_by_name_finds_witness :
  exists w',
    SystemQuery.get_output_device_by_name (Some "out.1") (Mock.with_cards 3)
    = Returned (Some (SystemQuery.copy_of
                        (Mock.mk_sink 5 "out.1" "Headphones" [65536; 65536]))) w' /\
    w_server w' = w_server (Mock.with_cards 3).
Proof.
  apply (output_device_by_name_finds "out.1" (Mock.with_cards 3));
    [reflexivity|reflexivity|cbn; lia|cbn; lia].
Defined.

(** Once no sink is named like the text in [result], the text stays. *)
Lemma name_scan_settled (c : pa_context) (items : list pa_sink_info) (r : string) :
  Forall (fun k => sink_name k <> r) items ->
  forall (sig : bool) (w : world),
    deliver_items (SystemQuery.get_output_name_by_code_cb c) items 1 sig r w
    = (r, pa_threaded_mainloop_signal w, true).
Proof.
  induction 1 as [|k items Hk _ IH]; intros sig w.
  - cbn. now rewrite orb_true_r.
  - cbn [deliver_items]. unfold SystemQuery.get_output_name_by_code_cb at 1.
    cbn [Z.ltb Z.compare].
    assert (E : String.eqb (sink_name k) r = false) by now apply String.eqb_neq.
    rewrite E. apply IH.
Qed.

Lemma name_scan_found (c : pa_context) (cd : string) (k : pa_sink_info)
    (items : list pa_sink_info) :
  find (fun k' => String.eqb (sink_name k') cd) items = Some k ->
  Forall (fun k' => sink_name k' <> sink_description k) items ->
  forall (sig : bool) (w : world),
    deliver_items (SystemQuery.get_output_name_by_code_cb c) items 1 sig cd w
    = (sink_description k, pa_threaded_mainloop_signal w, true).
Proof.
  induction items as [|a items IH]; intros Hf Hall sig w; [discriminate|].
  apply Forall_cons in Hall as [Ha Hall].
  cbn [deliver_items]. unfold SystemQuery.get_output_name_by_code_cb at 1.
  cbn [Z.ltb Z.compare]. cbn [find] in Hf.
  destruct (String.eqb (sink_name a) cd).
  - inversion Hf; subst a. now apply name_scan_settled.
  - now apply IH.
Qed.

(** X27.  [get_output_name_by_code] lists the sinks once and returns the
    description of the first sink named by the code, provided that the
    description differs from the code and that no sink is named like that
    description (the callback compares each name with the text it has
    collected so far, not with the code). *)
Theorem output_name_by_code_found (c : pa_context) (cd : string) (w : world)
    (k : pa_sink_info) :
  context_ready c = true -> w_query_up w = true ->
  find_sink_by_name cd (w_server w) = Some k ->
  sink_description k <> cd ->
  Forall (fun k' => sink_name k' <> sink_description k) (srv_sinks (w_server w)) ->
  exists w',
    SystemQuery.get_output_name_by_code (Some c) (Some cd) w
    = Returned (Some (sink_description k)) w' /\
    requests_of (w_trace w') = requests_of (w_trace w) ++ [GetSinkInfoList].
Proof.
  intros Hc Hup Hk Hd Hall. unfold SystemQuery.get_output_name_by_code.
  rewrite Hup. cbn [negb]. unfold pa_context_get_sink_info_list. rewrite Hc.
  erewrite query_iterate_answered by (apply (name_scan_found _ _ k); assumption).
  cbn [and_then].
  assert (E : String.eqb (sink_description k) cd = false) by now apply String.eqb_neq.
  rewrite E. cbn [negb]. eexists. split; [reflexivity|]. now requests.
Qed.

Lemma output_name_by_code_found_witness :
  exists w',
    SystemQuery.get_output_name_by_code (Some Mock.ready) (Some "out.1") Mock.w0
    = Returned (Some "Headphones") w' /\
    requests_of (w_trace w') = requests_of (w_trace Mock.w0) ++ [GetSinkInfoList].
Proof.
  apply (output_name_by_code_found Mock.ready "out.1" Mock.w0
           (Mock.mk_sink 5 "out.1" "Headphones" [65536; 65536]));
    [reflexivity|reflexivity|reflexivity|discriminate|].
  repeat constructor; discriminate.
Defined.

Lemma name_scan_same_text (c : pa_context) (cd : string) (items : list pa_sink_info) :
  Forall (fun k => sink_name k = cd -> sink_description k = cd) items ->
  forall (sig : bool) (w : world),
    deliver_items (SystemQuery.get_output_name_by_code_cb c) items 1 sig cd w
    = (cd, pa_threaded_mainloop_signal w, true).
Proof.
  induction 1 as [|k items Hk _ IH]; intros sig w.
  - cbn. now rewrite orb_true_r.
  - cbn [deliver_items]. unfold SystemQuery.get_output_name_by_code_cb at 1.
    cbn [Z.ltb Z.compare].
    destruct (String.eqb_spec (sink_name k) cd) as [E|E]; [rewrite (Hk E)|]; apply IH.
Qed.

(** X28.  [get_output_name_by_code] tells a match by the text having
    changed: it returns NULL whenever every sink named by the code is
    described by that same text, be there such a sink or not. *)
Theorem output_name_by_code_same_text (c : pa_context) (cd : string) (w : world) :
  context_ready c = true -> w_query_up w = true ->
  Forall (fun k => sink_name k = cd -> sink_description k = cd) (srv_sinks (w_server w)) ->
  exists w',
    SystemQuery.get_output_name_by_code (Some c) (Some cd) w = Returned None w' /\
    requests_of (w_trace w') = requests_of (w_trace w) ++ [GetSinkInfoList].
Proof.
  intros Hc Hup Hall. unfold SystemQuery.get_output_name_by_code.
  rewrite Hup. cbn [negb]. unfold pa_context_get_sink_info_list. rewrite Hc.
  erewrite query_iterate_answered by (apply name_scan_same_text; assumption).
  cbn [and_then]. rewrite String.eqb_refl. cbn [negb].
  eexists. split; [reflexivity|]. now requests.
Qed.

Lemma output_name_by_code_same_text_witness :
  find_sink_by_name "null" (w_server Mock.w_plain) <> None /\
  exists w',
    SystemQuery.get_output_name_by_code (Some Mock.ready) (Some "null") Mock.w_plain
    = Returned None w' /\
    requests_of (w_trace w') = requests_of (w_trace Mock.w_plain) ++ [GetSinkInfoList].
Proof.
  split; [discriminate|].
  apply (output_name_by_code_same_text Mock.ready "null" Mock.w_plain);
    [reflexivity|reflexivity|].
  repeat constructor.
Defined.
